(** * obsidian-html-export: the batch export orchestrator of [src/main.ts]

    A shallow embedding of the [PandocPlugin] class: the two command-palette
    entries registered by [registerCommands] ("Export all as html" and
    "Export all as mind map"), [currentFileCanBeExported],
    [createBinaryMap], [startHtmlExport] and [startMapExport].

    The host application (Obsidian's workspace and vault), the renderer
    ([render], [renderDiv]), [lookpath] and Node's [fs] are external
    collaborators.  They are modelled as a record of oracles ([Host]) whose
    answers may depend on everything that happened before (the event trace),
    and every effect the plugin performs is recorded as an [Event]. *)

From Stdlib Require Import ZArith Ascii String.
From stdpp Require Import base option list strings gmap pretty.


(** ** JavaScript values *)

(** An exception value, identified with what [e.toString()] yields. *)
Definition Error := string.

Inductive Result (A : Type) : Type :=
| Ok (a : A)
| Err (e : Error).
Arguments Ok {A} a.
Arguments Err {A} e.

(** Truthiness of a value of type [string | null | undefined]: [null],
    [undefined] and the empty string are falsy. *)
Definition truthy (v : option string) : bool :=
  match v with
  | Some s => negb (String.eqb s "")
  | None => false
  end.

(** [a || b] *)
Definition js_or (a b : option string) : option string :=
  if truthy a then a else b.

(** [s.endsWith(suffix)] *)
Definition endsWith (s suffix : string) : bool :=
  let n := String.length s in
  let m := String.length suffix in
  if (m <=? n)%nat then String.eqb (substring (n - m) m s) suffix else false.

(** ** Node's [path] module (POSIX flavour)

    [path.basename] and [path.join] as Node implements them for POSIX
    paths, where ["/"] is the only separator. *)
Module path.

Definition slash : ascii := "/"%char.

(** The segments of a path between separators: [split "a//b" = ["a"; ""; "b"]]. *)
Fixpoint split (p : string) : list string :=
  match p with
  | EmptyString => [EmptyString]
  | String c rest =>
      if Ascii.eqb c slash then EmptyString :: split rest
      else match split rest with
           | seg :: segs => String c seg :: segs
           | [] => [String c EmptyString]
           end
  end.

(** [segments.join("/")] *)
Fixpoint unsplit (segs : list string) : string :=
  match segs with
  | [] => ""
  | [seg] => seg
  | seg :: rest => seg +:+ "/" +:+ unsplit rest
  end.

(** [path.basename(p)]: trailing separators are skipped, then the last
    segment is returned; [""] when there is none. *)
Definition basename (p : string) : string :=
  match filter (λ seg, seg ≠ "") (reverse (split p)) with
  | seg :: _ => seg
  | [] => ""
  end.

(** One step of [normalizeString]: [res] holds the segments kept so far,
    the most recent first. *)
Definition normalizeSegment (allowAboveRoot : bool)
    (res : list string) (seg : string) : list string :=
  if decide (seg = "" ∨ seg = ".") then res
  else if decide (seg = "..") then
    match res with
    | last :: before =>
        if decide (last = "..")
        then (if allowAboveRoot then ".." :: res else res)
        else before
    | [] => if allowAboveRoot then [".."] else []
    end
  else seg :: res.

Definition normalizeString (p : string) (allowAboveRoot : bool) : string :=
  unsplit (reverse (foldl (normalizeSegment allowAboveRoot) [] (split p))).

Definition isAbsolute (p : string) : bool :=
  match p with
  | String c _ => Ascii.eqb c slash
  | EmptyString => false
  end.

(** [path.normalize(p)] *)
Definition normalize (p : string) : string :=
  if decide (p = "") then "."
  else
    let trailingSeparator := endsWith p "/" in
    let q := normalizeString p (negb (isAbsolute p)) in
    if decide (q = "") then
      (if isAbsolute p then "/" else if trailingSeparator then "./" else ".")
    else
      let q := if trailingSeparator then q +:+ "/" else q in
      if isAbsolute p then "/" +:+ q else q.

(** [path.join(a, b)]: the non-empty arguments are glued with ["/"] and
    the result is normalized; ["."] when both are empty. *)
Definition join (a b : string) : string :=
  if decide (a = "") then
    (if decide (b = "") then "." else normalize b)
  else if decide (b = "") then normalize a
  else normalize (a +:+ "/" +:+ b).

End path.

(** ** [global.ts] and [pandoc.ts] *)

(** Modelled from the spec: [replaceFileExtension] lives in [global.ts],
    which is not among the sources.  The spec gives "input [name.ext] ->
    [name.<target-extension>]": everything from the last dot on is replaced
    by a dot and the new extension; a name without a dot just gets the
    extension appended. *)
Fixpoint beforeLastDot (file : string) : option string :=
  match file with
  | EmptyString => None
  | String c rest =>
      match beforeLastDot rest with
      | Some stem => Some (String c stem)
      | None => if Ascii.eqb c "."%char then Some EmptyString else None
      end
  end.

Definition replaceFileExtension (file ext : string) : string :=
  default file (beforeLastDot file) +:+ "." +:+ ext.

(** The fields of [PandocPluginSettings] that [main.ts] reads; each is a
    [string | null]. *)
Record PandocPluginSettings := {
  outputFolder : option string;
  pandoc : option string;
  pdflatex : option string
}.

(** [OutputFormat] is a union of string literals. *)
Definition OutputFormat := string.

(** ** The host application *)

(** A [TFile]: a note of the vault, known by its vault-relative path. *)
Record TFile := { file_path : string }.

Global Instance TFile_eq_dec : EqDecision TFile.
Proof. solve_decision. Defined.

Inductive RenderMode :=
| FullDocument   (* render *)
| DivFragment.   (* renderDiv *)

(** Everything the plugin does to the outside world, in the order it
    happens.  Calls that may fail carry their outcome. *)
Inductive Event :=
| Notice (message : string) (timeout : option Z)
| ConsoleLog (message : string)
| ConsoleError (e : Error)
| OpenFile (file : TFile) (outcome : option Error)
| Render (mode : RenderMode) (view : option TFile)
         (inputFile : string) (format : OutputFormat) (outcome : Result string)
| WriteFile (path data : string) (outcome : option Error)
| AppendFile (path data : string) (outcome : option Error).

(** The collaborators.  An oracle that takes the trace so far may answer
    differently each time it is asked. *)
Record Host := {
  (* this.app.vault.getMarkdownFiles() *)
  getMarkdownFiles : Result (list TFile);
  (* this.app.vault.adapter instanceof FileSystemAdapter *)
  adapterIsFileSystemAdapter : bool;
  (* adapter.getFullPath(path), adapter.getBasePath() *)
  getFullPath : string → string;
  getBasePath : string;
  (* leaf.openFile(file): the error it rejects with, if any *)
  openFile_error : list Event → TFile → option Error;
  (* render / renderDiv: the html, or the error thrown *)
  render_result :
    list Event → RenderMode → option TFile → string → OutputFormat → Result string;
  (* fs.promises.writeFile / appendFile: the I/O error, if any *)
  writeFile_error : list Event → string → string → option Error;
  appendFile_error : list Event → string → string → option Error;
  (* fs.promises.writeFile started without await: how many of the steps
     that its caller awaits from then on are over when it opens the file,
     and how many more when it writes its data *)
  writeFile_lag : list Event → string → string → nat * nat;
  (* lookpath(name) *)
  lookpath : string → option string
}.

(** The mutable state: the plugin's fields, the workspace, the disk, and
    the record of what happened. *)
Record State := {
  settings : PandocPluginSettings;
  (* this.features; a key may be bound to undefined *)
  features : gmap string (option string);
  (* workspace.activeLeaf, and the file it displays *)
  activeLeaf : option (option TFile);
  (* workspace.getActiveFile() *)
  activeFile : option TFile;
  (* file contents by path *)
  disk : gmap string string;
  trace : list Event;
  (* rejections of promises that nobody awaits *)
  unhandled : list Error
}.

Definition emit (ev : Event) (s : State) : State :=
  {| settings := settings s; features := features s;
     activeLeaf := activeLeaf s; activeFile := activeFile s;
     disk := disk s; trace := trace s ++ [ev]; unhandled := unhandled s |}.

Definition display (f : TFile) (s : State) : State :=
  {| settings := settings s; features := features s;
     activeLeaf := Some (Some f); activeFile := Some f;
     disk := disk s; trace := trace s; unhandled := unhandled s |}.

Definition store (p data : string) (s : State) : State :=
  {| settings := settings s; features := features s;
     activeLeaf := activeLeaf s; activeFile := activeFile s;
     disk := <[p := data]> (disk s); trace := trace s; unhandled := unhandled s |}.

Definition unhandledRejection (e : Error) (s : State) : State :=
  {| settings := settings s; features := features s;
     activeLeaf := activeLeaf s; activeFile := activeFile s;
     disk := disk s; trace := trace s; unhandled := unhandled s ++ [e] |}.

Definition setFeature (k : string) (v : option string) (s : State) : State :=
  {| settings := settings s; features := <[k := v]> (features s);
     activeLeaf := activeLeaf s; activeFile := activeFile s;
     disk := disk s; trace := trace s; unhandled := unhandled s |}.

(** [this.features[k]] *)
Definition feature (s : State) (k : string) : option string :=
  mjoin (features s !! k).

(** ** Computations: state passing with exceptions

    A synchronous call, or an awaited promise: it runs to its end, changes
    the state, and either returns or throws.  What happened before a throw
    stays in the state. *)
Definition M (A : Type) : Type := State → State * Result A.

Definition ret {A} (a : A) : M A := λ s, (s, Ok a).

Definition throw {A} (e : Error) : M A := λ s, (s, Err e).

Definition bind {A B} (m : M A) (k : A → M B) : M B :=
  λ s, match m s with
       | (s', Ok a) => k a s'
       | (s', Err e) => (s', Err e)
       end.

Notation "x <- m ;; k" := (bind m (λ x, k))
  (at level 100, m at next level, right associativity).
Notation "m >> k" := (bind m (λ _, k))
  (at level 100, right associativity).

(** [try { body } catch (e) { handler }] *)
Definition try_catch {A} (body : M A) (handler : Error → M A) : M A :=
  λ s, match body s with
       | (s', Ok a) => (s', Ok a)
       | (s', Err e) => handler e s'
       end.

(** A promise that is started and not awaited: the caller goes on whatever
    the outcome; a rejection stays unhandled. *)
Definition detached {A} (m : M A) : M unit :=
  λ s, match m s with
       | (s', Ok _) => (s', Ok tt)
       | (s', Err e) => (unhandledRejection e s', Ok tt)
       end.

Definition get {A} (proj : State → A) : M A := λ s, (s, Ok (proj s)).

Definition liftResult {A} (r : Result A) : M A := λ s, (s, r).

(** *** Primitive effects *)

Definition newNotice (message : string) (timeout : option Z) : M unit :=
  λ s, (emit (Notice message timeout) s, Ok tt).

Definition console_log (message : string) : M unit :=
  λ s, (emit (ConsoleLog message) s, Ok tt).

Definition console_error (e : Error) : M unit :=
  λ s, (emit (ConsoleError e) s, Ok tt).

(** Reading [openFile] off a [null] leaf. *)
Definition TypeError_openFile : Error :=
  "TypeError: Cannot read properties of null (reading 'openFile')".

(** [this.app.workspace.activeLeaf.openFile(file)] *)
Definition openFile (h : Host) (file : TFile) : M unit :=
  λ s, match activeLeaf s with
       | None => (s, Err TypeError_openFile)
       | Some _ =>
           match openFile_error h (trace s) file with
           | Some e => (emit (OpenFile file (Some e)) s, Err e)
           | None => (emit (OpenFile file None) (display file s), Ok tt)
           end
       end.

(** [this.app.workspace.getActiveViewOfType(MarkdownView)] *)
Definition getActiveViewOfType : M (option TFile) :=
  get (λ s, mjoin (activeLeaf s)).

(** A call to the renderer of [renderer.ts]; of its result only the [html]
    is used. *)
Definition callRenderer (h : Host) (mode : RenderMode) (view : option TFile)
    (inputFile : string) (format : OutputFormat) : M string :=
  λ s, let r := render_result h (trace s) mode view inputFile format in
       (emit (Render mode view inputFile format r) s, r).

(** [render(this, view, inputFile, format)] *)
Definition render (h : Host) : option TFile → string → OutputFormat → M string :=
  callRenderer h FullDocument.

(** [renderDiv(this, view, inputFile, format)] *)
Definition renderDiv (h : Host) : option TFile → string → OutputFormat → M string :=
  callRenderer h DivFragment.

(** [fs.promises.writeFile(path, data)]: the file is replaced. *)
Definition writeFile (h : Host) (p data : string) : M unit :=
  λ s, match writeFile_error h (trace s) p data with
       | Some e => (emit (WriteFile p data (Some e)) s, Err e)
       | None => (emit (WriteFile p data None) (store p data s), Ok tt)
       end.

(** [fs.promises.appendFile(path, data)]: the file is created when absent. *)
Definition appendFile (h : Host) (p data : string) : M unit :=
  λ s, match appendFile_error h (trace s) p data with
       | Some e => (emit (AppendFile p data (Some e)) s, Err e)
       | None =>
           (emit (AppendFile p data None)
              (store p (default "" (disk s !! p) +:+ data) s), Ok tt)
       end.

(** *** A write that nobody awaits

    [fs.promises.writeFile(path, data)] opens the file for writing, which
    empties it, and then writes [data] from the start of the file.  When
    the call is awaited, both steps are over before the caller goes on:
    that is [writeFile] above.  When it is not, they take place while the
    caller runs on, and what the caller appends in the meantime meets the
    file as the write has left it so far.  The caller's steps are what it
    awaits in turn; each step below touches the file at most once, so a
    step of the write that falls within a step of the caller is counted
    before it or after it, according to which of the two reaches the file
    first.  A write that fails is taken to fail when it opens the file. *)

(** [s.slice(n)] *)
Fixpoint sliceFrom (n : nat) (s : string) : string :=
  match n, s with
  | S n', String _ rest => sliceFrom n' rest
  | _, _ => s
  end.

(** A write in flight: its arguments, how it will end, and the number of
    steps of the caller after which it opens the file and after which it
    writes. *)
Record Unawaited := {
  uw_path : string;
  uw_data : string;
  uw_error : option Error;
  uw_opens : nat;
  uw_writes : nat
}.

(** The call is made now; the file is touched later. *)
Definition unawaited_writeFile (h : Host) (p data : string) : M Unawaited :=
  λ s, let lag := writeFile_lag h (trace s) p data in
       let w := writeFile_error h (trace s) p data in
       (emit (WriteFile p data w) s,
        Ok {| uw_path := p; uw_data := data; uw_error := w;
              uw_opens := lag.1; uw_writes := lag.1 + lag.2 |}).

(** The file is opened with flag [w]: it is emptied, or the open fails and
    the promise of the write is rejected. *)
Definition opens (u : Unawaited) (s : State) : State :=
  match uw_error u with
  | Some e => unhandledRejection e s
  | None => store (uw_path u) "" s
  end.

(** The data is written from the start of the file, over what is there. *)
Definition writes (u : Unawaited) (s : State) : State :=
  match uw_error u with
  | Some _ => s
  | None =>
      store (uw_path u)
        (uw_data u +:+
         sliceFrom (String.length (uw_data u)) (default "" (disk s !! uw_path u)))
        s
  end.

(** What the write does when [k] steps of the caller are over, and what is
    left of it to do once the caller has ended after [k] steps. *)
Definition lands (u : Unawaited) (k : nat) (s : State) : State :=
  let s1 := if decide (k = uw_opens u) then opens u s else s in
  if decide (k = uw_writes u) then writes u s1 else s1.

Definition landsFrom (u : Unawaited) (k : nat) (s : State) : State :=
  let s1 := if decide (k ≤ uw_opens u) then opens u s else s in
  if decide (k ≤ uw_writes u) then writes u s1 else s1.

(** An [async] function that is called and not awaited while [u] is in
    flight: its awaited [steps] run in turn, [u] lands between them, a
    step that throws ends the function and rejects its promise, which
    stays unhandled.  In the end both have settled. *)
Fixpoint runBeside (u : Unawaited) (k : nat) (steps : list (M unit))
    (s : State) : State :=
  match steps with
  | [] => landsFrom u k s
  | step :: rest =>
      match step (lands u k s) with
      | (s', Ok _) => runBeside u (S k) rest s'
      | (s', Err e) => landsFrom u (S k) (unhandledRejection e s')
      end
  end.

(** A callback that runs to its end without yielding while [u] is in
    flight: [m] is what it does itself, handing back the steps of the
    [async] function it has started, if any.  These run beside [u] once
    the callback has returned; when the callback throws, [u] lands all
    the same. *)
Definition startedBeside (u : Unawaited) (m : M (list (M unit))) : M unit :=
  λ s, match m s with
       | (s', Ok steps) => (runBeside u 0 steps s', Ok tt)
       | (s', Err e) => (landsFrom u 0 s', Err e)
       end.

(** ** [PandocPlugin] *)

(** [getCurrentFile()] *)
Definition getCurrentFile (h : Host) (s : State) : option string :=
  match activeFile s with
  | None => None
  | Some fileData =>
      if adapterIsFileSystemAdapter h
      then Some (getFullPath h (file_path fileData))
      else None
  end.

Section Eligibility.
(** [pandoc.ts] is not among the sources: its table of input extensions
    and the two predicates on formats are parameters. *)
Variable inputExtensions : list string.
Variables needsPandoc needsLaTeX : OutputFormat → bool.

(** [for (const ext of exts) { if (file.endsWith(ext)) return true; } return false;] *)
Fixpoint endsWithOneOf (file : string) (exts : list string) : bool :=
  match exts with
  | [] => false
  | ext :: rest => if endsWith file ext then true else endsWithOneOf file rest
  end.

(** [currentFileCanBeExported(format)] *)
Definition currentFileCanBeExported (h : Host) (s : State)
    (format : OutputFormat) : bool :=
  if needsPandoc format && negb (truthy (feature s "pandoc")) then false
  else if needsLaTeX format && negb (truthy (feature s "pdflatex")) then false
  else
    let file := getCurrentFile h s in
    if negb (truthy file) then false
    else endsWithOneOf (default "" file) inputExtensions.
End Eligibility.

(** [createBinaryMap()] *)
Definition createBinaryMap (h : Host) : M unit :=
  λ s,
    let s1 := setFeature "pandoc"
                (js_or (pandoc (settings s)) (lookpath h "pandoc")) s in
    let s2 := setFeature "pdflatex"
                (js_or (pdflatex (settings s1)) (lookpath h "pdflatex")) s1 in
    (s2, Ok tt).

(** The destination computed at the head of [startHtmlExport]. *)
Definition htmlOutputFile (st : PandocPluginSettings) (inputFile : string) : string :=
  let extension := "html" in
  let htmlContentFolder := "html" in
  let outputFile := replaceFileExtension inputFile extension in
  if truthy (outputFolder st) then
    path.join (default "" (outputFolder st) +:+ "\" +:+ htmlContentFolder)
              (path.basename outputFile)
  else
    path.join htmlContentFolder (path.basename outputFile).

Definition exportFailed (e : Error) : M unit :=
  newNotice ("Pandoc export failed: " +:+ e) (Some 15000%Z) >>
  console_error e.

(** [startHtmlExport(file, inputFile, shortName)] *)
Definition startHtmlExport (h : Host) (file : TFile)
    (inputFile shortName : string) : M unit :=
  newNotice ("Exporting " +:+ inputFile +:+ " to " +:+ shortName) None >>
  console_log ("exporting: " +:+ inputFile) >>
  let format := "html" in
  outputFile <- get (λ s, htmlOutputFile (settings s) inputFile) ;;
  openFile h file >>
  view <- getActiveViewOfType ;;
  try_catch
    (html <- render h view inputFile format ;;
     writeFile h outputFile html >>
     console_log ("Successfully exported: " +:+ inputFile) >>
     newNotice ("Successfully exported via Pandoc to " +:+ outputFile) None)
    exportFailed.

(** [startMapExport(obsidianFile, inputFile, outputFile)] *)
Definition startMapExport (h : Host) (obsidianFile : TFile)
    (inputFile outputFile : string) : M unit :=
  newNotice ("Exporting " +:+ inputFile +:+ " to map") None >>
  console_log ("Map exporting: " +:+ inputFile) >>
  let format := "html" in
  openFile h obsidianFile >>
  view <- getActiveViewOfType ;;
  try_catch
    (html <- renderDiv h view inputFile format ;;
     appendFile h outputFile html >>
     console_log ("Successfully Map exported: " +:+ inputFile) >>
     newNotice ("Successfully exported via Pandoc to " +:+ outputFile) None)
    exportFailed.

(** [executeJobs] of [html-exportall]:
    [for (const job of exportJobs) { await job() }] *)
Fixpoint executeJobs (exportJobs : list (M unit)) : M unit :=
  match exportJobs with
  | [] => ret tt
  | job :: rest => job >> executeJobs rest
  end.

(** *** The command "Export all as html" *)

(** The loop that fills [exportJobs]. *)
Fixpoint addHtmlJobs (h : Host) (files : list TFile)
    (exportJobs : list (M unit)) : M (list (M unit)) :=
  match files with
  | [] => ret exportJobs
  | file :: rest =>
      let fullPath := getFullPath h (file_path file) in
      let job := startHtmlExport h file fullPath "html" in
      console_log ("added job to export " +:+ fullPath) >>
      addHtmlJobs h rest (exportJobs ++ [job])
  end.

(** [checkCallback] of [html-exportall].  [executeJobs()] is started and
    not awaited. *)
Definition htmlExportAll (h : Host) (checking : bool) : M bool :=
  leaf <- get activeLeaf ;;
  match leaf with
  | None => ret false
  | Some _ =>
      files <- liftResult (getMarkdownFiles h) ;;
      (if negb checking then
         exportJobs <- addHtmlJobs h files [] ;;
         console_log ("total number of jobs: " +:+ pretty (length exportJobs)) >>
         detached (executeJobs exportJobs)
       else ret tt) >>
      ret true
  end.

(** *** The command "Export all as mind map" *)

Definition nl : string := String (ascii_of_nat 10) EmptyString.

Definition mapHeader : string :=
  "<!doctype html>" +:+ nl +:+
  "<html>" +:+ nl +:+
  "    <head>" +:+ nl +:+
  "        <title>Map export</title>" +:+ nl +:+
  "        <meta charset='utf-8'/>" +:+ nl +:+
  "        <style>" +:+ nl +:+ "</style>" +:+ nl +:+
  "    </head>" +:+ nl +:+
  "    <body>" +:+ nl.

Definition footer : string := "</body>" +:+ nl +:+ "</html>".

(** The destination computed at the head of the callback. *)
Definition mapOutputFile (st : PandocPluginSettings) : string :=
  let fileName := "map.html" in
  if truthy (outputFolder st)
  then default "" (outputFolder st) +:+ "\" +:+ fileName
  else "adapter.getBasePath()\" +:+ fileName.

Fixpoint addMapJobs (h : Host) (outputFile : string) (files : list TFile)
    (exportJobs : list (M unit)) : M (list (M unit)) :=
  match files with
  | [] => ret exportJobs
  | file :: rest =>
      let fullPath := getFullPath h (file_path file) in
      let job := startMapExport h file fullPath outputFile in
      console_log ("added job to export " +:+ fullPath) >>
      addMapJobs h outputFile rest (exportJobs ++ [job])
  end.

(** [executeJobs] of [map-exportall]: the steps it awaits, which are the
    jobs in turn and then [fs.promises.appendFile(outputFile, footer)]. *)
Definition executeMapJobs (h : Host) (outputFile : string)
    (exportJobs : list (M unit)) : list (M unit) :=
  exportJobs ++ [appendFile h outputFile footer].

(** [checkCallback] of [map-exportall].  The write of the header is
    started and not awaited, and so is [executeJobs()]: the jobs and the
    footer run while the write of the header is in flight. *)
Definition mapExportAll (h : Host) (checking : bool) : M bool :=
  leaf <- get activeLeaf ;;
  match leaf with
  | None => ret false
  | Some _ =>
      outputFile <- get (λ s, mapOutputFile (settings s)) ;;
      header <- unawaited_writeFile h outputFile mapHeader ;;
      startedBeside header
        (files <- liftResult (getMarkdownFiles h) ;;
         if negb checking then
           exportJobs <- addMapJobs h outputFile files [] ;;
           console_log ("total number of jobs: " +:+ pretty (length exportJobs)) >>
           ret (executeMapJobs h outputFile exportJobs)
         else ret []) >>
      ret true
  end.

(** ** Reading a trace *)

(** The notifications shown to the user, in order. *)
Definition noticeOf (ev : Event) : option (string * option Z) :=
  match ev with
  | Notice message timeout => Some (message, timeout)
  | _ => None
  end.

Definition notices (evs : list Event) : list (string * option Z) :=
  omap noticeOf evs.

(** ** A concrete vault to run the model on *)

Definition note (p : string) : TFile := {| file_path := p |}.

Definition emptySettings : PandocPluginSettings :=
  {| outputFolder := None; pandoc := None; pdflatex := None |}.

Definition freshState (st : PandocPluginSettings) : State :=
  {| settings := st; features := ∅; activeLeaf := Some None;
     activeFile := None; disk := ∅; trace := []; unhandled := [] |}.

(** A vault of three notes where every collaborator succeeds; a note
    renders to its own path between brackets. *)
Definition quietHost : Host :=
  {| getMarkdownFiles := Ok [note "a.md"; note "b.md"; note "c.md"];
     adapterIsFileSystemAdapter := true;
     getFullPath := λ p, "/vault/" +:+ p;
     getBasePath := "/vault";
     openFile_error := λ _ _, None;
     render_result := λ _ _ _ inputFile _, Ok ("[" +:+ inputFile +:+ "]");
     writeFile_error := λ _ _ _, None;
     appendFile_error := λ _ _ _, None;
     writeFile_lag := λ _ _ _, (0, 0);
     lookpath := λ _, None |}.

(** ** What one job leaves in the trace *)

(** How a job ended. *)
Inductive JobOutcome :=
| Written (html : string)                 (* rendered, then written or appended *)
| RenderFailed (e : Error)                (* the renderer threw [e] *)
| WriteFailed (html : string) (e : Error) (* the write or append failed with [e] *)
| SwitchFailed (e : Error).               (* [openFile] rejected with [e] *)

(** The job reached the end of its [try]/[catch]. *)
Definition settled (o : JobOutcome) : Prop :=
  match o with
  | SwitchFailed _ => False
  | _ => True
  end.

Global Instance settled_dec (o : JobOutcome) : Decision (settled o).
Proof. destruct o; cbn; apply _. Defined.

Definition failureOf (o : JobOutcome) : option Error :=
  match o with
  | Written _ => None
  | RenderFailed e | WriteFailed _ e | SwitchFailed e => Some e
  end.

Definition failureNotice (e : Error) : Event :=
  Notice ("Pandoc export failed: " +:+ e) (Some 15000%Z).

(** The events of one run of [startHtmlExport] that ends in [o]. *)
Definition htmlJobEvents (st : PandocPluginSettings) (file : TFile)
    (inputFile shortName : string) (o : JobOutcome) : list Event :=
  let outputFile := htmlOutputFile st inputFile in
  [Notice ("Exporting " +:+ inputFile +:+ " to " +:+ shortName) None;
   ConsoleLog ("exporting: " +:+ inputFile)] ++
  match o with
  | SwitchFailed e => [OpenFile file (Some e)]
  | RenderFailed e =>
      [OpenFile file None;
       Render FullDocument (Some file) inputFile "html" (Err e);
       failureNotice e; ConsoleError e]
  | WriteFailed html e =>
      [OpenFile file None;
       Render FullDocument (Some file) inputFile "html" (Ok html);
       WriteFile outputFile html (Some e);
       failureNotice e; ConsoleError e]
  | Written html =>
      [OpenFile file None;
       Render FullDocument (Some file) inputFile "html" (Ok html);
       WriteFile outputFile html None;
       ConsoleLog ("Successfully exported: " +:+ inputFile);
       Notice ("Successfully exported via Pandoc to " +:+ outputFile) None]
  end.

(** The events of one run of [startMapExport] that ends in [o]. *)
Definition mapJobEvents (file : TFile) (inputFile outputFile : string)
    (o : JobOutcome) : list Event :=
  [Notice ("Exporting " +:+ inputFile +:+ " to map") None;
   ConsoleLog ("Map exporting: " +:+ inputFile)] ++
  match o with
  | SwitchFailed e => [OpenFile file (Some e)]
  | RenderFailed e =>
      [OpenFile file None;
       Render DivFragment (Some file) inputFile "html" (Err e);
       failureNotice e; ConsoleError e]
  | WriteFailed html e =>
      [OpenFile file None;
       Render DivFragment (Some file) inputFile "html" (Ok html);
       AppendFile outputFile html (Some e);
       failureNotice e; ConsoleError e]
  | Written html =>
      [OpenFile file None;
       Render DivFragment (Some file) inputFile "html" (Ok html);
       AppendFile outputFile html None;
       ConsoleLog ("Successfully Map exported: " +:+ inputFile);
       Notice ("Successfully exported via Pandoc to " +:+ outputFile) None]
  end.

(** What a job hands to its caller. *)
Definition jobResult (o : JobOutcome) : Result unit :=
  match o with
  | SwitchFailed e => Err e
  | _ => Ok tt
  end.

(** What the fragments appended by the jobs add to a file. *)
Definition appended (o : JobOutcome) : string :=
  match o with
  | Written html => html
  | _ => ""
  end.

(** The job that the loops of both commands build for [file]. *)
Definition htmlJob (h : Host) (file : TFile) : M unit :=
  startHtmlExport h file (getFullPath h (file_path file)) "html".

Definition mapJob (h : Host) (outputFile : string) (file : TFile) : M unit :=
  startMapExport h file (getFullPath h (file_path file)) outputFile.

Definition jobAdded (h : Host) (file : TFile) : Event :=
  ConsoleLog ("added job to export " +:+ getFullPath h (file_path file)).

Definition jobsCounted (n : nat) : Event :=
  ConsoleLog ("total number of jobs: " +:+ pretty n).

Definition htmlBlock (h : Host) (st : PandocPluginSettings)
    (file : TFile) (o : JobOutcome) : list Event :=
  htmlJobEvents st file (getFullPath h (file_path file)) "html" o.

Definition mapBlock (h : Host) (outputFile : string)
    (file : TFile) (o : JobOutcome) : list Event :=
  mapJobEvents file (getFullPath h (file_path file)) outputFile o.

(** What awaiting jobs one after the other yields: the error of the first
    job that throws, if any. *)
Fixpoint batchResult (outs : list JobOutcome) : Result unit :=
  match outs with
  | [] => Ok tt
  | o :: rest =>
      match jobResult o with
      | Err e => Err e
      | Ok _ => batchResult rest
      end
  end.

(** The outcomes a batch of [n] jobs can have: one per job, in order, up to
    and including the first failed switch. *)
Fixpoint batchShape (n : nat) (outs : list JobOutcome) : Prop :=
  match n, outs with
  | 0, [] => True
  | S n', o :: rest =>
      match o with
      | SwitchFailed _ => rest = []
      | _ => batchShape n' rest
      end
  | _, _ => False
  end.

Definition joinAll (parts : list string) : string :=
  foldr String.append "" parts.

(** The state with more events in its trace and nothing else changed. *)
Definition emitAll (evs : list Event) (s : State) : State :=
  {| settings := settings s; features := features s;
     activeLeaf := activeLeaf s; activeFile := activeFile s;
     disk := disk s; trace := trace s ++ evs; unhandled := unhandled s |}.

(** In a block of events, the write (or append) completed, or the failure
    was reported to the user. *)
Definition writeCompletedOrFailureReported (block : list Event) : Prop :=
  (∃ p data, WriteFile p data None ∈ block) ∨
  (∃ p data, AppendFile p data None ∈ block) ∨
  (∃ e, failureNotice e ∈ block).

(** The two notifications of an html job: the one it starts with and the
    one that tells its outcome. *)
Definition htmlStartNotice (inputFile shortName : string) : string * option Z :=
  ("Exporting " +:+ inputFile +:+ " to " +:+ shortName, None).

Definition outcomeNotice (outputFile : string) (o : JobOutcome)
    : string * option Z :=
  match failureOf o with
  | Some e => ("Pandoc export failed: " +:+ e, Some 15000%Z)
  | None => ("Successfully exported via Pandoc to " +:+ outputFile, None)
  end.

(** A vault of two notes where the first one cannot be opened. *)
Definition lockedHost : Host :=
  {| getMarkdownFiles := Ok [note "a.md"; note "b.md"];
     adapterIsFileSystemAdapter := true;
     getFullPath := λ p, "/vault/" +:+ p;
     getBasePath := "/vault";
     openFile_error := λ _ f,
       if decide (f = note "a.md") then Some "Error: ENOENT" else None;
     render_result := λ _ _ _ inputFile _, Ok ("[" +:+ inputFile +:+ "]");
     writeFile_error := λ _ _ _, None;
     appendFile_error := λ _ _ _, None;
     writeFile_lag := λ _ _ _, (0, 0);
     lookpath := λ _, None |}.

(** A call to a collaborator that ended in an error. *)
Definition failed (ev : Event) : bool :=
  match ev with
  | OpenFile _ (Some _) | Render _ _ _ _ (Err _)
  | WriteFile _ _ (Some _) | AppendFile _ _ (Some _) => true
  | _ => false
  end.

(** The fragments that [renderDiv] returned, in order, each with the view
    and the input path it was asked for. *)
Definition fragmentOf (ev : Event) : option (option TFile * string * string) :=
  match ev with
  | Render DivFragment view inputFile _ (Ok html) => Some (view, inputFile, html)
  | _ => None
  end.

Definition fragmentsRendered (evs : list Event)
    : list (option TFile * string * string) :=
  omap fragmentOf evs.

(** A vault of three notes where the second one cannot be opened. *)
Definition halfLockedHost : Host :=
  {| getMarkdownFiles := Ok [note "a.md"; note "b.md"; note "c.md"];
     adapterIsFileSystemAdapter := true;
     getFullPath := λ p, "/vault/" +:+ p;
     getBasePath := "/vault";
     openFile_error := λ _ f,
       if decide (f = note "b.md") then Some "Error: EACCES" else None;
     render_result := λ _ _ _ inputFile _, Ok ("[" +:+ inputFile +:+ "]");
     writeFile_error := λ _ _ _, None;
     appendFile_error := λ _ _ _, None;
     writeFile_lag := λ _ _ _, (0, 0);
     lookpath := λ _, None |}.

(** A vault without notes. *)
Definition emptyVaultHost : Host :=
  {| getMarkdownFiles := Ok [];
     adapterIsFileSystemAdapter := true;
     getFullPath := λ p, "/vault/" +:+ p;
     getBasePath := "/vault";
     openFile_error := λ _ _, None;
     render_result := λ _ _ _ inputFile _, Ok ("[" +:+ inputFile +:+ "]");
     writeFile_error := λ _ _ _, None;
     appendFile_error := λ _ _ _, None;
     writeFile_lag := λ _ _ _, (0, 0);
     lookpath := λ _, None |}.

(** The desktop application: the vault sits on a file system and its
    files have non-empty absolute paths. *)
Definition desktopHost (h : Host) : Prop :=
  adapterIsFileSystemAdapter h = true ∧ ∀ p, getFullPath h p ≠ "".

(** Each of the two capabilities is bound to the path of an executable or
    to nothing, never to the empty string. *)
Definition pathsOrAbsent (s : State) : Prop :=
  feature s "pandoc" ≠ Some "" ∧ feature s "pdflatex" ≠ Some "".

(** A desktop vault whose user is looking at [notes/a.md] and has pandoc
    but no LaTeX. *)
Definition readingState : State :=
  {| settings := emptySettings;
     features := {[ "pandoc" := Some "/usr/bin/pandoc"; "pdflatex" := None ]};
     activeLeaf := Some (Some (note "notes/a.md"));
     activeFile := Some (note "notes/a.md");
     disk := ∅; trace := []; unhandled := [] |}.

(** [s.includes(c)] for a single character. *)
Fixpoint hasChar (c : ascii) (s : string) : bool :=
  match s with
  | EmptyString => false
  | String x rest => Ascii.eqb x c || hasChar c rest
  end.

(** A file name that [path.join] keeps as it is: not empty, no separator,
    and not one of the two dot segments. *)
Definition plainName (name : string) : Prop :=
  hasChar path.slash name = false ∧ name ≠ "" ∧ name ≠ "." ∧ name ≠ "..".

(** What the promise of [executeJobs()] leaves behind when nobody awaits
    it: its rejection, if any. *)
Definition escaped (r : Result unit) : list Error :=
  match r with
  | Ok _ => []
  | Err e => [e]
  end.

(** ** What a batch leaves behind *)

(** Where the html job of [file] writes. *)
Definition htmlDestination (h : Host) (st : PandocPluginSettings)
    (file : TFile) : string :=
  htmlOutputFile st (getFullPath h (file_path file)).

(** The disk once the html jobs of [files] have ended as [outs]: each job
    that wrote has replaced the file at its destination. *)
Fixpoint diskAfterHtmlJobs (h : Host) (st : PandocPluginSettings)
    (files : list TFile) (outs : list JobOutcome)
    (d : gmap string string) : gmap string string :=
  match files, outs with
  | file :: files', o :: outs' =>
      diskAfterHtmlJobs h st files' outs'
        match o with
        | Written html => <[htmlDestination h st file := html]> d
        | _ => d
        end
  | _, _ => d
  end.

(** The leaf, and the active file, once the jobs of [files] have ended as
    [outs]: they show the file of the last job whose [openFile] succeeded. *)
Fixpoint leafAfterJobs (files : list TFile) (outs : list JobOutcome)
    (leaf : option (option TFile)) : option (option TFile) :=
  match files, outs with
  | file :: files', o :: outs' =>
      leafAfterJobs files' outs'
        (if decide (settled o) then Some (Some file) else leaf)
  | _, _ => leaf
  end.

Fixpoint activeFileAfterJobs (files : list TFile) (outs : list JobOutcome)
    (active : option TFile) : option TFile :=
  match files, outs with
  | file :: files', o :: outs' =>
      activeFileAfterJobs files' outs'
        (if decide (settled o) then Some file else active)
  | _, _ => active
  end.

(** The two notifications of a map job. *)
Definition mapStartNotice (inputFile : string) : string * option Z :=
  ("Exporting " +:+ inputFile +:+ " to map", None).

(** A host whose collaborators answer the same whatever happened before. *)
Definition forgetful (h : Host) : Prop :=
  (∀ tr tr' f, openFile_error h tr f = openFile_error h tr' f)
  ∧ (∀ tr tr' mode view inputFile format,
       render_result h tr mode view inputFile format
       = render_result h tr' mode view inputFile format)
  ∧ (∀ tr tr' p data, writeFile_error h tr p data = writeFile_error h tr' p data)
  ∧ (∀ tr tr' p data, appendFile_error h tr p data = appendFile_error h tr' p data).

(** How the html job of [file] ends on such a host. *)
Definition htmlOutcomeOf (h : Host) (st : PandocPluginSettings)
    (file : TFile) (inputFile : string) : JobOutcome :=
  match openFile_error h [] file with
  | Some e => SwitchFailed e
  | None =>
      match render_result h [] FullDocument (Some file) inputFile "html" with
      | Err e => RenderFailed e
      | Ok html =>
          match writeFile_error h [] (htmlOutputFile st inputFile) html with
          | Some e => WriteFailed html e
          | None => Written html
          end
      end
  end.

(** How the map job of [file] ends on such a host. *)
Definition mapOutcomeOf (h : Host) (outputFile : string)
    (file : TFile) (inputFile : string) : JobOutcome :=
  match openFile_error h [] file with
  | Some e => SwitchFailed e
  | None =>
      match render_result h [] DivFragment (Some file) inputFile "html" with
      | Err e => RenderFailed e
      | Ok html =>
          match appendFile_error h [] outputFile html with
          | Some e => WriteFailed html e
          | None => Written html
          end
      end
  end.

(** The outcomes of the jobs that run: those up to the first failed switch. *)
Fixpoint untilSwitchFails (outs : list JobOutcome) : list JobOutcome :=
  match outs with
  | [] => []
  | SwitchFailed e :: _ => [SwitchFailed e]
  | o :: rest => o :: untilSwitchFails rest
  end.

(** What the last html job that wrote to [p] wrote there, if any did. *)
Fixpoint lastWritten (h : Host) (st : PandocPluginSettings) (p : string)
    (files : list TFile) (outs : list JobOutcome) : option string :=
  match files, outs with
  | file :: files', o :: outs' =>
      match lastWritten h st p files' outs' with
      | Some html => Some html
      | None =>
          match o with
          | Written html =>
              if decide (htmlDestination h st file = p) then Some html else None
          | _ => None
          end
      end
  | _, _ => None
  end.

(** A vault of three notes where the second one cannot be rendered. *)
Definition unrenderableHost : Host :=
  {| getMarkdownFiles := Ok [note "a.md"; note "b.md"; note "c.md"];
     adapterIsFileSystemAdapter := true;
     getFullPath := λ p, "/vault/" +:+ p;
     getBasePath := "/vault";
     openFile_error := λ _ _, None;
     render_result := λ _ _ _ inputFile _,
       if decide (inputFile = "/vault/b.md") then Err "Error: bad markup"
       else Ok ("[" +:+ inputFile +:+ "]");
     writeFile_error := λ _ _ _, None;
     appendFile_error := λ _ _ _, None;
     writeFile_lag := λ _ _ _, (0, 0);
     lookpath := λ _, None |}.

(** A vault where two notes of different folders have the same name. *)
Definition twinHost : Host :=
  {| getMarkdownFiles := Ok [note "x/a.md"; note "y/a.md"];
     adapterIsFileSystemAdapter := true;
     getFullPath := λ p, "/vault/" +:+ p;
     getBasePath := "/vault";
     openFile_error := λ _ _, None;
     render_result := λ _ _ _ inputFile _, Ok ("[" +:+ inputFile +:+ "]");
     writeFile_error := λ _ _ _, None;
     appendFile_error := λ _ _ _, None;
     writeFile_lag := λ _ _ _, (0, 0);
     lookpath := λ _, None |}.

(** What was appended with success, in order. *)
Definition appendedOf (ev : Event) : option string :=
  match ev with
  | AppendFile _ data None => Some data
  | _ => None
  end.

Definition appendedData (evs : list Event) : list string :=
  omap appendedOf evs.

(** ** A file that is appended to while a write to it is in flight *)

(** What a job appended to the shared file, if it did. *)
Definition part (o : JobOutcome) : option string :=
  match o with
  | Written html => Some html
  | _ => None
  end.

(** What a step added to the file. *)
Definition added (d : option string) : string := default "" d.

(** The error an append failed with. *)
Definition rejectionOf (ev : Event) : option Error :=
  match ev with
  | AppendFile _ _ (Some e) => Some e
  | _ => None
  end.

(** The content of a file, if it exists, after each step of the write and
    after an append. *)
Definition opened (u : Unawaited) (c : option string) : option string :=
  match uw_error u with
  | Some _ => c
  | None => Some ""
  end.

Definition written (u : Unawaited) (c : option string) : option string :=
  match uw_error u with
  | Some _ => c
  | None =>
      Some (uw_data u +:+ sliceFrom (String.length (uw_data u)) (default "" c))
  end.

Definition appendedTo (c : option string) (d : option string) : option string :=
  match d with
  | Some data => Some (default "" c +:+ data)
  | None => c
  end.

Definition landed (u : Unawaited) (k : nat) (c : option string) : option string :=
  let c1 := if decide (k = uw_opens u) then opened u c else c in
  if decide (k = uw_writes u) then written u c1 else c1.

Definition landedFrom (u : Unawaited) (k : nat) (c : option string)
    : option string :=
  let c1 := if decide (k ≤ uw_opens u) then opened u c else c in
  if decide (k ≤ uw_writes u) then written u c1 else c1.

(** The content of the target of [u] once the steps of the caller, of
    which [k] were over, have appended [parts] (a step that appended
    nothing counts as [None]) and [u] has settled. *)
Fixpoint contentBeside (u : Unawaited) (k : nat) (parts : list (option string))
    (c : option string) : option string :=
  match parts with
  | [] => landedFrom u k c
  | d :: rest => contentBeside u (S k) rest (appendedTo (landed u k c) d)
  end.

(** The rejections left unhandled, in the order they occurred, when the
    caller ran [m] more steps and its promise was rejected with [fg]. *)
Fixpoint rejectionsBeside (u : Unawaited) (k m : nat) (fg : list Error)
    : list Error :=
  match m with
  | 0 => fg ++ (if decide (k ≤ uw_opens u) then option_list (uw_error u) else [])
  | S m' =>
      (if decide (k = uw_opens u) then option_list (uw_error u) else [])
      ++ rejectionsBeside u (S k) m' fg
  end.

(** The same content in closed form, for a write of [data] that succeeds,
    opens the file after [a] steps and writes after [b] more: what was
    appended before the open is lost, what was appended between the open
    and the write is overwritten by [data] as far as [data] reaches, and
    what was appended later follows. *)
Definition racedContent (data : string) (a b : nat) (parts : list (option string))
    : string :=
  data
  +:+ sliceFrom (String.length data)
        (joinAll (omap id (take b (drop a parts))))
  +:+ joinAll (omap id (drop (a + b) parts)).

(** The write in flight during a run of the map command from [s]. *)
Definition headerWrite (h : Host) (s : State) : Unawaited :=
  let outputFile := mapOutputFile (settings s) in
  let lag := writeFile_lag h (trace s) outputFile mapHeader in
  {| uw_path := outputFile; uw_data := mapHeader;
     uw_error := writeFile_error h (trace s) outputFile mapHeader;
     uw_opens := lag.1; uw_writes := lag.1 + lag.2 |}.

(** A host that takes as long over a write in flight whatever happened
    before. *)
Definition steady (h : Host) : Prop :=
  ∀ tr tr' p data, writeFile_lag h tr p data = writeFile_lag h tr' p data.

(** A vault without notes, where a write that nobody awaits reaches the
    file only after the step that its caller awaits next. *)
Definition lateWriteHost : Host :=
  {| getMarkdownFiles := Ok [];
     adapterIsFileSystemAdapter := true;
     getFullPath := λ p, "/vault/" +:+ p;
     getBasePath := "/vault";
     openFile_error := λ _ _, None;
     render_result := λ _ _ _ inputFile _, Ok ("[" +:+ inputFile +:+ "]");
     writeFile_error := λ _ _ _, None;
     appendFile_error := λ _ _ _, None;
     writeFile_lag := λ _ _ _, (1, 0);
     lookpath := λ _, None |}.

(** A vault of three notes where every collaborator succeeds, and a
    write that nobody awaits opens the file after the first step that its
    caller awaits and writes after the second. *)
Definition slowWriteHost : Host :=
  {| getMarkdownFiles := Ok [note "a.md"; note "b.md"; note "c.md"];
     adapterIsFileSystemAdapter := true;
     getFullPath := λ p, "/vault/" +:+ p;
     getBasePath := "/vault";
     openFile_error := λ _ _, None;
     render_result := λ _ _ _ inputFile _, Ok ("[" +:+ inputFile +:+ "]");
     writeFile_error := λ _ _ _, None;
     appendFile_error := λ _ _ _, None;
     writeFile_lag := λ _ _ _, (1, 1);
     lookpath := λ _, None |}.

(** * Properties *)

(** ** The model, run on small inputs *)

Example basename_a : path.basename "/vault/notes/a.html" = "a.html".
Proof. reflexivity. Qed.

Example join_html_a : path.join "html" "a.html" = "html/a.html".
Proof. reflexivity. Qed.

Example join_dots : path.join "/a/b/../c/" "./d//e" = "/a/c/d/e".
Proof. reflexivity. Qed.

Example normalize_above : path.normalize "a/../../b" = "../b".
Proof. reflexivity. Qed.

Example basename_trailing : path.basename "/a/b/" = "b".
Proof. reflexivity. Qed.

Example replaceFileExtension_md :
  replaceFileExtension "/vault/notes/a.md" "html" = "/vault/notes/a.html".
Proof. reflexivity. Qed.

Example join_backslash : path.join "/out\html" "a.html" = "/out\html/a.html".
Proof. reflexivity. Qed.

Example map_run_disk :
  disk (mapExportAll quietHost false (freshState emptySettings)).1
    !! "adapter.getBasePath()\map.html"
  = Some (mapHeader +:+ "[/vault/a.md]" +:+ "[/vault/b.md]" +:+ "[/vault/c.md]"
          +:+ footer).
Proof. vm_compute. reflexivity. Qed.

Example html_run_notices :
  length (notices (trace (htmlExportAll quietHost false (freshState emptySettings)).1))
  = 6.
Proof. vm_compute. reflexivity. Qed.

(** ** Strings *)

Lemma append_assoc (a b c : string) : (a +:+ b) +:+ c = a +:+ (b +:+ c).
Proof.
  induction a as [|x a IH]; [done|].
  change (String x ((a +:+ b) +:+ c) = String x (a +:+ b +:+ c)).
  by rewrite IH.
Qed.

Lemma append_nil_r (a : string) : a +:+ "" = a.
Proof.
  induction a as [|x a IH]; [done|].
  change (String x (a +:+ "") = String x a). by rewrite IH.
Qed.

Lemma append_cons c (a b : string) : String c a +:+ b = String c (a +:+ b).
Proof. reflexivity. Qed.

Lemma append_nil_l (b : string) : "" +:+ b = b.
Proof. reflexivity. Qed.

Lemma length_append (a b : string) :
  String.length (a +:+ b) = String.length a + String.length b.
Proof.
  induction a as [|x a IH]; [done|].
  rewrite append_cons. cbn [String.length]. by rewrite IH.
Qed.

(** Whether a string ends with a suffix is decided by any tail of it that
    is at least as long as the suffix. *)
Lemma endsWith_append (a b suffix : string) :
  String.length suffix ≤ String.length b →
  endsWith (a +:+ b) suffix = endsWith b suffix.
Proof.
  intros Hlen. induction a as [|x a IH]; [done|].
  rewrite append_cons, <- IH. unfold endsWith. cbn [String.length].
  assert (String.length suffix ≤ String.length (a +:+ b)) as Hle
    by (rewrite length_append; lia).
  replace (String.length suffix <=? S (String.length (a +:+ b))) with true
    by (symmetry; apply Nat.leb_le; lia).
  replace (String.length suffix <=? String.length (a +:+ b)) with true
    by (symmetry; by apply Nat.leb_le).
  replace (S (String.length (a +:+ b)) - String.length suffix)
    with (S (String.length (a +:+ b) - String.length suffix)) by lia.
  done.
Qed.

Local Arguments String.append : simpl never.
Local Arguments htmlOutputFile : simpl never.
Local Arguments mapOutputFile : simpl never.
Local Arguments pretty : simpl never.

Ltac run_job :=
  cbv beta iota zeta delta
    [startHtmlExport startMapExport bind newNotice console_log get openFile
     getActiveViewOfType try_catch render renderDiv callRenderer writeFile
     appendFile exportFailed console_error];
  cbn.

Ltac job_ends_in o :=
  exists o; eexists; split; [reflexivity|];
  cbn; rewrite <- ?app_assoc; repeat split; try done.

Section Jobs.
Variable h : Host.

(** One run of [startHtmlExport], started with a leaf in place, leaves
    exactly the events of one of the four outcomes and throws only when
    [openFile] did. *)
Lemma startHtmlExport_events file inputFile shortName s :
  activeLeaf s ≠ None →
  ∃ o s',
    startHtmlExport h file inputFile shortName s = (s', jobResult o) ∧
    trace s' = trace s ++ htmlJobEvents (settings s) file inputFile shortName o ∧
    settings s' = settings s ∧
    activeLeaf s' ≠ None ∧
    unhandled s' = unhandled s ∧
    openFile_error h
      (trace s ++
       [Notice ("Exporting " +:+ inputFile +:+ " to " +:+ shortName) None;
        ConsoleLog ("exporting: " +:+ inputFile)]) file
    = match o with SwitchFailed e => Some e | _ => None end.
Proof.
  intros Hleaf. run_job.
  destruct (activeLeaf s) as [leaf|] eqn:Hl; [clear Hleaf|done].
  rewrite <- !app_assoc. cbn.
  destruct (openFile_error h _ file) as [e|] eqn:Hopen.
  { job_ends_in (SwitchFailed e). by rewrite Hl. }
  cbn.
  destruct (render_result h _ FullDocument (Some file) inputFile "html")
    as [html|e] eqn:Hrender.
  - destruct (writeFile_error h _ _ html) as [e|] eqn:Hwrite.
    + job_ends_in (WriteFailed html e).
    + job_ends_in (Written html).
  - job_ends_in (RenderFailed e).
Qed.

(** The same for [startMapExport], with what it does to the disk. *)
Lemma startMapExport_events file inputFile outputFile s :
  activeLeaf s ≠ None →
  ∃ o s',
    startMapExport h file inputFile outputFile s = (s', jobResult o) ∧
    trace s' = trace s ++ mapJobEvents file inputFile outputFile o ∧
    settings s' = settings s ∧
    activeLeaf s' ≠ None ∧
    unhandled s' = unhandled s ∧
    openFile_error h
      (trace s ++
       [Notice ("Exporting " +:+ inputFile +:+ " to map") None;
        ConsoleLog ("Map exporting: " +:+ inputFile)]) file
    = match o with SwitchFailed e => Some e | _ => None end ∧
    disk s' = match o with
              | Written html =>
                  <[outputFile := default "" (disk s !! outputFile) +:+ html]>
                    (disk s)
              | _ => disk s
              end.
Proof.
  intros Hleaf. run_job.
  destruct (activeLeaf s) as [leaf|] eqn:Hl; [clear Hleaf|done].
  rewrite <- !app_assoc. cbn.
  destruct (openFile_error h _ file) as [e|] eqn:Hopen.
  { job_ends_in (SwitchFailed e). by rewrite Hl. }
  cbn.
  destruct (render_result h _ DivFragment (Some file) inputFile "html")
    as [html|e] eqn:Hrender.
  - destruct (appendFile_error h _ _ html) as [e|] eqn:Hwrite.
    + job_ends_in (WriteFailed html e).
    + job_ends_in (Written html).
  - job_ends_in (RenderFailed e).
Qed.
End Jobs.

Lemma emitAll_emitAll evs1 evs2 s :
  emitAll evs2 (emitAll evs1 s) = emitAll (evs1 ++ evs2) s.
Proof. unfold emitAll. cbn. by rewrite app_assoc. Qed.

Lemma emitAll_nil s : emitAll [] s = s.
Proof. destruct s. unfold emitAll. cbn. by rewrite app_nil_r. Qed.

(** ** Facts about the shape of a batch *)

Lemma batchShape_length n outs : batchShape n outs → length outs ≤ n.
Proof.
  revert outs. induction n as [|n IH]; intros [|o outs]; cbn; try done; try lia.
  destruct o; try (intros ?%IH; lia). intros ->. cbn. lia.
Qed.

Lemma batchShape_settled n outs i o :
  batchShape n outs → outs !! i = Some o → S i < length outs → settled o.
Proof.
  revert outs i. induction n as [|n IH]; intros [|o' outs] i; cbn; try done.
  intros Hshape Hi Hlen. destruct i as [|i].
  - injection Hi as ->. destruct o; try done. subst outs. cbn in Hlen. lia.
  - cbn in Hi. destruct o'; try (eapply IH; [done..|lia]).
    subst outs. done.
Qed.

Lemma batchShape_stopped n outs :
  batchShape n outs → length outs < n → ∃ e, last outs = Some (SwitchFailed e).
Proof.
  revert outs. induction n as [|n IH]; intros [|o outs]; cbn; try done; try lia.
  intros Hshape Hlen.
  destruct o;
    try (destruct (IH outs) as [e' He]; [done|lia|];
         exists e'; by rewrite last_cons, He).
  subst outs. by eexists.
Qed.

Lemma batchShape_all_settled n outs :
  batchShape n outs → Forall settled outs →
  length outs = n ∧ batchResult outs = Ok tt.
Proof.
  revert outs. induction n as [|n IH]; intros [|o outs]; cbn; try done.
  intros Hshape [Ho Houts]%Forall_cons.
  destruct o; try done; destruct (IH outs) as [? ?]; auto.
Qed.

Lemma batchShape_next n outs i o :
  batchShape n outs → outs !! i = Some o → settled o → S i < n →
  is_Some (outs !! S i).
Proof.
  revert outs i. induction n as [|n IH]; intros [|o' outs] i; cbn; try done.
  intros Hshape Hi Ho Hlt. destruct i as [|i].
  - injection Hi as ->. destruct n as [|n]; [lia|].
    destruct o; try done; destruct outs; try done; by eexists.
  - cbn in Hi. destruct o'; try (eapply IH; [done..|lia]).
    subst outs. done.
Qed.

Lemma batchResult_Err outs e :
  batchResult outs = Err e → SwitchFailed e ∈ outs.
Proof.
  induction outs as [|o outs IH]; [done|]. cbn.
  destruct o; cbn; try (intros ?%IH; by apply list_elem_of_further).
  intros [= ->]. apply list_elem_of_here.
Qed.

(** ** Building and running the jobs *)

Section Batches.
Variable h : Host.

(** The loop creates one job per file, in the order of the files, and
    logs each. *)
Lemma addHtmlJobs_run files exportJobs s :
  addHtmlJobs h files exportJobs s
  = (emitAll (map (jobAdded h) files) s,
     Ok (exportJobs ++ map (htmlJob h) files)).
Proof.
  revert exportJobs s. induction files as [|file files IH]; intros jobs s.
  - cbn. unfold ret. by rewrite emitAll_nil, app_nil_r.
  - cbn [addHtmlJobs]. unfold bind at 1. unfold console_log.
    rewrite IH. change (emit ?ev s) with (emitAll [ev] s).
    rewrite emitAll_emitAll. cbn [map]. by rewrite <- app_assoc.
Qed.

Lemma addMapJobs_run outputFile files exportJobs s :
  addMapJobs h outputFile files exportJobs s
  = (emitAll (map (jobAdded h) files) s,
     Ok (exportJobs ++ map (mapJob h outputFile) files)).
Proof.
  revert exportJobs s. induction files as [|file files IH]; intros jobs s.
  - cbn. unfold ret. by rewrite emitAll_nil, app_nil_r.
  - cbn [addMapJobs]. unfold bind at 1. unfold console_log.
    rewrite IH. change (emit ?ev s) with (emitAll [ev] s).
    rewrite emitAll_emitAll. cbn [map]. by rewrite <- app_assoc.
Qed.

(** Awaiting the html jobs in turn: the trace grows by one block per job
    that ran, in the order of the files. *)
Lemma executeJobs_html files s :
  activeLeaf s ≠ None →
  ∃ outs s',
    executeJobs (map (htmlJob h) files) s = (s', batchResult outs) ∧
    batchShape (length files) outs ∧
    trace s' = trace s ++ concat (zip_with (htmlBlock h (settings s)) files outs) ∧
    settings s' = settings s ∧
    activeLeaf s' ≠ None ∧
    unhandled s' = unhandled s ∧
    ((∀ tr f, openFile_error h tr f = None) → Forall settled outs).
Proof.
  revert s. induction files as [|file files IH]; intros s Hleaf.
  - exists [], s. cbn. by rewrite app_nil_r.
  - destruct (startHtmlExport_events h file (getFullPath h (file_path file))
                "html" s Hleaf)
      as (o & s1 & Hrun & Htrace & Hset & Hleaf1 & Hun & Hopen).
    cbn [map executeJobs]. unfold bind at 1. fold (htmlJob h file) in Hrun.
    rewrite Hrun.
    destruct (decide (settled o)) as [Ho|Ho].
    + destruct (IH s1 Hleaf1)
        as (outs & s' & Hrest & Hshape & Htrace' & Hset' & Hleaf' & Hun' & Hall).
      exists (o :: outs), s'.
      assert (jobResult o = Ok tt) as Hres by by destruct o.
      rewrite Hres. cbn [batchResult]. rewrite Hres.
      repeat split; try congruence.
      * cbn. by destruct o.
      * rewrite Htrace', Htrace, Hset. cbn [zip_with concat].
        by rewrite <- app_assoc.
      * intros Hnever. apply Forall_cons; auto.
    + destruct o as [| | |e]; try (by destruct Ho).
      exists [SwitchFailed e], s1. cbn.
      repeat split; try done.
      * rewrite Htrace. by destruct files.
      * intros Hnever. by rewrite Hnever in Hopen.
Qed.

End Batches.

(** ** The two commands, run *)

Section Commands.
Variable h : Host.

Lemma htmlExportAll_run s files :
  activeLeaf s ≠ None →
  getMarkdownFiles h = Ok files →
  ∃ outs s',
    htmlExportAll h false s = (s', Ok true) ∧
    batchShape (length files) outs ∧
    trace s' = trace s ++ map (jobAdded h) files
               ++ [jobsCounted (length files)]
               ++ concat (zip_with (htmlBlock h (settings s)) files outs) ∧
    unhandled s' = unhandled s ++ escaped (batchResult outs) ∧
    ((∀ tr f, openFile_error h tr f = None) → Forall settled outs).
Proof.
  intros Hleaf Hfiles.
  unfold htmlExportAll, bind at 1, get.
  destruct (activeLeaf s) as [leaf|] eqn:Hl; [|done].
  unfold bind at 1, liftResult. rewrite Hfiles. cbn [negb].
  unfold bind at 1, bind at 1. rewrite addHtmlJobs_run.
  unfold bind at 1, console_log. cbn [app].
  rewrite length_map. fold (jobsCounted (length files)).
  change (emit ?ev ?s) with (emitAll [ev] s). rewrite emitAll_emitAll.
  set (s0 := emitAll _ s).
  destruct (executeJobs_html h files s0)
    as (outs & s' & Hrun & Hshape & Htrace & Hset & Hleaf' & Hun & Hall).
  { subst s0. cbn. by rewrite Hl. }
  unfold detached. rewrite Hrun. unfold ret.
  destruct (batchResult outs) as [[]|e] eqn:Hres.
  - exists outs, s'. rewrite Hres. cbn [escaped].
    repeat split; try done.
    + rewrite Htrace. subst s0. cbn. by rewrite <- !app_assoc.
    + by rewrite app_nil_r.
  - exists outs, (unhandledRejection e s'). rewrite Hres. cbn [escaped].
    repeat split; try done.
    + cbn. rewrite Htrace. subst s0. cbn. by rewrite <- !app_assoc.
    + cbn. by rewrite Hun.
Qed.

End Commands.

(** ** Everything a job and a batch change *)

Section Effects.
Variable h : Host.

Lemma startHtmlExport_effects file inputFile shortName s :
  activeLeaf s ≠ None →
  ∃ o s',
    startHtmlExport h file inputFile shortName s = (s', jobResult o) ∧
    trace s' = trace s ++ htmlJobEvents (settings s) file inputFile shortName o ∧
    settings s' = settings s ∧
    features s' = features s ∧
    unhandled s' = unhandled s ∧
    activeLeaf s' = (if decide (settled o) then Some (Some file) else activeLeaf s) ∧
    activeFile s' = (if decide (settled o) then Some file else activeFile s) ∧
    disk s' = match o with
              | Written html =>
                  <[htmlOutputFile (settings s) inputFile := html]> (disk s)
              | _ => disk s
              end ∧
    ((∀ tr f, openFile_error h tr f = None) → settled o) ∧
    (forgetful h → o = htmlOutcomeOf h (settings s) file inputFile).
Proof.
  intros Hleaf. run_job.
  destruct (activeLeaf s) as [leaf|] eqn:Hl; [clear Hleaf|done].
  rewrite <- !app_assoc. cbn.
  destruct (openFile_error h _ file) as [e|] eqn:Hopen.
  { job_ends_in (SwitchFailed e).
    - intros Hnever. by rewrite Hnever in Hopen.
    - intros (Ho & _). unfold htmlOutcomeOf.
      rewrite (Ho _ [] file) in Hopen. by rewrite Hopen. }
  cbn.
  destruct (render_result h _ FullDocument (Some file) inputFile "html")
    as [html|e] eqn:Hrender.
  - destruct (writeFile_error h _ _ html) as [e|] eqn:Hwrite.
    + job_ends_in (WriteFailed html e).
      intros (Ho & Hr & Hw & _). unfold htmlOutcomeOf.
      rewrite (Ho _ [] file) in Hopen. rewrite (Hr _ []) in Hrender.
      rewrite (Hw _ []) in Hwrite. by rewrite Hopen, Hrender, Hwrite.
    + job_ends_in (Written html).
      intros (Ho & Hr & Hw & _). unfold htmlOutcomeOf.
      rewrite (Ho _ [] file) in Hopen. rewrite (Hr _ []) in Hrender.
      rewrite (Hw _ []) in Hwrite. by rewrite Hopen, Hrender, Hwrite.
  - job_ends_in (RenderFailed e).
    intros (Ho & Hr & _). unfold htmlOutcomeOf.
    rewrite (Ho _ [] file) in Hopen. rewrite (Hr _ []) in Hrender.
    by rewrite Hopen, Hrender.
Qed.

Lemma startMapExport_effects file inputFile outputFile s :
  activeLeaf s ≠ None →
  ∃ o s',
    startMapExport h file inputFile outputFile s = (s', jobResult o) ∧
    trace s' = trace s ++ mapJobEvents file inputFile outputFile o ∧
    settings s' = settings s ∧
    features s' = features s ∧
    unhandled s' = unhandled s ∧
    activeLeaf s' = (if decide (settled o) then Some (Some file) else activeLeaf s) ∧
    activeFile s' = (if decide (settled o) then Some file else activeFile s) ∧
    disk s' = match o with
              | Written html =>
                  <[outputFile := default "" (disk s !! outputFile) +:+ html]>
                    (disk s)
              | _ => disk s
              end ∧
    ((∀ tr f, openFile_error h tr f = None) → settled o) ∧
    (forgetful h → o = mapOutcomeOf h outputFile file inputFile).
Proof.
  intros Hleaf. run_job.
  destruct (activeLeaf s) as [leaf|] eqn:Hl; [clear Hleaf|done].
  rewrite <- !app_assoc. cbn.
  destruct (openFile_error h _ file) as [e|] eqn:Hopen.
  { job_ends_in (SwitchFailed e).
    - intros Hnever. by rewrite Hnever in Hopen.
    - intros (Ho & _). unfold mapOutcomeOf.
      rewrite (Ho _ [] file) in Hopen. by rewrite Hopen. }
  cbn.
  destruct (render_result h _ DivFragment (Some file) inputFile "html")
    as [html|e] eqn:Hrender.
  - destruct (appendFile_error h _ _ html) as [e|] eqn:Hwrite.
    + job_ends_in (WriteFailed html e).
      intros (Ho & Hr & _ & Ha). unfold mapOutcomeOf.
      rewrite (Ho _ [] file) in Hopen. rewrite (Hr _ []) in Hrender.
      rewrite (Ha _ []) in Hwrite. by rewrite Hopen, Hrender, Hwrite.
    + job_ends_in (Written html).
      intros (Ho & Hr & _ & Ha). unfold mapOutcomeOf.
      rewrite (Ho _ [] file) in Hopen. rewrite (Hr _ []) in Hrender.
      rewrite (Ha _ []) in Hwrite. by rewrite Hopen, Hrender, Hwrite.
  - job_ends_in (RenderFailed e).
    intros (Ho & Hr & _). unfold mapOutcomeOf.
    rewrite (Ho _ [] file) in Hopen. rewrite (Hr _ []) in Hrender.
    by rewrite Hopen, Hrender.
Qed.

Lemma leafAfterJobs_Some files outs leaf :
  leaf ≠ None → leafAfterJobs files outs leaf ≠ None.
Proof.
  revert outs leaf. induction files as [|f files IH]; intros [|o outs] leaf Hl;
    cbn; try done.
  apply IH. by case_decide.
Qed.

(** The html jobs, awaited in turn: what they leave in every part of the
    state. *)
Lemma executeJobs_html_effects files s :
  activeLeaf s ≠ None →
  ∃ outs s',
    executeJobs (map (htmlJob h) files) s = (s', batchResult outs) ∧
    batchShape (length files) outs ∧
    trace s' = trace s ++ concat (zip_with (htmlBlock h (settings s)) files outs) ∧
    settings s' = settings s ∧
    features s' = features s ∧
    unhandled s' = unhandled s ∧
    activeLeaf s' = leafAfterJobs files outs (activeLeaf s) ∧
    activeFile s' = activeFileAfterJobs files outs (activeFile s) ∧
    disk s' = diskAfterHtmlJobs h (settings s) files outs (disk s) ∧
    ((∀ tr f, openFile_error h tr f = None) → Forall settled outs) ∧
    (forgetful h →
     outs = untilSwitchFails
              (map (λ f, htmlOutcomeOf h (settings s) f (getFullPath h (file_path f)))
                   files)).
Proof.
  revert s. induction files as [|file files IH]; intros s Hleaf.
  - exists [], s. cbn. by rewrite app_nil_r.
  - destruct (startHtmlExport_effects file (getFullPath h (file_path file))
                "html" s Hleaf)
      as (o & s1 & Hrun & Htrace & Hset & Hfeat & Hun & Hl1 & Haf1 & Hdisk1
          & Hnever1 & Hforget1).
    cbn [map executeJobs]. unfold bind at 1. fold (htmlJob h file) in Hrun.
    rewrite Hrun.
    destruct (decide (settled o)) as [Ho|Ho].
    + destruct (IH s1)
        as (outs & s' & Hrest & Hshape & Htrace' & Hset' & Hfeat' & Hun'
            & Hl' & Haf' & Hdisk' & Hnever' & Hforget'); [by rewrite Hl1|].
      exists (o :: outs), s'.
      assert (jobResult o = Ok tt) as Hres by by destruct o.
      rewrite Hres. cbn [batchResult]. rewrite Hres.
      split; [done|]. split; [cbn; by destruct o|].
      split; [rewrite Htrace', Htrace, Hset; cbn [zip_with concat];
              by rewrite <- app_assoc|].
      split; [congruence|]. split; [congruence|]. split; [congruence|].
      cbn [leafAfterJobs activeFileAfterJobs diskAfterHtmlJobs].
      rewrite Hl', Hl1, Haf', Haf1, !decide_True by done.
      split; [done|]. split; [done|]. split.
      { rewrite Hdisk', Hset, Hdisk1. unfold htmlDestination. by destruct o. }
      split; [intros Hnever; apply Forall_cons; auto|].
      intros Hforget. cbn [map untilSwitchFails].
      rewrite <- (Hforget1 Hforget), (Hforget' Hforget), Hset. by destruct o.
    + destruct o as [| | |e]; try (by destruct Ho).
      exists [SwitchFailed e], s1. cbn.
      split; [done|]. split; [done|].
      split; [rewrite Htrace; by destruct files|].
      split; [done|]. split; [done|]. split; [done|].
      split; [by destruct files|]. split; [by destruct files|].
      split; [by destruct files|]. split; [intros Hnever; by apply Hnever1 in Hnever|].
      intros Hforget. by rewrite <- (Hforget1 Hforget).
Qed.

(** A write in flight changes the file it is for and the list of
    unhandled rejections, nothing else. *)
Lemma lands_effects u k s :
  trace (lands u k s) = trace s ∧
  settings (lands u k s) = settings s ∧
  features (lands u k s) = features s ∧
  activeLeaf (lands u k s) = activeLeaf s ∧
  activeFile (lands u k s) = activeFile s ∧
  (∀ p, p ≠ uw_path u → disk (lands u k s) !! p = disk s !! p) ∧
  disk (lands u k s) !! uw_path u = landed u k (disk s !! uw_path u) ∧
  unhandled (lands u k s)
  = unhandled s
    ++ (if decide (k = uw_opens u) then option_list (uw_error u) else []).
Proof.
  unfold lands, landed, opens, writes, opened, written.
  destruct (uw_error u) as [e|]; repeat case_decide; cbn;
    rewrite ?app_nil_r, ?lookup_insert_eq; repeat split; try done;
    intros p Hp; by rewrite ?lookup_insert_ne.
Qed.

Lemma landsFrom_effects u k s :
  trace (landsFrom u k s) = trace s ∧
  settings (landsFrom u k s) = settings s ∧
  features (landsFrom u k s) = features s ∧
  activeLeaf (landsFrom u k s) = activeLeaf s ∧
  activeFile (landsFrom u k s) = activeFile s ∧
  (∀ p, p ≠ uw_path u → disk (landsFrom u k s) !! p = disk s !! p) ∧
  disk (landsFrom u k s) !! uw_path u = landedFrom u k (disk s !! uw_path u) ∧
  unhandled (landsFrom u k s)
  = unhandled s
    ++ (if decide (k ≤ uw_opens u) then option_list (uw_error u) else []).
Proof.
  unfold landsFrom, landedFrom, opens, writes, opened, written.
  destruct (uw_error u) as [e|]; repeat case_decide; cbn;
    rewrite ?app_nil_r, ?lookup_insert_eq; repeat split; try done;
    intros p Hp; by rewrite ?lookup_insert_ne.
Qed.

(** The jobs of the map command and the footer, run while the write [u]
    to the shared file is in flight: what they leave in every part of the
    state. *)
Lemma runBeside_map u outputFile files k s :
  activeLeaf s ≠ None →
  uw_path u = outputFile →
  ∃ outs tail,
    let s' := runBeside u k
                (executeMapJobs h outputFile (map (mapJob h outputFile) files)) s in
    batchShape (length files) outs ∧
    trace s' = trace s ++ concat (zip_with (mapBlock h outputFile) files outs)
               ++ tail ∧
    settings s' = settings s ∧
    features s' = features s ∧
    activeLeaf s' = leafAfterJobs files outs (activeLeaf s) ∧
    activeFile s' = activeFileAfterJobs files outs (activeFile s) ∧
    (∀ p, p ≠ outputFile → disk s' !! p = disk s !! p) ∧
    match batchResult outs with
    | Err _ => tail = []
    | Ok _ =>
        ∃ a, tail = [AppendFile outputFile footer a] ∧
             ∃ tr, a = appendFile_error h tr outputFile footer
    end ∧
    disk s' !! outputFile
    = contentBeside u k (map part outs ++ map appendedOf tail)
        (disk s !! outputFile) ∧
    unhandled s'
    = unhandled s
      ++ rejectionsBeside u k (length outs + length tail)
           (escaped (batchResult outs) ++ omap rejectionOf tail) ∧
    ((∀ tr f, openFile_error h tr f = None) → Forall settled outs) ∧
    (forgetful h →
     outs = untilSwitchFails
              (map (λ f, mapOutcomeOf h outputFile f (getFullPath h (file_path f)))
                   files)).
Proof.
  intros Hleaf Hpath. revert k s Hleaf.
  induction files as [|file files IH]; intros k s Hleaf.
  - destruct (lands_effects u k s)
      as (Ht1 & Hs1 & Hf1 & Hl1 & Ha1 & Hfr1 & Hd1 & Hu1).
    rewrite Hpath in Hfr1, Hd1.
    cbn [map executeMapJobs app runBeside]. unfold appendFile.
    destruct (appendFile_error h (trace (lands u k s)) outputFile footer)
      as [e|] eqn:Hfoot.
    + exists [], [AppendFile outputFile footer (Some e)].
      match goal with |- context [landsFrom u (S k) ?x] =>
        destruct (landsFrom_effects u (S k) x)
          as (Ht2 & Hs2 & Hf2 & Hl2 & Ha2 & Hfr2 & Hd2 & Hu2) end.
      rewrite Hpath in Hfr2, Hd2. cbn in Ht2, Hs2, Hf2, Hl2, Ha2, Hfr2, Hd2, Hu2.
      cbn zeta. cbn [batchShape length batchResult concat zip_with app map
                     leafAfterJobs activeFileAfterJobs escaped omap rejectionOf
                     appendedOf contentBeside rejectionsBeside appendedTo
                     Nat.add].
      split; [done|]. split; [by rewrite Ht2, Ht1|].
      split; [congruence|]. split; [congruence|].
      split; [congruence|].
      split; [congruence|].
      split; [intros p Hp; by rewrite Hfr2, Hfr1|].
      split; [eexists; split; [done|]; by eexists|].
      split; [by rewrite Hd2, Hd1|].
      split; [rewrite Hu2, Hu1; by rewrite <- !app_assoc|].
      split; [done|]. done.
    + exists [], [AppendFile outputFile footer None].
      match goal with |- context [landsFrom u (S k) ?x] =>
        destruct (landsFrom_effects u (S k) x)
          as (Ht2 & Hs2 & Hf2 & Hl2 & Ha2 & Hfr2 & Hd2 & Hu2) end.
      rewrite Hpath in Hfr2, Hd2. cbn in Ht2, Hs2, Hf2, Hl2, Ha2, Hfr2, Hd2, Hu2.
      rewrite lookup_insert_eq in Hd2.
      cbn zeta. cbn [batchShape length batchResult concat zip_with app map
                     leafAfterJobs activeFileAfterJobs escaped omap rejectionOf
                     appendedOf contentBeside rejectionsBeside appendedTo
                     Nat.add].
      split; [done|]. split; [by rewrite Ht2, Ht1|].
      split; [congruence|]. split; [congruence|].
      split; [congruence|].
      split; [congruence|].
      split; [intros p Hp; by rewrite Hfr2, lookup_insert_ne, Hfr1|].
      split; [eexists; split; [done|]; by eexists|].
      split; [by rewrite Hd2, Hd1|].
      split; [rewrite Hu2, Hu1; by rewrite <- !app_assoc|].
      split; [done|]. done.
  - destruct (lands_effects u k s)
      as (Ht1 & Hs1 & Hf1 & Hl1 & Ha1 & Hfr1 & Hd1 & Hu1).
    rewrite Hpath in Hfr1, Hd1.
    destruct (startMapExport_effects file (getFullPath h (file_path file))
                outputFile (lands u k s))
      as (o & s2 & Hrun & Htrace & Hset & Hfeat & Hun & Hl2 & Haf2 & Hdisk2
          & Hnever2 & Hforget2); [by rewrite Hl1|].
    fold (mapJob h outputFile file) in Hrun.
    change (executeMapJobs h outputFile (map (mapJob h outputFile) (file :: files)))
      with (mapJob h outputFile file
            :: executeMapJobs h outputFile (map (mapJob h outputFile) files)).
    cbn [runBeside]. rewrite Hrun.
    assert (disk s2 !! outputFile
            = appendedTo (landed u k (disk s !! outputFile)) (part o)) as Hout2.
    { rewrite Hdisk2, <- Hd1. destruct o; cbn [part appendedTo]; try done.
      by rewrite lookup_insert_eq. }
    assert (∀ p, p ≠ outputFile → disk s2 !! p = disk s !! p) as Hframe2.
    { intros p Hp. rewrite Hdisk2, <- Hfr1 by done.
      destruct o; try done. by rewrite lookup_insert_ne. }
    destruct (decide (settled o)) as [Ho|Ho].
    + assert (jobResult o = Ok tt) as Hres by by destruct o.
      rewrite Hres.
      destruct (IH (S k) s2)
        as (outs & tail & Hshape & Htrace' & Hset' & Hfeat' & Hl' & Haf'
            & Hframe' & Htail' & Hdisk' & Hun' & Hnever' & Hforget').
      { by rewrite Hl2. }
      cbn zeta in *.
      exists (o :: outs), tail.
      cbn [batchResult]. rewrite Hres.
      cbn [length map app contentBeside rejectionsBeside Nat.add
           leafAfterJobs activeFileAfterJobs zip_with concat untilSwitchFails].
      split; [cbn; by destruct o|].
      split; [rewrite Htrace', Htrace, Ht1; by rewrite <- !app_assoc|].
      split; [congruence|]. split; [congruence|].
      split; [rewrite Hl', Hl2, !decide_True by done; done|].
      split; [rewrite Haf', Haf2, !decide_True by done; done|].
      split; [intros p Hp; by rewrite Hframe', Hframe2|].
      split; [done|].
      split; [by rewrite Hdisk', Hout2|].
      split; [rewrite Hun', Hun, Hu1; by rewrite <- !app_assoc|].
      split; [intros Hnever; apply Forall_cons; auto|].
      intros Hforget.
      rewrite <- (Hforget2 Hforget), (Hforget' Hforget). by destruct o.
    + destruct o as [| | |e]; try (by destruct Ho).
      cbn [jobResult].
      match goal with |- context [landsFrom u (S k) ?x] =>
        destruct (landsFrom_effects u (S k) x)
          as (Ht3 & Hs3 & Hf3 & Hl3 & Ha3 & Hfr3 & Hd3 & Hu3) end.
      rewrite Hpath in Hfr3, Hd3. cbn in Ht3, Hs3, Hf3, Hl3, Ha3, Hfr3, Hd3, Hu3.
      exists [SwitchFailed e], [].
      cbn zeta. cbn [batchShape length batchResult jobResult concat zip_with
                     app map leafAfterJobs activeFileAfterJobs escaped omap
                     part contentBeside rejectionsBeside appendedTo Nat.add
                     untilSwitchFails].
      split; [done|].
      split; [rewrite Ht3, Htrace, Ht1; destruct files; by rewrite ?app_nil_r|].
      split; [congruence|]. split; [congruence|].
      split; [rewrite decide_False by done; destruct files; cbn; congruence|].
      split; [rewrite decide_False by done; destruct files; cbn; congruence|].
      split; [intros p Hp; by rewrite Hfr3, Hframe2|].
      split; [done|].
      split; [by rewrite Hd3, Hout2|].
      split; [rewrite Hu3, Hun, Hu1; by rewrite <- !app_assoc|].
      split; [intros Hnever; by apply Hnever2 in Hnever|].
      intros Hforget. by rewrite <- (Hforget2 Hforget).
Qed.

Lemma htmlExportAll_effects s files :
  activeLeaf s ≠ None →
  getMarkdownFiles h = Ok files →
  ∃ outs s',
    htmlExportAll h false s = (s', Ok true) ∧
    batchShape (length files) outs ∧
    trace s' = trace s ++ map (jobAdded h) files
               ++ [jobsCounted (length files)]
               ++ concat (zip_with (htmlBlock h (settings s)) files outs) ∧
    settings s' = settings s ∧
    features s' = features s ∧
    unhandled s' = unhandled s ++ escaped (batchResult outs) ∧
    activeLeaf s' = leafAfterJobs files outs (activeLeaf s) ∧
    activeFile s' = activeFileAfterJobs files outs (activeFile s) ∧
    disk s' = diskAfterHtmlJobs h (settings s) files outs (disk s) ∧
    ((∀ tr f, openFile_error h tr f = None) → Forall settled outs) ∧
    (forgetful h →
     outs = untilSwitchFails
              (map (λ f, htmlOutcomeOf h (settings s) f (getFullPath h (file_path f)))
                   files)).
Proof.
  intros Hleaf Hfiles.
  unfold htmlExportAll, bind at 1, get.
  destruct (activeLeaf s) as [leaf|] eqn:Hl; [|done].
  unfold bind at 1, liftResult. rewrite Hfiles. cbn [negb].
  unfold bind at 1, bind at 1. rewrite addHtmlJobs_run.
  unfold bind at 1, console_log. cbn [app].
  rewrite length_map. fold (jobsCounted (length files)).
  change (emit ?ev ?s) with (emitAll [ev] s). rewrite emitAll_emitAll.
  set (s0 := emitAll _ s).
  destruct (executeJobs_html_effects files s0)
    as (outs & s' & Hrun & Hshape & Htrace & Hset & Hfeat & Hun & Hl' & Haf
        & Hdisk & Hall & Hforget).
  { subst s0. cbn. by rewrite Hl. }
  unfold detached. rewrite Hrun. unfold ret.
  assert (trace s' = trace s ++ map (jobAdded h) files
               ++ [jobsCounted (length files)]
               ++ concat (zip_with (htmlBlock h (settings s)) files outs))
    as Htrace2.
  { rewrite Htrace. subst s0. cbn. by rewrite <- !app_assoc. }
  subst s0. cbn in Hset, Hfeat, Hun, Hl', Haf, Hdisk, Hforget.
  rewrite Hl in Hl'.
  destruct (batchResult outs) as [[]|e] eqn:Hres.
  - exists outs, s'. rewrite Hres. cbn [escaped]. rewrite app_nil_r.
    repeat split; done.
  - exists outs, (unhandledRejection e s'). rewrite Hres. cbn [escaped].
    cbn. rewrite Hun. repeat split; done.
Qed.

(** The command from its first statement to the moment everything it
    started has settled. *)
Lemma mapExportAll_effects s files :
  activeLeaf s ≠ None →
  getMarkdownFiles h = Ok files →
  let outputFile := mapOutputFile (settings s) in
  let w := writeFile_error h (trace s) outputFile mapHeader in
  ∃ outs tail s',
    mapExportAll h false s = (s', Ok true) ∧
    batchShape (length files) outs ∧
    trace s' = trace s ++ [WriteFile outputFile mapHeader w]
               ++ map (jobAdded h) files
               ++ [jobsCounted (length files)]
               ++ concat (zip_with (mapBlock h outputFile) files outs)
               ++ tail ∧
    settings s' = settings s ∧
    features s' = features s ∧
    activeLeaf s' = leafAfterJobs files outs (activeLeaf s) ∧
    activeFile s' = activeFileAfterJobs files outs (activeFile s) ∧
    (∀ p, p ≠ outputFile → disk s' !! p = disk s !! p) ∧
    match batchResult outs with
    | Err _ => tail = []
    | Ok _ =>
        ∃ a, tail = [AppendFile outputFile footer a] ∧
             ∃ tr, a = appendFile_error h tr outputFile footer
    end ∧
    disk s' !! outputFile
    = contentBeside (headerWrite h s) 0 (map part outs ++ map appendedOf tail)
        (disk s !! outputFile) ∧
    unhandled s'
    = unhandled s
      ++ rejectionsBeside (headerWrite h s) 0 (length outs + length tail)
           (escaped (batchResult outs) ++ omap rejectionOf tail) ∧
    ((∀ tr f, openFile_error h tr f = None) → Forall settled outs) ∧
    (forgetful h →
     outs = untilSwitchFails
              (map (λ f, mapOutcomeOf h outputFile f (getFullPath h (file_path f)))
                   files)).
Proof.
  intros Hleaf Hfiles out w.
  unfold mapExportAll, bind at 1, get.
  destruct (activeLeaf s) as [leaf|] eqn:Hl; [|done].
  unfold bind at 1. fold out. unfold bind at 1, unawaited_writeFile.
  fold w. fold (headerWrite h s). set (u := headerWrite h s).
  unfold bind at 1, startedBeside.
  unfold bind at 1, liftResult. rewrite Hfiles. cbn [negb].
  unfold bind at 1. rewrite addMapJobs_run.
  unfold bind at 1, console_log, ret. cbn [app].
  rewrite length_map. fold (jobsCounted (length files)).
  change (runBeside _ 0) with (runBeside u 0).
  change (emit (jobsCounted ?n) ?s) with (emitAll [jobsCounted n] s).
  rewrite emitAll_emitAll.
  set (s0 := emitAll _ _).
  destruct (runBeside_map u out files 0 s0)
    as (outs & tail & Hshape & Htrace & Hset & Hfeat & Hl' & Haf & Hframe
        & Htail & Hdisk & Hun & Hall & Hforget);
    [subst s0; cbn; by rewrite Hl|done|].
  cbn zeta in *. set (s' := runBeside u 0 _ s0) in *. subst s0.
  cbn [trace settings features activeLeaf activeFile disk unhandled emitAll emit]
    in Htrace, Hset, Hfeat, Hl', Haf, Hframe, Hdisk, Hun.
  exists outs, tail, s'. split; [reflexivity|].
  split; [done|].
  split; [rewrite Htrace; by rewrite <- !app_assoc|].
  rewrite Hl in Hl'. done.
Qed.

(** The command when it starts no job: a check, or a vault that cannot be
    listed.  The write of the header lands alone. *)
Lemma mapExportAll_without_jobs s checking :
  activeLeaf s ≠ None →
  (checking = true ∨ ∃ e, getMarkdownFiles h = Err e) →
  mapExportAll h checking s
  = (landsFrom (headerWrite h s) 0
       (emit (WriteFile (mapOutputFile (settings s)) mapHeader
                (writeFile_error h (trace s) (mapOutputFile (settings s))
                   mapHeader)) s),
     match getMarkdownFiles h with
     | Ok _ => Ok true
     | Err e => Err e
     end).
Proof.
  intros Hleaf Hcase. unfold mapExportAll, bind at 1, get.
  destruct (activeLeaf s) as [leaf|] eqn:Hl; [|done].
  unfold bind at 1, bind at 1, unawaited_writeFile.
  fold (headerWrite h s).
  unfold bind at 1, startedBeside, bind at 1, liftResult, ret.
  destruct (getMarkdownFiles h) as [files|e]; [|done].
  destruct Hcase as [->|[e He]]; [done|discriminate He].
Qed.

End Effects.

(** ** Sequential execution of the html batch *)

Lemma settled_html_block h st file o :
  settled o → writeCompletedOrFailureReported (htmlBlock h st file o).
Proof.
  unfold writeCompletedOrFailureReported, htmlBlock, htmlJobEvents.
  destruct o as [html|e|html e|e]; intros Ho; try done.
  - left. do 2 eexists. cbn. do 4 apply list_elem_of_further. apply list_elem_of_here.
  - right; right. exists e. cbn. do 4 apply list_elem_of_further. apply list_elem_of_here.
  - right; right. exists e. cbn. do 5 apply list_elem_of_further. apply list_elem_of_here.
Qed.

Lemma batchShape_failed_last n outs i e :
  batchShape n outs → outs !! i = Some (SwitchFailed e) → S i = length outs.
Proof.
  intros Hshape Hi. pose proof (lookup_lt_Some _ _ _ Hi) as Hlt.
  destruct (decide (S i < length outs)) as [Hmore|]; [|lia].
  by destruct (batchShape_settled _ _ _ _ Hshape Hi Hmore).
Qed.

(** C1, as amended.  When the command "Export all as html" is run over
    the [N] files that the vault enumerates, the loop creates exactly [N]
    jobs, the [i]-th for the [i]-th file.  The events of the run are the
    events of the jobs that ran, whole job after whole job, in the order
    of the files: these are the jobs up to and including the first one
    whose [openFile] failed, and all [N] of them when none failed.  A job
    whose [openFile] succeeded has completed its write or reported its
    failure when it ends, so before the next one begins; a job whose
    [openFile] failed is the last one to run. *)
Theorem C1_html_jobs_run_one_after_the_other (h : Host) (s : State)
    (files : list TFile) :
  activeLeaf s ≠ None →
  getMarkdownFiles h = Ok files →
  ∃ exportJobs s0 outs s',
    addHtmlJobs h files [] s = (s0, Ok exportJobs) ∧
    length exportJobs = length files ∧
    (∀ i file, files !! i = Some file →
       exportJobs !! i
       = Some (startHtmlExport h file (getFullPath h (file_path file)) "html")) ∧
    htmlExportAll h false s = (s', Ok true) ∧
    trace s' = trace s0 ++ [jobsCounted (length exportJobs)]
               ++ concat (zip_with (htmlBlock h (settings s)) files outs) ∧
    batchShape (length files) outs ∧
    length outs ≤ length files ∧
    (∀ i file o, files !! i = Some file → outs !! i = Some o →
       settled o →
       writeCompletedOrFailureReported (htmlBlock h (settings s) file o)) ∧
    (∀ i file o, files !! i = Some file → outs !! i = Some o →
       S i < length outs →
       writeCompletedOrFailureReported (htmlBlock h (settings s) file o)) ∧
    (∀ i e, outs !! i = Some (SwitchFailed e) → S i = length outs) ∧
    (length outs < length files → ∃ e, last outs = Some (SwitchFailed e)) ∧
    ((∀ tr f, openFile_error h tr f = None) →
     length outs = length files ∧ Forall settled outs).
Proof.
  intros Hleaf Hfiles.
  destruct (htmlExportAll_run h s files Hleaf Hfiles)
    as (outs & s' & Hrun & Hshape & Htrace & Hun & Hall).
  exists (map (htmlJob h) files), (emitAll (map (jobAdded h) files) s), outs, s'.
  rewrite length_map. repeat split; try done.
  - by rewrite addHtmlJobs_run.
  - intros i file Hi. by rewrite list_lookup_fmap, Hi.
  - rewrite Htrace. cbn. by rewrite <- app_assoc.
  - by eapply batchShape_length.
  - intros i file o _ _ Ho. by apply settled_html_block.
  - intros i file o _ Ho Hlt. apply settled_html_block.
    by eapply batchShape_settled.
  - intros i e Hi. by eapply batchShape_failed_last.
  - by apply batchShape_stopped.
  - by destruct (batchShape_all_settled _ _ Hshape (Hall H)).
  - by apply Hall.
Qed.

Lemma C1_witness :
  ∃ s', htmlExportAll quietHost false (freshState emptySettings) = (s', Ok true).
Proof.
  destruct (C1_html_jobs_run_one_after_the_other quietHost
              (freshState emptySettings) [note "a.md"; note "b.md"; note "c.md"])
    as (jobs & s0 & outs & s' & _ & _ & _ & Hrun & _).
  - discriminate.
  - reflexivity.
  - exists s'. exact Hrun.
Defined.

(** C1 as stated fails: in a vault of two notes where the first one
    cannot be opened, two jobs are created and the run ends with the
    failed [openFile] of the first: that job has neither written nor
    reported a failure, and the second job never starts. *)
Lemma C1_counterexample :
  getMarkdownFiles lockedHost = Ok [note "a.md"; note "b.md"]
  ∧ (∃ s0 exportJobs,
       addHtmlJobs lockedHost [note "a.md"; note "b.md"] []
         (freshState emptySettings) = (s0, Ok exportJobs)
       ∧ length exportJobs = 2)
  ∧ trace (htmlExportAll lockedHost false (freshState emptySettings)).1
    = [jobAdded lockedHost (note "a.md"); jobAdded lockedHost (note "b.md");
       jobsCounted 2;
       Notice "Exporting /vault/a.md to html" None;
       ConsoleLog "exporting: /vault/a.md";
       OpenFile (note "a.md") (Some "Error: ENOENT")]
  ∧ ¬ writeCompletedOrFailureReported
        [Notice "Exporting /vault/a.md to html" None;
         ConsoleLog "exporting: /vault/a.md";
         OpenFile (note "a.md") (Some "Error: ENOENT")]
  ∧ OpenFile (note "b.md") None
    ∉ trace (htmlExportAll lockedHost false (freshState emptySettings)).1.
Proof.
  split; [reflexivity|]. split.
  { do 2 eexists. rewrite addHtmlJobs_run. split; reflexivity. }
  assert (trace (htmlExportAll lockedHost false (freshState emptySettings)).1
          = [jobAdded lockedHost (note "a.md"); jobAdded lockedHost (note "b.md");
             jobsCounted 2;
             Notice "Exporting /vault/a.md to html" None;
             ConsoleLog "exporting: /vault/a.md";
             OpenFile (note "a.md") (Some "Error: ENOENT")]) as Htrace
    by (vm_compute; reflexivity).
  split; [exact Htrace|]. split.
  - unfold writeCompletedOrFailureReported, failureNotice.
    intros [(p & data & Hin)|[(p & data & Hin)|(e & Hin)]];
      rewrite !elem_of_cons, elem_of_nil in Hin;
      repeat (destruct Hin as [Hin|Hin]; [discriminate Hin|]); done.
  - rewrite Htrace. intros Hin.
    rewrite !elem_of_cons, elem_of_nil in Hin.
    repeat (destruct Hin as [Hin|Hin]; [discriminate Hin|]). done.
Qed.

(** ** Notifications of the html batch *)

Lemma notices_app evs1 evs2 : notices (evs1 ++ evs2) = notices evs1 ++ notices evs2.
Proof. apply omap_app. Qed.

Lemma notices_jobAdded h files : notices (map (jobAdded h) files) = [].
Proof. induction files as [|f files IH]; [done|]. cbn. apply IH. Qed.

Lemma notices_html_block h st file o :
  settled o →
  notices (htmlBlock h st file o)
  = [htmlStartNotice (getFullPath h (file_path file)) "html";
     outcomeNotice (htmlOutputFile st (getFullPath h (file_path file))) o].
Proof. by destruct o. Qed.

Lemma notices_html_blocks h st files outs :
  Forall settled outs →
  length outs = length files →
  length (notices (concat (zip_with (htmlBlock h st) files outs)))
  = 2 * length files.
Proof.
  intros Hall. revert files.
  induction Hall as [|o outs Ho _ IH]; intros [|f files] Hlen; try done.
  cbn [zip_with concat length]. rewrite notices_app, length_app.
  rewrite notices_html_block by done. rewrite IH by (cbn in Hlen; lia).
  cbn. lia.
Qed.

(** A block in which [openFile] succeeded is the block of a settled job. *)
Lemma opened_html_block h st file o :
  OpenFile file None ∈ htmlBlock h st file o → settled o.
Proof.
  destruct o as [html|e|html e|e]; try done.
  unfold htmlBlock, htmlJobEvents. cbn. intros Hin.
  rewrite !elem_of_cons, elem_of_nil in Hin.
  repeat (destruct Hin as [Hin|Hin]; [discriminate Hin|]). done.
Qed.

(** What threw in a settled html block is what its failure notice tells. *)
Lemma html_block_failure h st file o e :
  settled o →
  (Render FullDocument (Some file) (getFullPath h (file_path file)) "html" (Err e)
     ∈ htmlBlock h st file o
   ∨ ∃ html, WriteFile (htmlOutputFile st (getFullPath h (file_path file)))
               html (Some e) ∈ htmlBlock h st file o) →
  failureOf o = Some e.
Proof.
  unfold htmlBlock, htmlJobEvents.
  destruct o as [html|e'|html e'|e']; intros Ho; try done; cbn;
    intros [Hin|[html' Hin]];
    rewrite !elem_of_cons, elem_of_nil in Hin;
    repeat (destruct Hin as [Hin|Hin]; [try discriminate Hin|]); try done;
    congruence.
Qed.

(** C2, as amended.  In a run of "Export all as html" over [N] files, a
    job whose [openFile] succeeded shows exactly two notifications,
    "Exporting ..." and then its outcome; when its renderer threw [e] or
    its write failed with [e], the outcome is the one failure notification,
    which carries [e]; and the job after it, if there is one, is started
    all the same.  When no [openFile] fails at all, every one of the [N]
    jobs runs and the run shows [2 * N] notifications. *)
Theorem C2_two_notices_per_job_when_switches_succeed (h : Host) (s : State)
    (files : list TFile) :
  activeLeaf s ≠ None →
  getMarkdownFiles h = Ok files →
  ∃ outs s',
    htmlExportAll h false s = (s', Ok true) ∧
    trace s' = trace s ++ map (jobAdded h) files
               ++ [jobsCounted (length files)]
               ++ concat (zip_with (htmlBlock h (settings s)) files outs) ∧
    (∀ i file o, files !! i = Some file → outs !! i = Some o →
       let inputFile := getFullPath h (file_path file) in
       let outputFile := htmlOutputFile (settings s) inputFile in
       let block := htmlBlock h (settings s) file o in
       OpenFile file None ∈ block →
       notices block
       = [htmlStartNotice inputFile "html"; outcomeNotice outputFile o]
       ∧ (∀ e, (Render FullDocument (Some file) inputFile "html" (Err e) ∈ block
                ∨ ∃ html, WriteFile outputFile html (Some e) ∈ block) →
               outcomeNotice outputFile o
               = ("Pandoc export failed: " +:+ e, Some 15000%Z))
       ∧ (S i < length files → is_Some (outs !! S i))) ∧
    ((∀ tr f, openFile_error h tr f = None) →
     length outs = length files
     ∧ length (notices (trace s'))
       = length (notices (trace s)) + 2 * length files).
Proof.
  intros Hleaf Hfiles.
  destruct (htmlExportAll_run h s files Hleaf Hfiles)
    as (outs & s' & Hrun & Hshape & Htrace & Hun & Hall).
  exists outs, s'. split; [done|]. split; [done|]. split.
  - intros i file o Hfile Ho inputFile outputFile block Hopen.
    apply opened_html_block in Hopen as Hsettled.
    split; [by apply notices_html_block|]. split.
    + intros e He. unfold outcomeNotice.
      by erewrite html_block_failure.
    + intros Hnext. by eapply batchShape_next.
  - intros Hnever.
    destruct (batchShape_all_settled _ _ Hshape (Hall Hnever)) as [Hlen _].
    split; [done|].
    rewrite Htrace, !notices_app, !length_app, notices_jobAdded.
    rewrite notices_html_blocks by auto. cbn. lia.
Qed.

Lemma C2_witness :
  ∃ s', htmlExportAll quietHost false (freshState emptySettings) = (s', Ok true)
        ∧ length (notices (trace s')) = 0 + 2 * 3.
Proof.
  destruct (C2_two_notices_per_job_when_switches_succeed quietHost
              (freshState emptySettings) [note "a.md"; note "b.md"; note "c.md"])
    as (outs & s' & Hrun & _ & _ & Hcount).
  - discriminate.
  - reflexivity.
  - exists s'. split; [exact Hrun|]. apply Hcount. reflexivity.
Defined.

(** C2 as stated fails: when the first of two notes cannot be opened, the
    whole run shows one notification, not one start and one outcome for
    each of the two jobs. *)
Lemma C2_counterexample :
  getMarkdownFiles lockedHost = Ok [note "a.md"; note "b.md"]
  ∧ notices (trace (htmlExportAll lockedHost false (freshState emptySettings)).1)
    = [("Exporting /vault/a.md to html", None)]
  ∧ length (notices
      (trace (htmlExportAll lockedHost false (freshState emptySettings)).1))
    ≠ 2 * 2.
Proof. vm_compute. repeat split; discriminate. Qed.

(** ** The file written by the map export *)

Lemma fragments_jobAdded h files : fragmentsRendered (map (jobAdded h) files) = [].
Proof. induction files as [|f files IH]; [done|]. cbn. apply IH. Qed.

(** Blocks without a failed call are blocks of jobs that appended their
    fragment. *)
Lemma unfailed_map_blocks h outputFile files outs :
  length outs ≤ length files →
  Forall (λ ev, failed ev = false)
    (concat (zip_with (mapBlock h outputFile) files outs)) →
  ∃ fragments,
    outs = map Written fragments ∧
    fragmentsRendered (concat (zip_with (mapBlock h outputFile) files outs))
    = zip_with (λ f html, (Some f, getFullPath h (file_path f), html))
        files fragments.
Proof.
  revert files. induction outs as [|o outs IH]; intros files Hlen Hok.
  - exists []. by destruct files.
  - destruct files as [|f files]; [cbn in Hlen; lia|].
    cbn [zip_with concat] in Hok. apply Forall_app in Hok as [Ho Hok].
    destruct (IH files) as (frags & -> & Hfr); [cbn in Hlen; lia|done|].
    destruct o as [html|e|html e|e].
    + exists (html :: frags). split; [done|].
      cbn [zip_with concat]. unfold fragmentsRendered in *.
      rewrite omap_app, Hfr. done.
    + assert (failed (Render DivFragment (Some f)
                (getFullPath h (file_path f)) "html" (Err e)) = false); [|done].
      rewrite Forall_forall in Ho. apply Ho. cbn. repeat constructor.
    + assert (failed (AppendFile outputFile html (Some e)) = false); [|done].
      rewrite Forall_forall in Ho. apply Ho. cbn. repeat constructor.
    + assert (failed (OpenFile f (Some e)) = false); [|done].
      rewrite Forall_forall in Ho. apply Ho. cbn. repeat constructor.
Qed.

Lemma appended_Written fragments :
  joinAll (map appended (map Written fragments)) = joinAll fragments.
Proof.
  induction fragments as [|x l IH]; [done|].
  cbn [map appended joinAll foldr]. f_equal. exact IH.
Qed.

(** *** The shared file while the write of the header is in flight *)

Lemma sliceFrom_nil n : sliceFrom n "" = "".
Proof. by destruct n. Qed.

Lemma joinAll_cons x l : joinAll (x :: l) = x +:+ joinAll l.
Proof. done. Qed.

Lemma appendedTo_Some c d : appendedTo (Some c) d = Some (c +:+ added d).
Proof. destruct d; cbn; [done|]. by rewrite append_nil_r. Qed.

Lemma joinAll_omap_cons d l :
  joinAll (omap id (d :: l)) = added d +:+ joinAll (omap id l).
Proof. by destruct d. Qed.

(** Appends alone: the file grows by what was appended. *)
Lemma appendedTo_all c parts :
  foldl appendedTo (Some c) parts = Some (c +:+ joinAll (omap id parts)).
Proof.
  revert c. induction parts as [|d parts IH]; intros c.
  - cbn. by rewrite append_nil_r.
  - cbn [foldl]. by rewrite appendedTo_Some, IH, joinAll_omap_cons, append_assoc.
Qed.

(** Once the write has landed, the steps only append. *)
Lemma contentBeside_settled u k parts c :
  uw_opens u < k → uw_writes u < k →
  contentBeside u k parts c = foldl appendedTo c parts.
Proof.
  revert k c. induction parts as [|d parts IH]; intros k c Ho Hw;
    cbn [contentBeside foldl].
  - unfold landedFrom. by rewrite !decide_False by lia.
  - unfold landed. rewrite !decide_False by lia. apply IH; lia.
Qed.

(** Between the open and the write: what is appended now is overwritten
    from the start of the file. *)
Lemma contentBeside_opened u k parts c :
  uw_error u = None → uw_opens u < k → k ≤ uw_writes u →
  contentBeside u k parts (Some c)
  = Some (uw_data u
          +:+ sliceFrom (String.length (uw_data u))
                (c +:+ joinAll (omap id (take (uw_writes u - k) parts)))
          +:+ joinAll (omap id (drop (uw_writes u - k) parts))).
Proof.
  intros Herr. revert k c.
  induction parts as [|d parts IH]; intros k c Ho Hw; cbn [contentBeside].
  - unfold landedFrom, written.
    rewrite !(decide_False (P := k ≤ uw_opens u)) by lia.
    rewrite !(decide_True (P := k ≤ uw_writes u)), Herr by lia.
    rewrite take_nil, drop_nil. cbn. by rewrite !append_nil_r.
  - unfold landed. rewrite !(decide_False (P := k = uw_opens u)) by lia.
    destruct (decide (k = uw_writes u)) as [->|Hne].
    + unfold written. rewrite Herr, Nat.sub_diag.
      rewrite contentBeside_settled by lia.
      rewrite take_0, drop_0. change (default "" (Some c)) with c.
      change (joinAll (omap id [])) with "".
      by rewrite appendedTo_Some, appendedTo_all, joinAll_omap_cons,
        !append_assoc, append_nil_r.
    + replace (uw_writes u - k) with (S (uw_writes u - S k)) by lia.
      cbn [take drop].
      by rewrite appendedTo_Some, IH, joinAll_omap_cons, append_assoc by lia.
Qed.

(** Before the open: what is appended now is lost.  So the content in
    the end depends on what was appended and when, not on what the file
    held. *)
Lemma contentBeside_queued u k parts c :
  uw_error u = None → k ≤ uw_opens u → uw_opens u ≤ uw_writes u →
  contentBeside u k parts c
  = Some (racedContent (uw_data u) (uw_opens u - k)
            (uw_writes u - uw_opens u) parts).
Proof.
  intros Herr. revert k c. unfold racedContent.
  induction parts as [|d parts IH]; intros k c Ho Hw; cbn [contentBeside].
  - unfold landedFrom, opened, written.
    rewrite !(decide_True (P := k ≤ uw_opens u)) by lia.
    rewrite !(decide_True (P := k ≤ uw_writes u)), Herr by lia.
    rewrite !drop_nil, take_nil. cbn. by rewrite append_nil_r.
  - unfold landed. destruct (decide (k = uw_opens u)) as [->|Hne].
    + unfold opened. rewrite Herr, Nat.sub_diag, drop_0. cbn [Nat.add].
      destruct (decide (uw_opens u = uw_writes u)) as [Heq|Hne].
      * unfold written. rewrite Herr, <- Heq, Nat.sub_diag.
        rewrite contentBeside_settled by lia.
        rewrite take_0, drop_0. change (default "" (Some "")) with "".
        change (joinAll (omap id [])) with "".
        by rewrite appendedTo_Some, appendedTo_all, joinAll_omap_cons,
          !append_assoc.
      * rewrite appendedTo_Some, (contentBeside_opened _ _ _ _ Herr) by lia.
        replace (uw_writes u - uw_opens u)
          with (S (uw_writes u - S (uw_opens u))) by lia.
        cbn [take drop]. by rewrite joinAll_omap_cons.
    + rewrite !(decide_False (P := k = uw_writes u)) by lia.
      rewrite IH by lia.
      replace (uw_opens u - k) with (S (uw_opens u - S k)) by lia.
      done.
Qed.

(** The rejection of the write comes before that of the caller when the
    open failed while the caller was running, and after it otherwise. *)
Lemma rejectionsBeside_order u k m fg :
  rejectionsBeside u k m fg
  = if decide (uw_opens u < k) then fg
    else if decide (uw_opens u < k + m) then option_list (uw_error u) ++ fg
         else fg ++ option_list (uw_error u).
Proof.
  revert k. induction m as [|m IH]; intros k; cbn [rejectionsBeside].
  - repeat case_decide; try lia; by rewrite ?app_nil_r.
  - rewrite IH. repeat case_decide; try lia; by rewrite ?app_nil_r.
Qed.

(** C3.  The header is written by a call that nobody awaits, so nothing
    orders it before the appends.  Take a vault without notes: the
    callback starts the write of the header and then [executeJobs()],
    whose one step is the append of the footer.  When the write reaches
    the file after that append, no call fails, the append of the footer
    is the last call of the run, and the destination holds the header
    alone: the footer is lost. *)
Theorem C3_footer_lost_when_the_header_lands_late :
  getMarkdownFiles lateWriteHost = Ok []
  ∧ trace (mapExportAll lateWriteHost false (freshState emptySettings)).1
    = [WriteFile (mapOutputFile emptySettings) mapHeader None;
       jobsCounted 0;
       AppendFile (mapOutputFile emptySettings) footer None]
  ∧ unhandled (mapExportAll lateWriteHost false (freshState emptySettings)).1 = []
  ∧ disk (mapExportAll lateWriteHost false (freshState emptySettings)).1
      !! mapOutputFile emptySettings
    = Some mapHeader
  ∧ mapHeader ≠ mapHeader +:+ joinAll [] +:+ footer.
Proof. vm_compute. repeat split; discriminate. Qed.

(** ** Which errors leave a job *)

Lemma startHtmlExport_result h file inputFile shortName s :
  activeLeaf s ≠ None →
  (startHtmlExport h file inputFile shortName s).2
  = match openFile_error h
            (trace s ++
             [Notice ("Exporting " +:+ inputFile +:+ " to " +:+ shortName) None;
              ConsoleLog ("exporting: " +:+ inputFile)]) file with
    | Some e => Err e
    | None => Ok tt
    end.
Proof.
  intros Hleaf.
  destruct (startHtmlExport_events h file inputFile shortName s Hleaf)
    as (o & s' & -> & _ & _ & _ & _ & ->).
  by destruct o.
Qed.

Lemma startMapExport_result h file inputFile outputFile s :
  activeLeaf s ≠ None →
  (startMapExport h file inputFile outputFile s).2
  = match openFile_error h
            (trace s ++
             [Notice ("Exporting " +:+ inputFile +:+ " to map") None;
              ConsoleLog ("Map exporting: " +:+ inputFile)]) file with
    | Some e => Err e
    | None => Ok tt
    end.
Proof.
  intros Hleaf.
  destruct (startMapExport_events h file inputFile outputFile s Hleaf)
    as (o & s' & -> & _ & _ & _ & _ & -> & _).
  by destruct o.
Qed.

Lemma htmlExportAll_enumeration_fails h s e checking :
  activeLeaf s ≠ None →
  getMarkdownFiles h = Err e →
  htmlExportAll h checking s = (s, Err e).
Proof.
  intros Hleaf Hfiles. unfold htmlExportAll, bind at 1, get.
  destruct (activeLeaf s) as [leaf|] eqn:Hl; [|done].
  unfold bind at 1, liftResult. by rewrite Hfiles.
Qed.

Lemma mapExportAll_enumeration_fails h s e checking :
  activeLeaf s ≠ None →
  getMarkdownFiles h = Err e →
  ∃ s1,
    mapExportAll h checking s = (s1, Err e) ∧
    trace s1
    = trace s ++
      [WriteFile (mapOutputFile (settings s)) mapHeader
         (writeFile_error h (trace s) (mapOutputFile (settings s)) mapHeader)].
Proof.
  intros Hleaf Hfiles.
  rewrite mapExportAll_without_jobs by eauto. rewrite Hfiles.
  eexists. split; [reflexivity|].
  by destruct (landsFrom_effects (headerWrite h s) 0
                 (emit (WriteFile (mapOutputFile (settings s)) mapHeader
                          (writeFile_error h (trace s)
                             (mapOutputFile (settings s)) mapHeader)) s))
    as (-> & _).
Qed.

(** C5, as amended.  A job returns normally whatever its renderer and its
    write or append do: the one error that leaves [startHtmlExport] or
    [startMapExport] is the one [openFile] rejected with, before the [try].
    So when no [openFile] fails, the html run leaves no rejected promise
    behind; and a job that throws ends the loop of [executeJobs] with its
    error.  A failure to enumerate the files is thrown to the caller of
    either command, and no job is started. *)
Theorem C5_only_a_failed_switch_leaves_a_job (h : Host) (s : State)
    (file : TFile) (inputFile shortName outputFile : string) :
  activeLeaf s ≠ None →
  (startHtmlExport h file inputFile shortName s).2
  = match openFile_error h
            (trace s ++
             [Notice ("Exporting " +:+ inputFile +:+ " to " +:+ shortName) None;
              ConsoleLog ("exporting: " +:+ inputFile)]) file with
    | Some e => Err e
    | None => Ok tt
    end
  ∧ (startMapExport h file inputFile outputFile s).2
    = match openFile_error h
              (trace s ++
               [Notice ("Exporting " +:+ inputFile +:+ " to map") None;
                ConsoleLog ("Map exporting: " +:+ inputFile)]) file with
      | Some e => Err e
      | None => Ok tt
      end
  ∧ (∀ files, getMarkdownFiles h = Ok files →
       (∀ tr f, openFile_error h tr f = None) →
       unhandled (htmlExportAll h false s).1 = unhandled s)
  ∧ (∀ job rest e, (job s).2 = Err e → executeJobs (job :: rest) s = job s)
  ∧ (∀ e checking, getMarkdownFiles h = Err e →
       htmlExportAll h checking s = (s, Err e)
       ∧ (mapExportAll h checking s).2 = Err e
       ∧ notices (trace (mapExportAll h checking s).1) = notices (trace s)).
Proof.
  intros Hleaf. split; [by apply startHtmlExport_result|].
  split; [by apply startMapExport_result|]. split; [|split].
  2: { intros job rest e Hjob. cbn [executeJobs]. unfold bind.
       destruct (job s) as [s1 [[]|e1]]; [discriminate Hjob|done]. }
  - intros files Hfiles Hnever.
    destruct (htmlExportAll_run h s files Hleaf Hfiles)
      as (outs & s' & Hrun & Hshape & _ & Hun & Hall).
    rewrite Hrun. cbn [fst]. rewrite Hun.
    destruct (batchShape_all_settled _ _ Hshape (Hall Hnever)) as [_ ->].
    cbn. by rewrite app_nil_r.
  - intros e checking Hfiles.
    split; [by apply htmlExportAll_enumeration_fails|].
    destruct (mapExportAll_enumeration_fails h s e checking Hleaf Hfiles)
      as (s1 & -> & Htr1).
    split; [done|]. cbn [fst].
    by rewrite Htr1, notices_app, app_nil_r.
Qed.

Lemma C5_witness :
  (startMapExport quietHost (note "a.md") "/vault/a.md" "map.html"
     (freshState emptySettings)).2 = Ok tt.
Proof.
  apply (C5_only_a_failed_switch_leaves_a_job quietHost
           (freshState emptySettings) (note "a.md") "/vault/a.md" "html" "map.html").
  discriminate.
Defined.

(** C5 as stated fails: in a map export over three notes where the second
    one cannot be opened, the error of [openFile] leaves the second job,
    rejects the promise of the run, and neither the third job nor the
    footer follows. *)
Lemma C5_counterexample :
  unhandled (mapExportAll halfLockedHost false (freshState emptySettings)).1
  = ["Error: EACCES"]
  ∧ notices (trace (mapExportAll halfLockedHost false (freshState emptySettings)).1)
    = [("Exporting /vault/a.md to map", None);
       ("Successfully exported via Pandoc to adapter.getBasePath()\map.html", None);
       ("Exporting /vault/b.md to map", None)]
  ∧ disk (mapExportAll halfLockedHost false (freshState emptySettings)).1
      !! "adapter.getBasePath()\map.html"
    = Some (mapHeader +:+ "[/vault/a.md]").
Proof. vm_compute. done. Qed.

(** ** What the availability checks do and return *)

Lemma landsFrom_alone h s :
  let outputFile := mapOutputFile (settings s) in
  let w := writeFile_error h (trace s) outputFile mapHeader in
  let s1 := landsFrom (headerWrite h s) 0 (emit (WriteFile outputFile mapHeader w) s) in
  trace s1 = trace s ++ [WriteFile outputFile mapHeader w] ∧
  settings s1 = settings s ∧
  features s1 = features s ∧
  activeLeaf s1 = activeLeaf s ∧
  activeFile s1 = activeFile s ∧
  unhandled s1 = unhandled s ++ option_list w ∧
  disk s1 = match w with
            | None => <[outputFile := mapHeader]> (disk s)
            | Some _ => disk s
            end.
Proof.
  intros out w. cbn zeta.
  unfold landsFrom. rewrite !decide_True by lia.
  unfold opens, writes, headerWrite. cbn [uw_error uw_path uw_data].
  fold out w.
  destruct w as [e|]; cbn; [done|].
  rewrite lookup_insert_eq, insert_insert_eq. cbn.
  by rewrite app_nil_r, sliceFrom_nil, append_nil_r.
Qed.

Lemma mapExportAll_check h s :
  activeLeaf s ≠ None →
  ∃ s1,
    mapExportAll h true s
    = (s1, match getMarkdownFiles h with Ok _ => Ok true | Err e => Err e end) ∧
    trace s1
    = trace s ++
      [WriteFile (mapOutputFile (settings s)) mapHeader
         (writeFile_error h (trace s) (mapOutputFile (settings s)) mapHeader)] ∧
    (writeFile_error h (trace s) (mapOutputFile (settings s)) mapHeader = None →
     disk s1 = <[mapOutputFile (settings s) := mapHeader]> (disk s)).
Proof.
  intros Hleaf. rewrite mapExportAll_without_jobs by auto.
  eexists. split; [reflexivity|].
  destruct (landsFrom_alone h s) as (Htr & _ & _ & _ & _ & _ & Hdisk).
  split; [done|]. intros Hw. by rewrite Hdisk, Hw.
Qed.

(** C9.  Whenever the callback of "Export all as mind map" runs with a
    leaf in place, for a check as for a run, the first thing it does is
    write the header to the destination computed from the settings: the
    write is the first event, before any job.  In a mere check
    ([checking = true]) it is the only event, and when the write succeeds
    the destination holds the header alone, whatever it held before. *)
Theorem C9_map_check_writes_the_header (h : Host) (s : State) (checking : bool) :
  activeLeaf s ≠ None →
  ∃ rest,
    trace (mapExportAll h checking s).1
    = trace s ++
      WriteFile (mapOutputFile (settings s)) mapHeader
        (writeFile_error h (trace s) (mapOutputFile (settings s)) mapHeader)
      :: rest
    ∧ (checking = true →
       rest = [] ∧
       (writeFile_error h (trace s) (mapOutputFile (settings s)) mapHeader = None →
        disk (mapExportAll h checking s).1
        = <[mapOutputFile (settings s) := mapHeader]> (disk s))).
Proof.
  intros Hleaf. destruct checking.
  - destruct (mapExportAll_check h s Hleaf) as (s1 & -> & Htr & Hdisk).
    exists []. cbn [fst]. split; [done|]. intros _. split; [done|].
    exact Hdisk.
  - destruct (getMarkdownFiles h) as [files|e] eqn:Hfiles.
    + destruct (mapExportAll_effects h s files Hleaf Hfiles)
        as (outs & tail & s' & -> & _ & Htrace & _).
      eexists. split; [|done]. cbn [fst]. rewrite Htrace. reflexivity.
    + destruct (mapExportAll_enumeration_fails h s e false Hleaf Hfiles)
        as (s1 & -> & Htr1).
      exists []. by split.
Qed.

Lemma C9_witness :
  disk (mapExportAll quietHost true
          (store "adapter.getBasePath()\map.html" "an older map"
                 (freshState emptySettings))).1
  = <["adapter.getBasePath()\map.html" := mapHeader]>
      (disk (store "adapter.getBasePath()\map.html" "an older map"
                   (freshState emptySettings))).
Proof.
  destruct (C9_map_check_writes_the_header quietHost
              (store "adapter.getBasePath()\map.html" "an older map"
                     (freshState emptySettings)) true)
    as (rest & _ & Hcheck).
  - discriminate.
  - destruct (Hcheck eq_refl) as [_ Hdisk]. apply Hdisk. reflexivity.
Defined.

(** C10, as amended.  For both commands, and for a check as for a run, the
    callback returns true exactly when the workspace has an active leaf,
    and false otherwise; how many files the vault enumerates plays no
    part. *)
Theorem C10_available_iff_active_leaf (h : Host) (s : State)
    (checking : bool) (files : list TFile) :
  getMarkdownFiles h = Ok files →
  ((htmlExportAll h checking s).2 = Ok true ↔ activeLeaf s ≠ None)
  ∧ ((mapExportAll h checking s).2 = Ok true ↔ activeLeaf s ≠ None)
  ∧ (activeLeaf s = None →
     htmlExportAll h checking s = (s, Ok false)
     ∧ mapExportAll h checking s = (s, Ok false)).
Proof.
  intros Hfiles.
  assert (activeLeaf s = None →
          htmlExportAll h checking s = (s, Ok false)
          ∧ mapExportAll h checking s = (s, Ok false)) as Hnone.
  { intros Hl. unfold htmlExportAll, mapExportAll, bind, get. by rewrite Hl. }
  assert (activeLeaf s ≠ None →
          (htmlExportAll h checking s).2 = Ok true
          ∧ (mapExportAll h checking s).2 = Ok true) as Hsome.
  { intros Hleaf. destruct checking.
    - split.
      + unfold htmlExportAll, bind at 1, get.
        destruct (activeLeaf s); [|done].
        unfold bind at 1, liftResult. by rewrite Hfiles.
      + destruct (mapExportAll_check h s Hleaf) as (s1 & -> & _).
        by rewrite Hfiles.
    - destruct (htmlExportAll_run h s files Hleaf Hfiles) as (? & ? & -> & _).
      destruct (mapExportAll_effects h s files Hleaf Hfiles) as (? & ? & ? & -> & _).
      done. }
  repeat split; try (by apply Hnone); try (by apply Hsome).
  - intros Hret Hl. destruct (Hnone Hl) as [Hhtml _].
    by rewrite Hhtml in Hret.
  - intros Hret Hl. destruct (Hnone Hl) as [_ Hmap].
    by rewrite Hmap in Hret.
Qed.

Lemma C10_witness :
  (htmlExportAll emptyVaultHost true (freshState emptySettings)).2 = Ok true
  ↔ activeLeaf (freshState emptySettings) ≠ None.
Proof.
  apply (C10_available_iff_active_leaf emptyVaultHost
           (freshState emptySettings) true []).
  reflexivity.
Defined.

(** C10 as stated fails: with an active leaf and a vault that enumerates no
    file at all, both availability checks return true. *)
Lemma C10_counterexample :
  getMarkdownFiles emptyVaultHost = Ok []
  ∧ (htmlExportAll emptyVaultHost true (freshState emptySettings)).2 = Ok true
  ∧ (mapExportAll emptyVaultHost true (freshState emptySettings)).2 = Ok true.
Proof. vm_compute. done. Qed.

(** ** Capabilities and eligibility *)

(** C8.  [createBinaryMap] binds each of the two tools to the path set in
    the settings when that is set and not empty, and otherwise to what
    [lookpath] finds; when neither gives a path the capability reads as
    [undefined].  It never throws and does nothing else. *)
Theorem C8_capability_is_configured_path_or_lookup (h : Host) (s : State) :
  (createBinaryMap h s).2 = Ok tt
  ∧ feature (createBinaryMap h s).1 "pandoc"
    = match pandoc (settings s) with
      | Some p => if decide (p = "") then lookpath h "pandoc" else Some p
      | None => lookpath h "pandoc"
      end
  ∧ feature (createBinaryMap h s).1 "pdflatex"
    = match pdflatex (settings s) with
      | Some p => if decide (p = "") then lookpath h "pdflatex" else Some p
      | None => lookpath h "pdflatex"
      end
  ∧ (truthy (pandoc (settings s)) = false → lookpath h "pandoc" = None →
     feature (createBinaryMap h s).1 "pandoc" = None)
  ∧ (truthy (pdflatex (settings s)) = false → lookpath h "pdflatex" = None →
     feature (createBinaryMap h s).1 "pdflatex" = None)
  ∧ trace (createBinaryMap h s).1 = trace s
  ∧ unhandled (createBinaryMap h s).1 = unhandled s.
Proof.
  unfold createBinaryMap, feature, js_or. cbn.
  rewrite lookup_insert_eq, lookup_insert_ne, lookup_insert_eq by done. cbn.
  repeat split.
  - destruct (pandoc (settings s)) as [p|]; [|done]. cbn.
    destruct (String.eqb_spec p ""); by case_decide.
  - destruct (pdflatex (settings s)) as [p|]; [|done]. cbn.
    destruct (String.eqb_spec p ""); by case_decide.
  - by intros -> ->.
  - by intros -> ->.
Qed.

Lemma C8_witness :
  feature (createBinaryMap quietHost (freshState emptySettings)).1 "pandoc" = None.
Proof.
  apply (C8_capability_is_configured_path_or_lookup quietHost
           (freshState emptySettings)); reflexivity.
Defined.

(** Starting from the empty map, [createBinaryMap] leaves paths or nothing,
    provided [lookpath] never answers with an empty path. *)
Lemma createBinaryMap_pathsOrAbsent h s :
  (∀ name, lookpath h name ≠ Some "") →
  pathsOrAbsent (createBinaryMap h s).1.
Proof.
  intros Hlook. unfold pathsOrAbsent, createBinaryMap, feature, js_or. cbn.
  rewrite lookup_insert_eq, lookup_insert_ne, lookup_insert_eq by done. cbn.
  split.
  - destruct (pandoc (settings s)) as [p|]; cbn; [|apply Hlook].
    destruct (String.eqb_spec p ""); cbn; [apply Hlook|congruence].
  - destruct (pdflatex (settings s)) as [p|]; cbn; [|apply Hlook].
    destruct (String.eqb_spec p ""); cbn; [apply Hlook|congruence].
Qed.

Section EligibilityFacts.
Variable inputExtensions : list string.
Variables needsPandoc needsLaTeX : OutputFormat → bool.

Lemma endsWithOneOf_true file exts :
  endsWithOneOf file exts = true
  ↔ ∃ ext, ext ∈ exts ∧ endsWith file ext = true.
Proof.
  induction exts as [|x exts IH]; cbn.
  - split; [done|]. intros (ext & Hin & _). by apply elem_of_nil in Hin.
  - destruct (endsWith file x) eqn:Hx.
    + split; [|done]. intros _. exists x. split; [apply list_elem_of_here|done].
    + rewrite IH. split.
      * intros (ext & Hin & He). exists ext. split; [|done].
        by apply list_elem_of_further.
      * intros (ext & Hin & He). apply elem_of_cons in Hin as [->|Hin].
        -- congruence.
        -- by exists ext.
Qed.

(** The test, read off the code. *)
Lemma currentFileCanBeExported_true h s format :
  currentFileCanBeExported inputExtensions needsPandoc needsLaTeX h s format = true
  ↔ (needsPandoc format = true → truthy (feature s "pandoc") = true)
    ∧ (needsLaTeX format = true → truthy (feature s "pdflatex") = true)
    ∧ ∃ file, getCurrentFile h s = Some file ∧ file ≠ ""
              ∧ ∃ ext, ext ∈ inputExtensions ∧ endsWith file ext = true.
Proof.
  unfold currentFileCanBeExported.
  destruct (needsPandoc format), (truthy (feature s "pandoc"));
    destruct (needsLaTeX format), (truthy (feature s "pdflatex")); cbn;
    try (split; [done|]; intros (H1 & H2 & _); (by specialize (H1 eq_refl))
                                             || (by specialize (H2 eq_refl))).
  all: destruct (getCurrentFile h s) as [file|]; cbn;
    [|split; [done|]; by intros (_ & _ & ? & ? & _)].
  all: destruct (String.eqb_spec file "") as [->|Hne]; cbn;
    [split; [done|]; intros (_ & _ & ? & [= <-] & ? & _); done|].
  all: rewrite endsWithOneOf_true; split;
    [intros Hext; repeat split; try done; by exists file
    |intros (_ & _ & ? & [= <-] & _ & Hext); done].
Qed.

End EligibilityFacts.


(** ** Where the html export writes *)

Lemma beforeLastDot_no_dot ext :
  hasChar "."%char ext = false → beforeLastDot ext = None.
Proof.
  induction ext as [|c ext IH]; [done|]. cbn.
  intros [Hc Hext]%orb_false_elim. rewrite IH by done. by rewrite Hc.
Qed.

Lemma beforeLastDot_stem stem ext :
  hasChar "."%char ext = false →
  beforeLastDot (stem +:+ "." +:+ ext) = Some stem.
Proof.
  intros Hext. induction stem as [|c stem IH].
  - rewrite append_nil_l, append_cons, append_nil_l. cbn.
    by rewrite beforeLastDot_no_dot.
  - rewrite append_cons. cbn. by rewrite IH.
Qed.

(** The modelled [replaceFileExtension] swaps the extension of [name.ext]. *)
Lemma replaceFileExtension_swaps stem ext extension :
  hasChar "."%char ext = false →
  replaceFileExtension (stem +:+ "." +:+ ext) extension
  = stem +:+ "." +:+ extension.
Proof.
  intros Hext. unfold replaceFileExtension. by rewrite beforeLastDot_stem.
Qed.

Lemma split_not_nil p : path.split p ≠ [].
Proof.
  destruct p as [|c p]; [done|]. cbn.
  destruct (Ascii.eqb c path.slash); [done|]. by destruct (path.split p).
Qed.

Lemma split_plain name : hasChar path.slash name = false → path.split name = [name].
Proof.
  induction name as [|c name IH]; [done|]. cbn.
  intros [Hc Hname]%orb_false_elim. rewrite Hc, IH by done. done.
Qed.

Lemma split_join a b : path.split (a +:+ "/" +:+ b) = path.split a ++ path.split b.
Proof.
  induction a as [|c a IH].
  - by rewrite append_nil_l, append_cons, append_nil_l.
  - rewrite append_cons. cbn. rewrite IH.
    destruct (Ascii.eqb c path.slash); [done|].
    pose proof (split_not_nil a). by destruct (path.split a).
Qed.

Lemma basename_join dir name :
  hasChar path.slash name = false → name ≠ "" →
  path.basename (dir +:+ "/" +:+ name) = name.
Proof.
  intros Hplain Hne. unfold path.basename.
  rewrite split_join, (split_plain name), reverse_snoc by done.
  by rewrite filter_cons_True.
Qed.

Lemma unsplit_snoc segs name :
  segs ≠ [] → path.unsplit (segs ++ [name]) = path.unsplit segs +:+ "/" +:+ name.
Proof.
  induction segs as [|seg segs IH]; [done|]. intros _.
  destruct segs as [|seg' segs]; [done|].
  change (path.unsplit ((seg :: seg' :: segs) ++ [name]))
    with (seg +:+ "/" +:+ path.unsplit ((seg' :: segs) ++ [name])).
  rewrite IH by done.
  change (path.unsplit (seg :: seg' :: segs))
    with (seg +:+ "/" +:+ path.unsplit (seg' :: segs)).
  by rewrite !append_assoc.
Qed.

Lemma isAbsolute_app a b : a ≠ "" → path.isAbsolute (a +:+ b) = path.isAbsolute a.
Proof. by destruct a. Qed.

Lemma append_not_empty a b : b ≠ "" → a +:+ b ≠ "".
Proof.
  intros Hb Hab. apply (f_equal String.length) in Hab.
  rewrite length_append in Hab. destruct b; [done|]. cbn in Hab. lia.
Qed.

Lemma normalizeSegment_plain allow res name :
  plainName name → path.normalizeSegment allow res name = name :: res.
Proof.
  intros (_ & Hne & Hdot & Hdots). unfold path.normalizeSegment.
  destruct (decide (name = "" ∨ name = ".")) as [[?|?]|_]; [done..|].
  by destruct (decide (name = "..")).
Qed.

(** Joining a directory that is already in normal form with a plain file
    name puts one separator between them. *)
Lemma join_normal dir name :
  plainName name →
  path.normalize dir = dir →
  dir ≠ "/" → dir ≠ "." →
  endsWith dir "/" = false →
  endsWith (dir +:+ "/" +:+ name) "/" = false →
  path.join dir name = dir +:+ "/" +:+ name.
Proof.
  intros (Hplain & Hne & Hdot & Hdots) Hnormal Hroot Hcur Htrail Htrail'.
  assert (dir ≠ "") as Hdir by (intros ->; done).
  unfold path.join. rewrite !decide_False by done.
  unfold path.normalize in *.
  rewrite decide_False in Hnormal by done.
  rewrite decide_False by (by apply append_not_empty, append_not_empty).
  rewrite Htrail in Hnormal. rewrite Htrail', isAbsolute_app by done.
  unfold path.normalizeString in *.
  rewrite split_join, (split_plain name), foldl_snoc by done.
  set (allow := negb (path.isAbsolute dir)) in *.
  set (kept := foldl (path.normalizeSegment allow) [] (path.split dir)) in *.
  rewrite normalizeSegment_plain by done.
  rewrite reverse_cons.
  destruct (reverse kept) as [|seg segs] eqn:Hkept.
  { exfalso. cbn in Hnormal.
    destruct (decide ("" = "")) as [_|?]; [|done].
    destruct (path.isAbsolute dir); congruence. }
  rewrite unsplit_snoc by done.
  set (q := path.unsplit (seg :: segs)) in *.
  rewrite decide_False by (by apply append_not_empty, append_not_empty).
  destruct (decide (q = "")) as [Hq|Hq].
  { exfalso. destruct (path.isAbsolute dir); congruence. }
  destruct (path.isAbsolute dir).
  - rewrite <- Hnormal. by rewrite !append_assoc.
  - by rewrite Hnormal.
Qed.

Lemma hasChar_append c a b : hasChar c (a +:+ b) = hasChar c a || hasChar c b.
Proof.
  induction a as [|x a IH]; [done|].
  rewrite append_cons. cbn. by rewrite IH, orb_assoc.
Qed.

Lemma html_name_plain name :
  hasChar path.slash name = false → plainName (name +:+ ".html").
Proof.
  intros Hname. split; [by rewrite hasChar_append, Hname|].
  repeat split; intros Heq; apply (f_equal String.length) in Heq;
    rewrite length_append in Heq; cbn in Heq; lia.
Qed.

(** The destination of [startHtmlExport] for an input [dir/name.ext]:
    [html/name.html] when no output folder is set, and when the folder [F]
    is set, [name.html] under the directory whose name is [F], a backslash
    and [html] (taken as it is when in normal form).  The destination
    depends on the input path and on the output folder only. *)
Lemma htmlOutputFile_closed_form (st : PandocPluginSettings) (dir name ext : string) :
  hasChar path.slash name = false →
  hasChar "."%char ext = false →
  hasChar path.slash ext = false →
  (truthy (outputFolder st) = false →
   htmlOutputFile st (dir +:+ "/" +:+ name +:+ "." +:+ ext)
   = "html/" +:+ name +:+ ".html")
  ∧ (∀ folder, outputFolder st = Some folder → folder ≠ "" →
       path.normalize (folder +:+ "\html") = folder +:+ "\html" →
       htmlOutputFile st (dir +:+ "/" +:+ name +:+ "." +:+ ext)
       = folder +:+ "\html" +:+ "/" +:+ name +:+ ".html")
  ∧ (∀ st' inputFile, outputFolder st' = outputFolder st →
       htmlOutputFile st' inputFile = htmlOutputFile st inputFile).
Proof.
  intros Hname Hext _.
  pose proof (html_name_plain name Hname) as Hplain.
  assert (path.basename
            (replaceFileExtension (dir +:+ "/" +:+ name +:+ "." +:+ ext) "html")
          = name +:+ ".html") as Hbase.
  { rewrite <- !append_assoc, (append_assoc _ "." ext).
    rewrite replaceFileExtension_swaps by done.
    rewrite !append_assoc. change ("." +:+ "html") with ".html".
    apply basename_join; [apply Hplain|]. apply Hplain. }
  split; [|split].
  - intros Hfolder. unfold htmlOutputFile. rewrite Hfolder, Hbase.
    rewrite join_normal; try done.
    rewrite <- !append_assoc. by rewrite endsWith_append by (cbn; lia).
  - intros folder Hset Hne Hnormal. unfold htmlOutputFile.
    rewrite Hset. cbn [truthy from_option id].
    destruct (String.eqb_spec folder ""); [done|]. cbn [negb].
    rewrite Hbase. change ("\" +:+ "html") with "\html".
    assert (String.length (folder +:+ "\html") = String.length folder + 5)
      as Hlen by by rewrite length_append.
    rewrite join_normal; try done.
    + by rewrite append_assoc.
    + intros Heq. rewrite Heq in Hlen. cbn in Hlen. lia.
    + intros Heq. rewrite Heq in Hlen. cbn in Hlen. lia.
    + by rewrite endsWith_append by (cbn; lia).
    + rewrite <- !append_assoc. by rewrite endsWith_append by (cbn; lia).
  - intros st' inputFile Hsame. unfold htmlOutputFile. by rewrite Hsame.
Qed.

(** C7.  Without an output folder, [/vault/notes/a.md] is exported to
    [html/a.html].  With the output folder [/out] it is exported to
    [/out\html/a.html]: the folder and [html] are glued with a backslash,
    which is no separator here, so the file is not under [/out/html/]. *)
Theorem C7_output_folder_glued_with_backslash :
  htmlOutputFile emptySettings "/vault/notes/a.md" = "html/a.html"
  ∧ htmlOutputFile
      {| outputFolder := Some "/out"; pandoc := None; pdflatex := None |}
      "/vault/notes/a.md"
    = "/out\html/a.html"
  ∧ htmlOutputFile
      {| outputFolder := Some "/out"; pandoc := None; pdflatex := None |}
      "/vault/notes/a.md"
    ≠ "/out/html/a.html".
Proof. vm_compute. repeat split; discriminate. Qed.

(** ** Where the map export writes *)

Lemma mapOutputFile_configured st folder :
  outputFolder st = Some folder → folder ≠ "" →
  mapOutputFile st = folder +:+ "\map.html".
Proof.
  intros Hset Hne. unfold mapOutputFile. rewrite Hset. cbn.
  by destruct (String.eqb_spec folder "").
Qed.

(** C6.  With no output folder set, the destination of the map export is
    the text [adapter.getBasePath()], a backslash and [map.html]: the base
    path of the vault ([/vault] here) is not part of it, and the header is
    written to that path. *)
Theorem C6_map_destination_without_output_folder :
  getBasePath quietHost = "/vault"
  ∧ mapOutputFile emptySettings = "adapter.getBasePath()\map.html"
  ∧ String.prefix (getBasePath quietHost) (mapOutputFile emptySettings) = false
  ∧ trace (mapExportAll quietHost true (freshState emptySettings)).1
    = [WriteFile "adapter.getBasePath()\map.html" mapHeader None].
Proof. vm_compute. done. Qed.

(** * Further properties *)

(** ** Lists of blocks *)

Lemma elem_of_blocks {A B} (block : A → B → list Event) xs ys ev :
  ev ∈ concat (zip_with block xs ys) →
  ∃ i x y, xs !! i = Some x ∧ ys !! i = Some y ∧ ev ∈ block x y.
Proof.
  revert ys. induction xs as [|x xs IH]; intros [|y ys]; cbn;
    try (by intros ?%elem_of_nil).
  intros [Hin|Hin]%elem_of_app.
  - by exists 0, x, y.
  - destruct (IH ys Hin) as (i & x' & y' & ? & ? & ?). by exists (S i), x', y'.
Qed.

Lemma blocks_elem_of {A B} (block : A → B → list Event) xs ys i x y ev :
  xs !! i = Some x → ys !! i = Some y → ev ∈ block x y →
  ev ∈ concat (zip_with block xs ys).
Proof.
  revert ys i. induction xs as [|x' xs IH]; intros [|y' ys] [|i]; cbn; try done.
  - intros [= ->] [= ->] Hin. apply elem_of_app. by left.
  - intros Hx Hy Hin. apply elem_of_app. right. by eapply IH.
Qed.

Lemma batchShape_failed n outs e :
  batchShape n outs → SwitchFailed e ∈ outs → batchResult outs = Err e.
Proof.
  revert outs. induction n as [|n IH]; intros [|o outs]; cbn; try done.
  - by intros _ ?%elem_of_nil.
  - intros Hshape Hin.
    destruct o; try (apply elem_of_cons in Hin as [Hin|Hin]; [done|];
                     by apply IH).
    subst outs. apply list_elem_of_singleton in Hin. by injection Hin as ->.
Qed.

Lemma jobAdded_is_log h files ev :
  ev ∈ map (jobAdded h) files → ∃ message, ev = ConsoleLog message.
Proof. intros (f & -> & _)%list_elem_of_fmap. by eexists. Qed.

Ltac only_in_blocks Hin :=
  rewrite !elem_of_app in Hin;
  repeat match type of Hin with
    | _ ∨ _ => destruct Hin as [Hin|Hin]
    end;
  try (apply jobAdded_is_log in Hin as [? Hin]; discriminate Hin);
  try (apply list_elem_of_singleton in Hin; discriminate Hin).

Ltac in_block Hin :=
  cbn in Hin; rewrite !elem_of_cons, elem_of_nil in Hin;
  repeat (destruct Hin as [Hin|Hin]; [try discriminate Hin|]); try done.

(** ** The disk after the html jobs *)

Lemma diskAfterHtmlJobs_lookup h st files outs d p :
  diskAfterHtmlJobs h st files outs d !! p
  = match lastWritten h st p files outs with
    | Some html => Some html
    | None => d !! p
    end.
Proof.
  revert outs d. induction files as [|f files IH]; intros [|o outs] d;
    cbn [diskAfterHtmlJobs lastWritten]; try done.
  rewrite IH. destruct (lastWritten h st p files outs); [done|].
  destruct o; try done.
  case_decide as Hp.
  - by rewrite Hp, lookup_insert_eq.
  - by rewrite lookup_insert_ne.
Qed.

Lemma lastWritten_elsewhere h st files outs p :
  (∀ f, f ∈ files → htmlDestination h st f ≠ p) →
  lastWritten h st p files outs = None.
Proof.
  revert outs. induction files as [|f files IH]; intros [|o outs] Hp;
    cbn [lastWritten]; try done.
  rewrite IH by (intros f' Hf'; apply Hp; by apply list_elem_of_further).
  destruct o; try done.
  rewrite decide_False; [done|]. apply Hp, list_elem_of_here.
Qed.

Lemma lastWritten_at h st files outs i file html :
  files !! i = Some file →
  outs !! i = Some (Written html) →
  (∀ j file', i < j → files !! j = Some file' →
     htmlDestination h st file' ≠ htmlDestination h st file) →
  lastWritten h st (htmlDestination h st file) files outs = Some html.
Proof.
  revert outs i. induction files as [|f files IH]; intros [|o outs] [|i];
    cbn [lastWritten]; try done.
  - intros [= ->] [= ->] Hlater.
    rewrite lastWritten_elsewhere.
    + by rewrite decide_True.
    + intros f' [j Hj]%list_elem_of_lookup. apply (Hlater (S j)); [lia|done].
  - intros Hf Ho Hlater. cbn in Hf, Ho.
    rewrite (IH outs i); [done..|].
    intros j file' Hij Hj. apply (Hlater (S j)); [lia|done].
Qed.

(** Writing the same files again changes nothing. *)
Lemma diskAfterHtmlJobs_twice h st files outs d :
  diskAfterHtmlJobs h st files outs (diskAfterHtmlJobs h st files outs d)
  = diskAfterHtmlJobs h st files outs d.
Proof.
  apply map_eq. intros p. rewrite !diskAfterHtmlJobs_lookup.
  by destruct (lastWritten h st p files outs).
Qed.

(** ** The leaf after the jobs *)

Lemma leafAfterJobs_all_settled files outs leaf :
  Forall settled outs → length outs = length files →
  leafAfterJobs files outs leaf
  = match last files with
    | Some file => Some (Some file)
    | None => leaf
    end.
Proof.
  intros Hall. revert files leaf.
  induction Hall as [|o outs Ho _ IH]; intros [|f files] leaf Hlen; try done.
  cbn [leafAfterJobs]. rewrite decide_True by done.
  rewrite IH by (cbn in Hlen; lia). rewrite last_cons. by destruct (last files).
Qed.

Lemma activeFileAfterJobs_all_settled files outs active :
  Forall settled outs → length outs = length files →
  activeFileAfterJobs files outs active
  = match last files with
    | Some file => Some file
    | None => active
    end.
Proof.
  intros Hall. revert files active.
  induction Hall as [|o outs Ho _ IH]; intros [|f files] active Hlen; try done.
  cbn [activeFileAfterJobs]. rewrite decide_True by done.
  rewrite IH by (cbn in Hlen; lia). rewrite last_cons. by destruct (last files).
Qed.

(** ** The map export when jobs fail *)

Lemma joinAll_app l1 l2 : joinAll (l1 ++ l2) = joinAll l1 +:+ joinAll l2.
Proof.
  induction l1 as [|x l1 IH]; [done|].
  change (joinAll (x :: l1 ++ l2) = (x +:+ joinAll l1) +:+ joinAll l2).
  by rewrite joinAll_cons, IH, append_assoc.
Qed.

Lemma parts_appended outs :
  joinAll (omap id (map part outs)) = joinAll (map appended outs).
Proof.
  induction outs as [|o outs IH]; [done|].
  cbn [map]. rewrite joinAll_omap_cons, joinAll_cons, IH. by destruct o.
Qed.

(** A write that lands before anything is appended: the file is its data
    followed by all that was appended. *)
Lemma racedContent_prompt data parts :
  racedContent data 0 0 parts = data +:+ joinAll (omap id parts).
Proof.
  unfold racedContent. rewrite take_0, drop_0. cbn [Nat.add].
  change (joinAll (omap id [])) with "". by rewrite sliceFrom_nil.
Qed.

(** The content that the race of a run leaves, for the header. *)
Lemma headerWrite_content h s parts c :
  writeFile_error h (trace s) (mapOutputFile (settings s)) mapHeader = None →
  contentBeside (headerWrite h s) 0 parts c
  = Some (racedContent mapHeader
            (writeFile_lag h (trace s) (mapOutputFile (settings s)) mapHeader).1
            (writeFile_lag h (trace s) (mapOutputFile (settings s)) mapHeader).2
            parts).
Proof.
  intros Hw. rewrite contentBeside_queued; cbn; [|done|lia|lia].
  f_equal. f_equal; lia.
Qed.

(** X1.  In a run of "Export all as mind map" where no [openFile] fails,
    every job settles and the footer is appended after the last job even
    when renderers threw or appends failed.  When moreover the write of
    the header has reached the file before the first job starts, and it
    and the append of the footer succeed, the destination holds the
    header, the fragments of the jobs that appended, in the order of the
    files, and the footer. *)
Theorem X1_map_footer_follows_failed_jobs (h : Host) (s : State)
    (files : list TFile) :
  activeLeaf s ≠ None →
  getMarkdownFiles h = Ok files →
  (∀ tr f, openFile_error h tr f = None) →
  ∃ outs a s',
    mapExportAll h false s = (s', Ok true) ∧
    length outs = length files ∧
    Forall settled outs ∧
    trace s'
    = trace s
      ++ [WriteFile (mapOutputFile (settings s)) mapHeader
            (writeFile_error h (trace s) (mapOutputFile (settings s)) mapHeader)]
      ++ map (jobAdded h) files
      ++ [jobsCounted (length files)]
      ++ concat (zip_with (mapBlock h (mapOutputFile (settings s))) files outs)
      ++ [AppendFile (mapOutputFile (settings s)) footer a] ∧
    (writeFile_lag h (trace s) (mapOutputFile (settings s)) mapHeader = (0, 0) →
     writeFile_error h (trace s) (mapOutputFile (settings s)) mapHeader = None →
     a = None →
     disk s' !! mapOutputFile (settings s)
     = Some (mapHeader +:+ joinAll (map appended outs) +:+ footer)).
Proof.
  intros Hleaf Hfiles Hnever.
  destruct (mapExportAll_effects h s files Hleaf Hfiles)
    as (outs & tail & s' & Hrun & Hshape & Htrace & _ & _ & _ & _ & _ & Htail
        & Hdisk & _ & Hall & _).
  specialize (Hall Hnever).
  destruct (batchShape_all_settled _ _ Hshape Hall) as [Hlen Hres].
  rewrite Hres in Htail. destruct Htail as (a & -> & _).
  exists outs, a, s'. repeat split; try done.
  intros Hlag Hw ->.
  rewrite Hdisk, headerWrite_content, Hlag, racedContent_prompt by done.
  cbn [map appendedOf fst snd].
  rewrite omap_app, joinAll_app, parts_appended. cbn. by rewrite append_nil_r.
Qed.

Lemma X1_witness :
  disk (mapExportAll unrenderableHost false (freshState emptySettings)).1
    !! mapOutputFile emptySettings
  = Some (mapHeader +:+ joinAll ["[/vault/a.md]"; ""; "[/vault/c.md]"] +:+ footer).
Proof.
  destruct (X1_map_footer_follows_failed_jobs unrenderableHost
              (freshState emptySettings) [note "a.md"; note "b.md"; note "c.md"])
    as (outs & a & s' & Hrun & _); [discriminate|reflexivity|reflexivity|].
  vm_compute. reflexivity.
Defined.

Lemma appendedData_jobAdded h files : appendedData (map (jobAdded h) files) = [].
Proof. induction files as [|f files IH]; [done|]. cbn. apply IH. Qed.

Lemma appendedData_blocks h outputFile files outs :
  length outs ≤ length files →
  joinAll (appendedData (concat (zip_with (mapBlock h outputFile) files outs)))
  = joinAll (map appended outs).
Proof.
  revert files. induction outs as [|o outs IH]; intros [|f files] Hlen;
    try done; [cbn in Hlen; lia|].
  cbn [zip_with concat map]. unfold appendedData in *. rewrite omap_app.
  change (joinAll (?x :: ?l)) with (x +:+ joinAll l).
  rewrite <- (IH files) by (cbn in Hlen; lia).
  by destruct o.
Qed.

Lemma last_failed_block h outputFile files outs i file e :
  batchShape (length files) outs →
  files !! i = Some file →
  outs !! i = Some (SwitchFailed e) →
  last (concat (zip_with (mapBlock h outputFile) files outs))
  = Some (OpenFile file (Some e)).
Proof.
  revert outs i. induction files as [|f files IH]; intros [|o outs] [|i];
    cbn [length batchShape]; try done.
  - intros Hshape [= ->] [= ->]. subst outs. by destruct files.
  - intros Hshape Hi Ho. cbn in Hi, Ho.
    assert (batchShape (length files) outs) as Hshape'.
    { destruct o; try done. by subst outs. }
    cbn [zip_with concat]. by rewrite last_app, (IH outs i).
Qed.

Lemma failed_open_in_block h outputFile file' o file e :
  OpenFile file (Some e) ∈ mapBlock h outputFile file' o →
  file' = file ∧ o = SwitchFailed e.
Proof.
  unfold mapBlock, mapJobEvents. intros Hin.
  destruct o; in_block Hin; by injection Hin as -> ->.
Qed.

(** X2.  In a run of "Export all as mind map", when the [openFile] of a job
    fails with [e], that failure is the last call of the run: no later job
    starts and no footer is appended.  [e] is left as an unhandled
    rejection, before or after that of the write of the header if that
    write failed too.  When the write of the header had reached the file
    before the first job started, the destination holds the header
    followed by what was appended so far. *)
Theorem X2_map_no_footer_after_failed_switch (h : Host) (s : State)
    (files : list TFile) (evs : list Event) (file : TFile) (e : Error) :
  activeLeaf s ≠ None →
  getMarkdownFiles h = Ok files →
  trace (mapExportAll h false s).1 = trace s ++ evs →
  OpenFile file (Some e) ∈ evs →
  last evs = Some (OpenFile file (Some e))
  ∧ (unhandled (mapExportAll h false s).1
     = unhandled s
       ++ option_list
            (writeFile_error h (trace s) (mapOutputFile (settings s)) mapHeader)
       ++ [e]
     ∨ unhandled (mapExportAll h false s).1
       = unhandled s
         ++ [e]
         ++ option_list
              (writeFile_error h (trace s) (mapOutputFile (settings s)) mapHeader))
  ∧ (writeFile_lag h (trace s) (mapOutputFile (settings s)) mapHeader = (0, 0) →
     writeFile_error h (trace s) (mapOutputFile (settings s)) mapHeader = None →
     disk (mapExportAll h false s).1 !! mapOutputFile (settings s)
     = Some (mapHeader +:+ joinAll (appendedData evs))).
Proof.
  intros Hleaf Hfiles Htrace Hin.
  destruct (mapExportAll_effects h s files Hleaf Hfiles)
    as (outs & tail & s' & Hrun & Hshape & Htrace' & _ & _ & _ & _ & _ & Htail
        & Hdisk & Hun & _).
  rewrite Hrun in *. cbn [fst] in *. rewrite Htrace' in Htrace.
  apply app_inv_head in Htrace. subst evs.
  set (out := mapOutputFile (settings s)) in *.
  assert (OpenFile file (Some e)
          ∈ concat (zip_with (mapBlock h out) files outs)) as Hblocks.
  { rewrite !elem_of_app in Hin.
    destruct Hin as [Hin|[Hin|[Hin|[Hin|Hin]]]]; [| | |done|].
    - apply list_elem_of_singleton in Hin. discriminate Hin.
    - apply jobAdded_is_log in Hin as [? Hin]. discriminate Hin.
    - apply list_elem_of_singleton in Hin. discriminate Hin.
    - destruct (batchResult outs) as [[]|e'].
      + destruct Htail as (a & -> & _).
        apply list_elem_of_singleton in Hin. discriminate Hin.
      + subst tail. by apply elem_of_nil in Hin. }
  apply elem_of_blocks in Hblocks as (i & file' & o & Hi & Ho & Hblock).
  apply failed_open_in_block in Hblock as [-> ->].
  assert (SwitchFailed e ∈ outs) as He by by eapply list_elem_of_lookup_2.
  rewrite (batchShape_failed _ _ _ Hshape He) in Htail, Hun.
  subst tail. rewrite app_nil_r in *. split; [|split].
  - rewrite !last_app. by erewrite last_failed_block.
  - rewrite Hun, rejectionsBeside_order. cbn [escaped omap app headerWrite uw_error].
    rewrite decide_False by lia. case_decide; auto.
  - intros Hlag Hw. subst out.
    rewrite Hdisk, headerWrite_content, Hlag, racedContent_prompt by done.
    rewrite parts_appended. f_equal. f_equal.
    unfold appendedData. rewrite !omap_app.
    fold (appendedData (map (jobAdded h) files)).
    rewrite appendedData_jobAdded. cbn [omap appendedOf app].
    symmetry. apply appendedData_blocks. by eapply batchShape_length.
Qed.

Lemma X2_witness :
  last (trace (mapExportAll halfLockedHost false (freshState emptySettings)).1)
  = Some (OpenFile (note "b.md") (Some "Error: EACCES"))
  ∧ (unhandled (mapExportAll halfLockedHost false (freshState emptySettings)).1
     = unhandled (freshState emptySettings)
       ++ option_list
            (writeFile_error halfLockedHost (trace (freshState emptySettings))
               (mapOutputFile (settings (freshState emptySettings))) mapHeader)
       ++ ["Error: EACCES"]
     ∨ unhandled (mapExportAll halfLockedHost false (freshState emptySettings)).1
       = unhandled (freshState emptySettings)
         ++ ["Error: EACCES"]
         ++ option_list
              (writeFile_error halfLockedHost (trace (freshState emptySettings))
                 (mapOutputFile (settings (freshState emptySettings))) mapHeader))
  ∧ (writeFile_lag halfLockedHost (trace (freshState emptySettings))
       (mapOutputFile (settings (freshState emptySettings))) mapHeader = (0, 0) →
     writeFile_error halfLockedHost (trace (freshState emptySettings))
       (mapOutputFile (settings (freshState emptySettings))) mapHeader = None →
     disk (mapExportAll halfLockedHost false (freshState emptySettings)).1
       !! mapOutputFile (settings (freshState emptySettings))
     = Some (mapHeader
             +:+ joinAll (appendedData
                   (trace (mapExportAll halfLockedHost false
                             (freshState emptySettings)).1)))).
Proof.
  apply (X2_map_no_footer_after_failed_switch halfLockedHost
           (freshState emptySettings) [note "a.md"; note "b.md"; note "c.md"]
           (trace (mapExportAll halfLockedHost false (freshState emptySettings)).1)
           (note "b.md") "Error: EACCES").
  - discriminate.
  - reflexivity.
  - vm_compute. reflexivity.
  - vm_compute. repeat constructor.
Defined.

(** ** The shared file and the write of the header *)

(** X17.  The destination after any run of "Export all as mind map" in
    which the write of the header succeeds.  The write opens the file
    once some of the awaited steps (the jobs in turn, then the append of
    the footer) are over, and writes its data once some more are.  What
    the steps before the open appended is lost, as is what the file held
    before the run; what the steps between the open and the write
    appended is overwritten by the header as far as the header reaches;
    what the later steps appended follows. *)
Theorem X17_map_file_after_the_race (h : Host) (s : State)
    (files : list TFile) :
  activeLeaf s ≠ None →
  getMarkdownFiles h = Ok files →
  writeFile_error h (trace s) (mapOutputFile (settings s)) mapHeader = None →
  ∃ outs tail s',
    mapExportAll h false s = (s', Ok true) ∧
    batchShape (length files) outs ∧
    trace s'
    = trace s
      ++ [WriteFile (mapOutputFile (settings s)) mapHeader None]
      ++ map (jobAdded h) files
      ++ [jobsCounted (length files)]
      ++ concat (zip_with (mapBlock h (mapOutputFile (settings s))) files outs)
      ++ tail ∧
    match batchResult outs with
    | Err _ => tail = []
    | Ok _ => ∃ a, tail = [AppendFile (mapOutputFile (settings s)) footer a]
    end ∧
    disk s' !! mapOutputFile (settings s)
    = Some (racedContent mapHeader
              (writeFile_lag h (trace s) (mapOutputFile (settings s)) mapHeader).1
              (writeFile_lag h (trace s) (mapOutputFile (settings s)) mapHeader).2
              (map part outs ++ map appendedOf tail)).
Proof.
  intros Hleaf Hfiles Hw.
  destruct (mapExportAll_effects h s files Hleaf Hfiles)
    as (outs & tail & s' & Hrun & Hshape & Htrace & _ & _ & _ & _ & _ & Htail
        & Hdisk & _).
  exists outs, tail, s'. rewrite Hw in Htrace.
  split; [done|]. split; [done|]. split; [done|]. split.
  - destruct (batchResult outs) as [[]|e]; [|done].
    destruct Htail as (a & -> & _). by exists a.
  - by rewrite Hdisk, headerWrite_content.
Qed.

Lemma X17_witness :
  disk (mapExportAll slowWriteHost false (freshState emptySettings)).1
    !! mapOutputFile emptySettings
  = Some (mapHeader +:+ "[/vault/c.md]" +:+ footer).
Proof.
  destruct (X17_map_file_after_the_race slowWriteHost
              (freshState emptySettings) [note "a.md"; note "b.md"; note "c.md"])
    as (outs & tail & s' & Hrun & _); [discriminate|reflexivity|reflexivity|].
  vm_compute. reflexivity.
Defined.

(** X18.  Take a run of "Export all as mind map" over the [N] files of
    the vault in which no call failed and the write of the header had
    reached the file before the first job started.  Then [renderDiv] was
    called once per file, in the order of the files, each time on the
    view of that file, and the destination file holds the header, then
    the [N] fragments in that order, then the footer. *)
Theorem X18_map_file_when_the_header_lands_first (h : Host) (s : State)
    (files : list TFile) (evs : list Event) :
  activeLeaf s ≠ None →
  getMarkdownFiles h = Ok files →
  writeFile_lag h (trace s) (mapOutputFile (settings s)) mapHeader = (0, 0) →
  trace (mapExportAll h false s).1 = trace s ++ evs →
  Forall (λ ev, failed ev = false) evs →
  ∃ fragments,
    length fragments = length files ∧
    fragmentsRendered evs
    = zip_with (λ f html, (Some f, getFullPath h (file_path f), html))
        files fragments ∧
    head evs = Some (WriteFile (mapOutputFile (settings s)) mapHeader None) ∧
    last evs = Some (AppendFile (mapOutputFile (settings s)) footer None) ∧
    disk (mapExportAll h false s).1 !! mapOutputFile (settings s)
    = Some (mapHeader +:+ joinAll fragments +:+ footer).
Proof.
  intros Hleaf Hfiles Hlag Htrace Hok.
  destruct (mapExportAll_effects h s files Hleaf Hfiles)
    as (outs & tail & s' & Hrun & Hshape & Htrace' & _ & _ & _ & _ & _ & Htail
        & Hdisk & _).
  rewrite Hrun in *. cbn [fst] in *.
  rewrite Htrace' in Htrace. apply app_inv_head in Htrace. subst evs.
  apply Forall_app in Hok as [Hw Hok]. apply Forall_app in Hok as [_ Hok].
  apply Forall_app in Hok as [_ Hok]. apply Forall_app in Hok as [Hblocks Htl].
  rewrite Forall_singleton in Hw.
  destruct (unfailed_map_blocks h (mapOutputFile (settings s)) files outs)
    as (frags & -> & Hfr);
    [by eapply batchShape_length|done|].
  destruct (batchShape_all_settled _ _ Hshape) as [Hlen Hres].
  { apply Forall_fmap. by apply Forall_true. }
  rewrite Hres in Htail. destruct Htail as (a & -> & _).
  rewrite Forall_singleton in Htl.
  assert (writeFile_error h (trace s) (mapOutputFile (settings s)) mapHeader
          = None) as Hheader.
  { cbn in Hw. by destruct (writeFile_error _ _ _ _). }
  assert (a = None) as -> by (cbn in Htl; by destruct a).
  exists frags. rewrite length_map in Hlen. split; [done|]. split; [|split; [|split]].
  - unfold fragmentsRendered in *.
    rewrite !omap_app, Hfr. fold (fragmentsRendered (map (jobAdded h) files)).
    rewrite fragments_jobAdded. cbn. by rewrite app_nil_r.
  - by rewrite Hheader.
  - rewrite !app_assoc. apply last_snoc.
  - rewrite Hdisk, headerWrite_content, Hlag, racedContent_prompt by done.
    cbn [map appendedOf fst snd].
    rewrite omap_app, joinAll_app, parts_appended, appended_Written.
    cbn. by rewrite append_nil_r.
Qed.

Lemma X18_witness :
  ∃ fragments,
    length fragments = 3 ∧
    fragmentsRendered (trace (mapExportAll quietHost false (freshState emptySettings)).1)
    = zip_with (λ f html, (Some f, getFullPath quietHost (file_path f), html))
        [note "a.md"; note "b.md"; note "c.md"] fragments ∧
    head (trace (mapExportAll quietHost false (freshState emptySettings)).1)
    = Some (WriteFile (mapOutputFile (settings (freshState emptySettings)))
              mapHeader None) ∧
    last (trace (mapExportAll quietHost false (freshState emptySettings)).1)
    = Some (AppendFile (mapOutputFile (settings (freshState emptySettings)))
              footer None) ∧
    disk (mapExportAll quietHost false (freshState emptySettings)).1
      !! mapOutputFile (settings (freshState emptySettings))
    = Some (mapHeader +:+ joinAll fragments +:+ footer).
Proof.
  apply (X18_map_file_when_the_header_lands_first quietHost
           (freshState emptySettings) [note "a.md"; note "b.md"; note "c.md"]
           (trace (mapExportAll quietHost false (freshState emptySettings)).1)).
  - discriminate.
  - reflexivity.
  - reflexivity.
  - vm_compute. reflexivity.
  - vm_compute. repeat constructor.
Defined.

(** ** What the commands leave alone *)

(** X3.  The callback of "Export all as mind map", for a check as for a
    run and whatever the collaborators do, changes no file other than its
    destination, and never changes the settings or the capability map. *)
Theorem X3_map_export_touches_one_file (h : Host) (s : State) (checking : bool) :
  (∀ p, p ≠ mapOutputFile (settings s) →
        disk (mapExportAll h checking s).1 !! p = disk s !! p)
  ∧ settings (mapExportAll h checking s).1 = settings s
  ∧ features (mapExportAll h checking s).1 = features s.
Proof.
  destruct (activeLeaf s) as [leaf|] eqn:Hl.
  2: { unfold mapExportAll, bind, get. by rewrite Hl. }
  assert (activeLeaf s ≠ None) as Hleaf by by rewrite Hl.
  assert (checking = true ∨ (∃ e, getMarkdownFiles h = Err e)
          ∨ (checking = false ∧ ∃ files, getMarkdownFiles h = Ok files))
    as [Hc|[Hc|[-> [files Hfiles]]]].
  { destruct checking; [by left|]. right.
    destruct (getMarkdownFiles h) as [files|e]; [right|left]; eauto. }
  1,2: rewrite mapExportAll_without_jobs by auto;
    destruct (landsFrom_alone h s) as (_ & Hset & Hfeat & _ & _ & _ & Hdisk);
    cbn [fst]; (split; [|done]); intros p Hp; rewrite Hdisk;
    destruct (writeFile_error _ _ _ _); [done|by rewrite lookup_insert_ne].
  destruct (mapExportAll_effects h s files Hleaf Hfiles)
    as (outs & tail & s' & -> & _ & _ & Hset & Hfeat & _ & _ & Hframe & _).
  done.
Qed.

Lemma X3_witness :
  settings (mapExportAll quietHost false (freshState emptySettings)).1
  = emptySettings.
Proof.
  apply (X3_map_export_touches_one_file quietHost (freshState emptySettings) false).
Defined.

(** X4.  The callback of "Export all as html" changes a file only if it is
    the destination of one of the enumerated notes; it never changes the
    settings or the capability map; and a mere check ([checking = true])
    changes nothing at all. *)
Theorem X4_html_export_writes_only_destinations (h : Host) (s : State)
    (checking : bool) :
  (∀ p, (∀ files f, getMarkdownFiles h = Ok files → f ∈ files →
                    htmlDestination h (settings s) f ≠ p) →
        disk (htmlExportAll h checking s).1 !! p = disk s !! p)
  ∧ settings (htmlExportAll h checking s).1 = settings s
  ∧ features (htmlExportAll h checking s).1 = features s
  ∧ (checking = true → (htmlExportAll h checking s).1 = s).
Proof.
  destruct (activeLeaf s) as [leaf|] eqn:Hl.
  2: { unfold htmlExportAll, bind, get. by rewrite Hl. }
  assert (activeLeaf s ≠ None) as Hleaf by by rewrite Hl.
  destruct (getMarkdownFiles h) as [files|e] eqn:Hfiles.
  2: { by rewrite (htmlExportAll_enumeration_fails h s e checking). }
  destruct checking.
  { assert (htmlExportAll h true s = (s, Ok true)) as ->; [|done].
    unfold htmlExportAll, bind at 1, get. rewrite Hl.
    unfold bind at 1, liftResult. by rewrite Hfiles. }
  destruct (htmlExportAll_effects h s files Hleaf Hfiles)
    as (outs & s' & -> & _ & _ & Hset & Hfeat & _ & _ & _ & Hdisk & _).
  cbn [fst]. split; [|done].
  intros p Hp. rewrite Hdisk, diskAfterHtmlJobs_lookup.
  rewrite lastWritten_elsewhere; [done|]. intros f Hf. by eapply Hp.
Qed.

Lemma X4_witness :
  (htmlExportAll quietHost true (freshState emptySettings)).1
  = freshState emptySettings.
Proof.
  apply (X4_html_export_writes_only_destinations quietHost
           (freshState emptySettings) true).
  reflexivity.
Defined.

(** X5.  After a run of "Export all as html", the destination of a note
    whose job wrote [html] holds [html], provided no later note of the
    enumeration has the same destination: of several notes that share a
    destination, the last one that was written wins. *)
Theorem X5_html_last_written_note_wins (h : Host) (s : State)
    (files : list TFile) :
  activeLeaf s ≠ None →
  getMarkdownFiles h = Ok files →
  ∃ outs s',
    htmlExportAll h false s = (s', Ok true) ∧
    trace s' = trace s ++ map (jobAdded h) files
               ++ [jobsCounted (length files)]
               ++ concat (zip_with (htmlBlock h (settings s)) files outs) ∧
    ∀ i file html,
      files !! i = Some file →
      outs !! i = Some (Written html) →
      (∀ j file', i < j → files !! j = Some file' →
         htmlDestination h (settings s) file'
         ≠ htmlDestination h (settings s) file) →
      disk s' !! htmlDestination h (settings s) file = Some html.
Proof.
  intros Hleaf Hfiles.
  destruct (htmlExportAll_effects h s files Hleaf Hfiles)
    as (outs & s' & Hrun & _ & Htrace & _ & _ & _ & _ & _ & Hdisk & _).
  exists outs, s'. split; [done|]. split; [done|].
  intros i file html Hi Ho Hlater.
  rewrite Hdisk, diskAfterHtmlJobs_lookup.
  by rewrite (lastWritten_at h (settings s) files outs i file html).
Qed.

Lemma X5_witness :
  disk (htmlExportAll twinHost false (freshState emptySettings)).1 !! "html/a.html"
  = Some "[/vault/y/a.md]".
Proof.
  destruct (X5_html_last_written_note_wins twinHost
              (freshState emptySettings) [note "x/a.md"; note "y/a.md"])
    as (outs & s' & Hrun & _); [discriminate|reflexivity|].
  vm_compute. reflexivity.
Defined.

(** X6.  After a run of either command in which no [openFile] fails, the
    active leaf shows the last enumerated note and that note is the active
    file; with no note at all both are as before. *)
Theorem X6_leaf_ends_on_last_note (h : Host) (s : State) (files : list TFile) :
  activeLeaf s ≠ None →
  getMarkdownFiles h = Ok files →
  (∀ tr f, openFile_error h tr f = None) →
  activeLeaf (htmlExportAll h false s).1
  = match last files with Some file => Some (Some file) | None => activeLeaf s end
  ∧ activeFile (htmlExportAll h false s).1
    = match last files with Some file => Some file | None => activeFile s end
  ∧ activeLeaf (mapExportAll h false s).1
    = match last files with Some file => Some (Some file) | None => activeLeaf s end
  ∧ activeFile (mapExportAll h false s).1
    = match last files with Some file => Some file | None => activeFile s end.
Proof.
  intros Hleaf Hfiles Hnever.
  destruct (htmlExportAll_effects h s files Hleaf Hfiles)
    as (outs & s' & -> & Hshape & _ & _ & _ & _ & Hl & Haf & _ & Hall & _).
  destruct (mapExportAll_effects h s files Hleaf Hfiles)
    as (outs2 & tail & s2 & -> & Hshape2 & _ & _ & _ & Hl2 & Haf2 & _ & _
        & _ & _ & Hall2 & _).
  cbn [fst].
  destruct (batchShape_all_settled _ _ Hshape (Hall Hnever)) as [Hlen _].
  destruct (batchShape_all_settled _ _ Hshape2 (Hall2 Hnever)) as [Hlen2 _].
  rewrite Hl, Haf, Hl2, Haf2.
  rewrite !leafAfterJobs_all_settled, !activeFileAfterJobs_all_settled by auto.
  done.
Qed.

Lemma X6_witness :
  activeFile (htmlExportAll quietHost false (freshState emptySettings)).1
  = Some (note "c.md").
Proof.
  apply (X6_leaf_ends_on_last_note quietHost (freshState emptySettings)
           [note "a.md"; note "b.md"; note "c.md"]).
  - discriminate.
  - reflexivity.
  - reflexivity.
Defined.

(** ** What is rendered and what is written *)

(** X7.  In a run of "Export all as html", the renderer is only ever
    called in full-document mode, for format [html], on the view of a note
    of the enumeration that [openFile] has just opened, with that note's
    full path; and whatever is written is the html the renderer returned
    for that note, written to that note's destination. *)
Theorem X7_html_renders_the_opened_note_and_writes_its_html (h : Host)
    (s : State) (files : list TFile) (evs : list Event) :
  activeLeaf s ≠ None →
  getMarkdownFiles h = Ok files →
  trace (htmlExportAll h false s).1 = trace s ++ evs →
  (∀ mode view inputFile format r,
     Render mode view inputFile format r ∈ evs →
     ∃ file, file ∈ files ∧ mode = FullDocument ∧ view = Some file
             ∧ inputFile = getFullPath h (file_path file) ∧ format = "html"
             ∧ OpenFile file None ∈ evs)
  ∧ (∀ p data r,
       WriteFile p data r ∈ evs →
       ∃ file, file ∈ files ∧ p = htmlDestination h (settings s) file
               ∧ Render FullDocument (Some file)
                   (getFullPath h (file_path file)) "html" (Ok data) ∈ evs)
  ∧ (∀ p data r, AppendFile p data r ∉ evs).
Proof.
  intros Hleaf Hfiles Htrace.
  destruct (htmlExportAll_effects h s files Hleaf Hfiles)
    as (outs & s' & Hrun & _ & Htrace' & _).
  rewrite Hrun in Htrace. cbn [fst] in Htrace. rewrite Htrace' in Htrace.
  apply app_inv_head in Htrace. subst evs.
  assert (∀ i file o ev, files !! i = Some file → outs !! i = Some o →
            ev ∈ htmlBlock h (settings s) file o →
            ev ∈ map (jobAdded h) files ++ [jobsCounted (length files)]
                 ++ concat (zip_with (htmlBlock h (settings s)) files outs))
    as Hblock.
  { intros i file o ev Hi Ho Hev. rewrite !elem_of_app. right; right.
    by eapply blocks_elem_of. }
  split; [|split].
  - intros mode view inputFile format r Hin. only_in_blocks Hin.
    apply elem_of_blocks in Hin as (i & file & o & Hi & Ho & Hin).
    exists file. split; [by eapply list_elem_of_lookup_2|].
    assert (OpenFile file None ∈ htmlBlock h (settings s) file o
            ∧ Render mode view inputFile format r
              = Render FullDocument (Some file)
                  (getFullPath h (file_path file)) "html" r) as [Hopen Heq].
    { unfold htmlBlock, htmlJobEvents in *.
      destruct o; in_block Hin; injection Hin as -> -> -> -> ->;
        (split; [|done]); cbn; rewrite !elem_of_cons; auto. }
    injection Heq as -> -> -> ->. repeat split; try done.
    by eapply Hblock.
  - intros p data r Hin. only_in_blocks Hin.
    apply elem_of_blocks in Hin as (i & file & o & Hi & Ho & Hin).
    exists file. split; [by eapply list_elem_of_lookup_2|].
    assert (p = htmlDestination h (settings s) file
            ∧ Render FullDocument (Some file)
                (getFullPath h (file_path file)) "html" (Ok data)
              ∈ htmlBlock h (settings s) file o) as [-> Hrender].
    { unfold htmlBlock, htmlJobEvents, htmlDestination in *.
      destruct o; in_block Hin; injection Hin as -> -> ->;
        (split; [done|]); cbn; rewrite !elem_of_cons; auto. }
    split; [done|]. by eapply Hblock.
  - intros p data r Hin. only_in_blocks Hin.
    apply elem_of_blocks in Hin as (i & file & o & Hi & Ho & Hin).
    unfold htmlBlock, htmlJobEvents in Hin. destruct o; in_block Hin.
Qed.

Lemma X7_witness :
  ∃ file,
    file ∈ [note "a.md"; note "b.md"; note "c.md"]
    ∧ "html/a.html"
      = htmlDestination quietHost (settings (freshState emptySettings)) file
    ∧ Render FullDocument (Some file)
        (getFullPath quietHost (file_path file)) "html" (Ok "[/vault/a.md]")
      ∈ trace (htmlExportAll quietHost false (freshState emptySettings)).1.
Proof.
  apply (X7_html_renders_the_opened_note_and_writes_its_html quietHost
           (freshState emptySettings) [note "a.md"; note "b.md"; note "c.md"]
           (trace (htmlExportAll quietHost false (freshState emptySettings)).1))
    with (r := None).
  - discriminate.
  - reflexivity.
  - vm_compute. reflexivity.
  - vm_compute. repeat constructor.
Defined.

(** X8.  In a run of "Export all as mind map", the renderer is only ever
    called in fragment mode, for format [html], on the view of a note of
    the enumeration that [openFile] has just opened; the only file ever
    written or appended to is the destination; [writeFile] is used for the
    header only; and what is appended is either the fragment the renderer
    returned for a note, or the footer. *)
Theorem X8_map_renders_the_opened_note_and_appends_its_fragment (h : Host)
    (s : State) (files : list TFile) (evs : list Event) :
  activeLeaf s ≠ None →
  getMarkdownFiles h = Ok files →
  trace (mapExportAll h false s).1 = trace s ++ evs →
  (∀ mode view inputFile format r,
     Render mode view inputFile format r ∈ evs →
     ∃ file, file ∈ files ∧ mode = DivFragment ∧ view = Some file
             ∧ inputFile = getFullPath h (file_path file) ∧ format = "html"
             ∧ OpenFile file None ∈ evs)
  ∧ (∀ p data r,
       WriteFile p data r ∈ evs →
       p = mapOutputFile (settings s) ∧ data = mapHeader)
  ∧ (∀ p data r,
       AppendFile p data r ∈ evs →
       p = mapOutputFile (settings s)
       ∧ (data = footer
          ∨ ∃ file, file ∈ files
                    ∧ Render DivFragment (Some file)
                        (getFullPath h (file_path file)) "html" (Ok data) ∈ evs)).
Proof.
  intros Hleaf Hfiles Htrace.
  destruct (mapExportAll_effects h s files Hleaf Hfiles)
    as (outs & tail & s' & Hrun & _ & Htrace' & _ & _ & _ & _ & _ & Htail & _).
  rewrite Hrun in Htrace. cbn [fst] in Htrace. rewrite Htrace' in Htrace.
  apply app_inv_head in Htrace. subst evs.
  set (out := mapOutputFile (settings s)) in *.
  assert (tail = [] ∨ ∃ a, tail = [AppendFile out footer a]) as Htl.
  { destruct (batchResult outs) as [[]|e]; [right|left].
    - destruct Htail as (a & -> & _). by exists a.
    - by destruct Htail. }
  clear Htail.
  assert (∀ i file o ev, files !! i = Some file → outs !! i = Some o →
            ev ∈ mapBlock h out file o →
            ev ∈ [WriteFile out mapHeader
                    (writeFile_error h (trace s) out mapHeader)]
                 ++ map (jobAdded h) files ++ [jobsCounted (length files)]
                 ++ concat (zip_with (mapBlock h out) files outs) ++ tail)
    as Hblock.
  { intros i file o ev Hi Ho Hev. rewrite !elem_of_app.
    right; right; right; left. by eapply blocks_elem_of. }
  split; [|split].
  - intros mode view inputFile format r Hin. only_in_blocks Hin.
    2: { destruct Htl as [->|[a ->]]; [by apply elem_of_nil in Hin|].
         apply list_elem_of_singleton in Hin. discriminate Hin. }
    apply elem_of_blocks in Hin as (i & file & o & Hi & Ho & Hin).
    exists file. split; [by eapply list_elem_of_lookup_2|].
    assert (OpenFile file None ∈ mapBlock h out file o
            ∧ Render mode view inputFile format r
              = Render DivFragment (Some file)
                  (getFullPath h (file_path file)) "html" r) as [Hopen Heq].
    { unfold mapBlock, mapJobEvents in *.
      destruct o; in_block Hin; injection Hin as -> -> -> -> ->;
        (split; [|done]); cbn; rewrite !elem_of_cons; auto. }
    injection Heq as -> -> -> ->. repeat split; try done.
    by eapply Hblock.
  - intros p data r Hin. rewrite !elem_of_app in Hin.
    destruct Hin as [Hin|[Hin|[Hin|[Hin|Hin]]]].
    + apply list_elem_of_singleton in Hin. by injection Hin as -> -> ->.
    + apply jobAdded_is_log in Hin as [? Hin]. discriminate Hin.
    + apply list_elem_of_singleton in Hin. discriminate Hin.
    + apply elem_of_blocks in Hin as (i & file & o & Hi & Ho & Hin).
      unfold mapBlock, mapJobEvents in Hin. destruct o; in_block Hin.
    + destruct Htl as [->|[a ->]]; [by apply elem_of_nil in Hin|].
      apply list_elem_of_singleton in Hin. discriminate Hin.
  - intros p data r Hin. rewrite !elem_of_app in Hin.
    destruct Hin as [Hin|[Hin|[Hin|[Hin|Hin]]]].
    + apply list_elem_of_singleton in Hin. discriminate Hin.
    + apply jobAdded_is_log in Hin as [? Hin]. discriminate Hin.
    + apply list_elem_of_singleton in Hin. discriminate Hin.
    + apply elem_of_blocks in Hin as (i & file & o & Hi & Ho & Hin).
      assert (p = out
              ∧ Render DivFragment (Some file)
                  (getFullPath h (file_path file)) "html" (Ok data)
                ∈ mapBlock h out file o) as [-> Hrender].
      { unfold mapBlock, mapJobEvents in *.
        destruct o; in_block Hin; injection Hin as -> -> ->;
          (split; [done|]); cbn; rewrite !elem_of_cons; auto. }
      split; [done|]. right. exists file.
      split; [by eapply list_elem_of_lookup_2|]. by eapply Hblock.
    + destruct Htl as [->|[a ->]]; [by apply elem_of_nil in Hin|].
      apply list_elem_of_singleton in Hin. injection Hin as -> -> ->. auto.
Qed.

Lemma X8_witness :
  "adapter.getBasePath()\map.html"
  = mapOutputFile (settings (freshState emptySettings))
  ∧ mapHeader = mapHeader.
Proof.
  apply (X8_map_renders_the_opened_note_and_appends_its_fragment quietHost
           (freshState emptySettings) [note "a.md"; note "b.md"; note "c.md"]
           (trace (mapExportAll quietHost false (freshState emptySettings)).1))
    with (r := None).
  - discriminate.
  - reflexivity.
  - vm_compute. reflexivity.
  - vm_compute. repeat constructor.
Defined.

(** ** Notifications of the map batch *)

Lemma notices_map_block h outputFile file o :
  settled o →
  notices (mapBlock h outputFile file o)
  = [mapStartNotice (getFullPath h (file_path file));
     outcomeNotice outputFile o].
Proof. by destruct o. Qed.

Lemma notices_map_blocks h outputFile files outs :
  Forall settled outs →
  length outs = length files →
  length (notices (concat (zip_with (mapBlock h outputFile) files outs)))
  = 2 * length files.
Proof.
  intros Hall. revert files.
  induction Hall as [|o outs Ho _ IH]; intros [|f files] Hlen; try done.
  cbn [zip_with concat length]. rewrite notices_app, length_app.
  rewrite notices_map_block by done. rewrite IH by (cbn in Hlen; lia).
  cbn. lia.
Qed.

(** X9.  In a run of "Export all as mind map" over [N] notes where no
    [openFile] fails, every job shows exactly two notifications,
    "Exporting ... to map" and then its outcome (success, or the failure
    with its error for fifteen seconds); the header and the footer show
    none, so the run shows [2 * N] notifications. *)
Theorem X9_map_two_notices_per_job (h : Host) (s : State) (files : list TFile) :
  activeLeaf s ≠ None →
  getMarkdownFiles h = Ok files →
  (∀ tr f, openFile_error h tr f = None) →
  ∃ outs,
    length outs = length files ∧
    notices (trace (mapExportAll h false s).1)
    = notices (trace s)
      ++ concat (zip_with
                   (λ file o,
                      [mapStartNotice (getFullPath h (file_path file));
                       outcomeNotice (mapOutputFile (settings s)) o])
                   files outs) ∧
    length (notices (trace (mapExportAll h false s).1))
    = length (notices (trace s)) + 2 * length files.
Proof.
  intros Hleaf Hfiles Hnever.
  destruct (mapExportAll_effects h s files Hleaf Hfiles)
    as (outs & tail & s' & -> & Hshape & Htrace & _ & _ & _ & _ & _ & Htail
        & _ & _ & Hall & _).
  specialize (Hall Hnever).
  destruct (batchShape_all_settled _ _ Hshape Hall) as [Hlen Hres].
  rewrite Hres in Htail. destruct Htail as (a & -> & _).
  exists outs. split; [done|]. cbn [fst].
  rewrite Htrace, !notices_app, notices_jobAdded. cbn [notices omap app].
  change (omap noticeOf ?l) with (notices l).
  assert (notices [AppendFile (mapOutputFile (settings s)) footer a] = [])
    as -> by done.
  assert (notices [WriteFile (mapOutputFile (settings s)) mapHeader
                     (writeFile_error h (trace s) (mapOutputFile (settings s))
                        mapHeader)] = []) as -> by done.
  assert (notices [jobsCounted (length files)] = []) as -> by done.
  cbn [app]. rewrite app_nil_r. split.
  - f_equal. clear -Hall Hlen. revert files Hlen.
    induction Hall as [|o outs Ho _ IH]; intros [|f files] Hlen; try done.
    cbn [zip_with concat]. rewrite notices_app, notices_map_block by done.
    rewrite IH by (cbn in Hlen; lia). done.
  - rewrite length_app, notices_map_blocks by done. lia.
Qed.

Lemma X9_witness :
  ∃ outs : list JobOutcome, length outs = 3
          ∧ length (notices
              (trace (mapExportAll unrenderableHost false
                        (freshState emptySettings)).1))
            = 0 + 2 * 3.
Proof.
  destruct (X9_map_two_notices_per_job unrenderableHost
              (freshState emptySettings) [note "a.md"; note "b.md"; note "c.md"])
    as (outs & Hlen & _ & Hcount); [discriminate|reflexivity|reflexivity|].
  exists outs. split; [exact Hlen|exact Hcount].
Defined.

(** ** Running a command again *)

(** X10.  On a host whose collaborators answer the same whatever happened
    before, running "Export all as html" a second time leaves the disk
    exactly as the first run left it. *)
Theorem X10_html_export_twice_same_disk (h : Host) (s : State)
    (files : list TFile) :
  forgetful h →
  activeLeaf s ≠ None →
  getMarkdownFiles h = Ok files →
  disk (htmlExportAll h false (htmlExportAll h false s).1).1
  = disk (htmlExportAll h false s).1.
Proof.
  intros Hforgetful Hleaf Hfiles.
  destruct (htmlExportAll_effects h s files Hleaf Hfiles)
    as (outs & s1 & -> & _ & _ & Hset & _ & _ & Hl & _ & Hdisk & _ & Houts).
  cbn [fst].
  destruct (htmlExportAll_effects h s1 files)
    as (outs2 & s2 & -> & _ & _ & _ & _ & _ & _ & _ & Hdisk2 & _ & Houts2);
    [rewrite Hl; by apply leafAfterJobs_Some|done|].
  cbn [fst].
  rewrite Hdisk2, (Houts2 Hforgetful), Hset, <- (Houts Hforgetful), Hdisk.
  apply diskAfterHtmlJobs_twice.
Qed.

Lemma X10_witness :
  disk (htmlExportAll unrenderableHost false
          (htmlExportAll unrenderableHost false (freshState emptySettings)).1).1
  = disk (htmlExportAll unrenderableHost false (freshState emptySettings)).1.
Proof.
  apply (X10_html_export_twice_same_disk unrenderableHost
           (freshState emptySettings) [note "a.md"; note "b.md"; note "c.md"]).
  - repeat split; reflexivity.
  - discriminate.
  - reflexivity.
Defined.

(** X11.  On such a host, when it also takes as long over the write of
    the header each time and that write succeeds, running "Export all as
    mind map" a second time leaves the disk exactly as the first run left
    it: what the destination held before a run plays no part in what it
    holds after. *)
Theorem X11_map_export_twice_same_disk (h : Host) (s : State)
    (files : list TFile) :
  forgetful h →
  steady h →
  activeLeaf s ≠ None →
  getMarkdownFiles h = Ok files →
  writeFile_error h [] (mapOutputFile (settings s)) mapHeader = None →
  disk (mapExportAll h false (mapExportAll h false s).1).1
  = disk (mapExportAll h false s).1.
Proof.
  intros Hforgetful Hsteady Hleaf Hfiles Hheader.
  pose proof Hforgetful as (_ & _ & Hw & Ha).
  destruct (mapExportAll_effects h s files Hleaf Hfiles)
    as (outs & tail & s1 & -> & _ & _ & Hset & _ & Hl & _ & Hframe & Htail
        & Hdisk & _ & _ & Houts).
  cbn [fst].
  destruct (mapExportAll_effects h s1 files)
    as (outs2 & tail2 & s2 & -> & _ & _ & _ & _ & _ & _ & Hframe2 & Htail2
        & Hdisk2 & _ & _ & Houts2);
    [rewrite Hl; by apply leafAfterJobs_Some|done|].
  cbn [fst]. rewrite Hset in *.
  rewrite (Houts2 Hforgetful), <- (Houts Hforgetful) in Htail2, Hdisk2.
  clear Houts Houts2 outs2.
  assert (tail2 = tail) as ->.
  { destruct (batchResult outs) as [[]|e]; [|congruence].
    destruct Htail as (a & -> & tr & ->).
    destruct Htail2 as (a2 & -> & tr2 & ->).
    by rewrite (Ha tr tr2). }
  apply map_eq. intros p.
  destruct (decide (p = mapOutputFile (settings s))) as [->|Hp].
  2: { by apply Hframe2. }
  rewrite Hdisk2, Hdisk.
  rewrite !headerWrite_content by (rewrite ?Hset; by rewrite (Hw _ [])).
  by rewrite Hset, (Hsteady (trace s1) (trace s)).
Qed.

Lemma X11_witness :
  disk (mapExportAll slowWriteHost false
          (mapExportAll slowWriteHost false (freshState emptySettings)).1).1
  = disk (mapExportAll slowWriteHost false (freshState emptySettings)).1.
Proof.
  apply (X11_map_export_twice_same_disk slowWriteHost
           (freshState emptySettings) [note "a.md"; note "b.md"; note "c.md"]).
  - repeat split; reflexivity.
  - intros tr tr' p data. reflexivity.
  - discriminate.
  - reflexivity.
  - reflexivity.
Defined.

(** ** Detection of the tools, again and with the eligibility test *)

Lemma createBinaryMap_feature h s :
  feature (createBinaryMap h s).1 "pandoc"
  = js_or (pandoc (settings s)) (lookpath h "pandoc")
  ∧ feature (createBinaryMap h s).1 "pdflatex"
    = js_or (pdflatex (settings s)) (lookpath h "pdflatex").
Proof.
  unfold createBinaryMap, feature. cbn.
  by rewrite lookup_insert_eq, lookup_insert_ne, lookup_insert_eq.
Qed.

(** X12.  [createBinaryMap] can be run again at no cost: a second run
    leaves the state exactly as the first did.  It binds the keys [pandoc]
    and [pdflatex] only; any other key of the capability map, and every
    other part of the state, is as before. *)
Theorem X12_createBinaryMap_again_changes_nothing (h : Host) (s : State) :
  createBinaryMap h (createBinaryMap h s).1 = ((createBinaryMap h s).1, Ok tt)
  ∧ (∀ k, k ≠ "pandoc" → k ≠ "pdflatex" →
          features (createBinaryMap h s).1 !! k = features s !! k)
  ∧ settings (createBinaryMap h s).1 = settings s
  ∧ disk (createBinaryMap h s).1 = disk s
  ∧ activeLeaf (createBinaryMap h s).1 = activeLeaf s
  ∧ activeFile (createBinaryMap h s).1 = activeFile s.
Proof.
  split; [|split; [|done]].
  - unfold createBinaryMap, setFeature. cbn. f_equal. f_equal.
    apply map_eq. intros k.
    rewrite !lookup_insert.
    destruct (decide ("pdflatex" = k)); [done|].
    by destruct (decide ("pandoc" = k)).
  - intros k Hp Hl. unfold createBinaryMap. cbn.
    by rewrite !lookup_insert_ne by congruence.
Qed.

Lemma X12_witness :
  createBinaryMap quietHost (createBinaryMap quietHost readingState).1
  = ((createBinaryMap quietHost readingState).1, Ok tt).
Proof.
  apply (X12_createBinaryMap_again_changes_nothing quietHost readingState).
Defined.

Lemma truthy_js_or a b : truthy (js_or a b) = truthy a || truthy b.
Proof. unfold js_or. by destruct (truthy a) eqn:Ha. Qed.

Section DetectionAndEligibility.
Variable inputExtensions : list string.
Variables needsPandoc needsLaTeX : OutputFormat → bool.

(** X13.  On the desktop, once [createBinaryMap] has run (with a [lookpath]
    that finds real paths), [currentFileCanBeExported(format)] is true
    exactly when each tool that [format] needs has a non-empty path in the
    settings or is found by [lookpath], and the active file's full path
    ends with one of the input extensions. *)
Theorem X13_eligible_after_detection (h : Host) (s : State)
    (format : OutputFormat) :
  desktopHost h →
  (∀ name, lookpath h name ≠ Some "") →
  currentFileCanBeExported inputExtensions needsPandoc needsLaTeX h
    (createBinaryMap h s).1 format = true
  ↔ (needsPandoc format = true →
     truthy (pandoc (settings s)) = true ∨ is_Some (lookpath h "pandoc"))
    ∧ (needsLaTeX format = true →
       truthy (pdflatex (settings s)) = true ∨ is_Some (lookpath h "pdflatex"))
    ∧ ∃ fileData, activeFile s = Some fileData
        ∧ ∃ ext, ext ∈ inputExtensions
                 ∧ endsWith (getFullPath h (file_path fileData)) ext = true.
Proof.
  intros [Hfs Hfull] Hlook.
  assert (∀ name, truthy (lookpath h name) = true ↔ is_Some (lookpath h name))
    as Hfound.
  { intros name. specialize (Hlook name).
    destruct (lookpath h name) as [p|]; cbn.
    - destruct (String.eqb_spec p ""); [congruence|]. split; [by eexists|done].
    - split; [done|]. by intros [? ?]. }
  rewrite currentFileCanBeExported_true.
  destruct (createBinaryMap_feature h s) as [-> ->].
  rewrite !truthy_js_or, !orb_true_iff, !Hfound.
  unfold getCurrentFile. rewrite Hfs.
  change (activeFile (createBinaryMap h s).1) with (activeFile s).
  split.
  - intros (Hp & Hl & file & Hfile & _ & Hext). repeat split; try done.
    destruct (activeFile s) as [fileData|]; [|done].
    injection Hfile as <-. by exists fileData.
  - intros (Hp & Hl & fileData & -> & Hext). repeat split; try done.
    by exists (getFullPath h (file_path fileData)).
Qed.

(** X14.  [currentFileCanBeExported] is false for every format when the
    vault adapter is not a [FileSystemAdapter], when there is no active
    file, or when the active file has an empty full path; and it is false
    for a format that needs a tool whose capability is bound to the empty
    string, as when it is bound to nothing. *)
Theorem X14_never_eligible (h : Host) (s : State) (format : OutputFormat) :
  adapterIsFileSystemAdapter h = false
  ∨ activeFile s = None
  ∨ (∃ fileData, activeFile s = Some fileData
                 ∧ getFullPath h (file_path fileData) = "")
  ∨ (needsPandoc format = true ∧ truthy (feature s "pandoc") = false)
  ∨ (needsLaTeX format = true ∧ truthy (feature s "pdflatex") = false) →
  currentFileCanBeExported inputExtensions needsPandoc needsLaTeX h s format
  = false.
Proof.
  intros Hcase. apply not_true_is_false.
  rewrite currentFileCanBeExported_true.
  intros (Hp & Hl & file & Hfile & Hne & _). unfold getCurrentFile in Hfile.
  destruct Hcase as [Hfs|[Hnone|[(fileData & Hactive & Hempty)|[[Hn Hf]|[Hn Hf]]]]].
  - rewrite Hfs in Hfile. by destruct (activeFile s).
  - by rewrite Hnone in Hfile.
  - rewrite Hactive in Hfile.
    destruct (adapterIsFileSystemAdapter h); [|done]. congruence.
  - specialize (Hp Hn). congruence.
  - specialize (Hl Hn). congruence.
Qed.
End DetectionAndEligibility.

Lemma X13_witness :
  currentFileCanBeExported ["md"; "docx"] (λ f, negb (String.eqb f "html"))
    (λ f, String.eqb f "pdf") quietHost
    (createBinaryMap quietHost readingState).1 "html" = true.
Proof.
  apply (X13_eligible_after_detection ["md"; "docx"]
           (λ f, negb (String.eqb f "html")) (λ f, String.eqb f "pdf")
           quietHost readingState "html").
  - split; [reflexivity|]. intros p. discriminate.
  - intros name. discriminate.
  - split; [discriminate|]. split; [discriminate|].
    exists (note "notes/a.md"). split; [reflexivity|].
    exists "md". split; [apply list_elem_of_here|reflexivity].
Defined.

Lemma X14_witness :
  currentFileCanBeExported ["md"; "docx"] (λ f, negb (String.eqb f "html"))
    (λ f, String.eqb f "pdf") quietHost (freshState emptySettings) "html"
  = false.
Proof.
  apply (X14_never_eligible ["md"; "docx"]
           (λ f, negb (String.eqb f "html")) (λ f, String.eqb f "pdf")
           quietHost (freshState emptySettings) "html").
  right. left. reflexivity.
Defined.

(** ** Destinations of the html export, for any input path *)

Lemma split_segments_plain p :
  Forall (λ seg, hasChar path.slash seg = false) (path.split p).
Proof.
  induction p as [|c p IH]; cbn; [by repeat constructor|].
  destruct (Ascii.eqb c path.slash) eqn:Hc; [by constructor|].
  destruct (path.split p) as [|seg segs].
  { constructor; [cbn; by rewrite Hc|constructor]. }
  apply Forall_cons in IH as [Hseg Hsegs]. constructor; [|done].
  cbn. by rewrite Hc.
Qed.

Lemma split_append_plain a b :
  hasChar path.slash b = false →
  ∃ init l, path.split a = init ++ [l] ∧ path.split (a +:+ b) = init ++ [l +:+ b].
Proof.
  intros Hb. induction a as [|c a (init & l & Ha & Hab)].
  - exists [], "". rewrite append_nil_l, (split_plain b) by done. done.
  - rewrite append_cons. cbn. rewrite Ha, Hab.
    destruct (Ascii.eqb c path.slash).
    + by exists ("" :: init), l.
    + destruct init as [|x init]; cbn.
      * by exists [], (String c l).
      * by exists (String c x :: init), l.
Qed.

(** The base name of anything that ends in [.html] is a name without
    separator that ends in [.html]. *)
Lemma basename_html stem :
  ∃ name, hasChar path.slash name = false
          ∧ path.basename (stem +:+ ".html") = name +:+ ".html".
Proof.
  destruct (split_append_plain stem ".html") as (init & l & Hstem & Hsplit);
    [done|].
  exists l. split.
  - pose proof (split_segments_plain stem) as Hall. rewrite Hstem in Hall.
    apply Forall_app in Hall as [_ Hl]. by rewrite Forall_singleton in Hl.
  - unfold path.basename. rewrite Hsplit, reverse_snoc.
    rewrite filter_cons_True; [done|].
    intros Heq. apply (f_equal String.length) in Heq.
    rewrite length_append in Heq. cbn in Heq. lia.
Qed.

(** X15.  Whatever the input path, with no output folder set the html
    export writes to a file directly under [html/] whose name has no
    separator and ends in [.html]; with an output folder [F] (such that
    [F\html] is in normal form) it writes to such a file under [F\html].
    The folders of the input path leave no trace in the destination. *)
Theorem X15_html_destination_is_flat (st : PandocPluginSettings)
    (inputFile : string) :
  ∃ name,
    hasChar path.slash name = false
    ∧ (truthy (outputFolder st) = false →
       htmlOutputFile st inputFile = "html/" +:+ name +:+ ".html")
    ∧ (∀ folder, outputFolder st = Some folder → folder ≠ "" →
         path.normalize (folder +:+ "\html") = folder +:+ "\html" →
         htmlOutputFile st inputFile
         = folder +:+ "\html" +:+ "/" +:+ name +:+ ".html").
Proof.
  destruct (basename_html (default inputFile (beforeLastDot inputFile)))
    as (name & Hname & Hbase).
  assert (path.basename (replaceFileExtension inputFile "html")
          = name +:+ ".html") as Hbase' by exact Hbase.
  pose proof (html_name_plain name Hname) as Hplain.
  exists name. split; [done|]. split.
  - intros Hfolder. unfold htmlOutputFile. rewrite Hfolder, Hbase'.
    rewrite join_normal; try done.
    rewrite <- !append_assoc. by rewrite endsWith_append by (cbn; lia).
  - intros folder Hset Hne Hnormal. unfold htmlOutputFile.
    rewrite Hset. cbn [truthy from_option id].
    destruct (String.eqb_spec folder ""); [done|]. cbn [negb].
    rewrite Hbase'. change ("\" +:+ "html") with "\html".
    assert (String.length (folder +:+ "\html") = String.length folder + 5)
      as Hlen by by rewrite length_append.
    rewrite join_normal; try done.
    + by rewrite append_assoc.
    + intros Heq. rewrite Heq in Hlen. cbn in Hlen. lia.
    + intros Heq. rewrite Heq in Hlen. cbn in Hlen. lia.
    + by rewrite endsWith_append by (cbn; lia).
    + rewrite <- !append_assoc. by rewrite endsWith_append by (cbn; lia).
Qed.

Lemma X15_witness :
  ∃ name,
    hasChar path.slash name = false
    ∧ htmlOutputFile emptySettings "/vault/projects/2024/plan.v2.md"
      = "html/" +:+ name +:+ ".html".
Proof.
  destruct (X15_html_destination_is_flat emptySettings
              "/vault/projects/2024/plan.v2.md") as (name & Hname & Hflat & _).
  exists name. split; [exact Hname|]. apply Hflat. reflexivity.
Defined.

(** X16.  Two notes with the same name in different folders, whatever their
    extensions, have the same html destination, with or without an output
    folder: [x/a.md] and [y/a.md] are both exported to [a.html]. *)
Theorem X16_same_name_same_destination (st : PandocPluginSettings)
    (dir1 dir2 name ext1 ext2 : string) :
  hasChar path.slash name = false →
  hasChar "."%char ext1 = false →
  hasChar "."%char ext2 = false →
  htmlOutputFile st (dir1 +:+ "/" +:+ name +:+ "." +:+ ext1)
  = htmlOutputFile st (dir2 +:+ "/" +:+ name +:+ "." +:+ ext2).
Proof.
  intros Hname Hext1 Hext2.
  pose proof (html_name_plain name Hname) as (Hplain & Hne & _).
  assert (∀ dir ext, hasChar "."%char ext = false →
            path.basename
              (replaceFileExtension (dir +:+ "/" +:+ name +:+ "." +:+ ext) "html")
            = name +:+ ".html") as Hbase.
  { intros dir ext Hext.
    rewrite <- !append_assoc, (append_assoc _ "." ext).
    rewrite replaceFileExtension_swaps by done.
    rewrite !append_assoc. change ("." +:+ "html") with ".html".
    by apply basename_join. }
  unfold htmlOutputFile. by rewrite !Hbase.
Qed.

Lemma X16_witness :
  htmlOutputFile emptySettings ("/vault/x" +:+ "/" +:+ "a" +:+ "." +:+ "md")
  = htmlOutputFile emptySettings ("/vault/y" +:+ "/" +:+ "a" +:+ "." +:+ "markdown").
Proof.
  apply (X16_same_name_same_destination emptySettings
           "/vault/x" "/vault/y" "a" "md" "markdown"); reflexivity.
Defined.
